(** * liblightbase: schema compilation, document validation and generated
    document types

    A shallow embedding of
      - [liblightbase/lbbase/__init__.py]   (module [LbbaseInit]),
      - [liblightbase/lbbase/struct.py]     (module [LbbaseStruct]),
      - [liblightbase/lbdoc/metaclass.py]   (module [LbdocMetaclass]),
    together with the collaborators these files call: the [voluptuous]
    schema library (module [Voluptuous]) and the structure model of
    [lbstruct] / [Content] (module [Lbstruct]).

    Python objects are carried by value ([val]); the raw document handed to
    [Base.validate] lives in a store ([heap]) because [validate] mutates the
    caller's mapping and returns another one.  Exceptions are the left
    summand of [res]. *)

From Stdlib Require Import ZArith String List Bool Lia.
From stdpp Require Import base option list gmap strings.

Set Warnings "-register-all".

Open Scope string_scope.
Open Scope list_scope.

(** ** Python values *)

Module Py.

(** Classes whose instances occur in the model. *)
Inductive pyclass :=
| DocClass (sname : option string)
    (* generated document type: [None] is the base-level type,
       [Some n] the type generated for the group named [n] *)
| UserClass (cname : string).
    (* ordinary class of a collaborator, e.g. DocumentMetadata *)

Inductive val :=
| VNone
| VBool (b : bool)
| VInt (z : Z)
| VStr (s : string)
| VList (xs : list val)                       (* list *)
| VDict (kv : list (string * val))            (* dict, in insertion order *)
| VInst (cls : pyclass) (attrs : list (string * val))
    (* instance of [cls] with its attribute storage *)
| VField (fname : string) (value__ : option val)
    (* instance of the FieldMetaClass of field [fname]; [value__] is the
       attribute __value__, [None] while it is not yet set *)
| VMulti (gname : string) (xs : list val).
    (* instance of the MultiGroupMetaClass (a list subclass) of group [gname] *)

(** A dict with string keys, in insertion order.  Keys are pairwise
    distinct in every dict Python can build ([dict_wf]). *)
Definition pydict := list (string * val).

Definition keys (d : pydict) : list string := map fst d.
Definition dict_wf (d : pydict) : Prop := NoDup (keys d).

(** [d.get(k)] / [d[k]] *)
Fixpoint dict_get (k : string) (d : pydict) : option val :=
  match d with
  | [] => None
  | (k', v) :: rest => if String.eqb k' k then Some v else dict_get k rest
  end.

(** [k in d] *)
Definition dict_has (k : string) (d : pydict) : bool :=
  match dict_get k d with Some _ => true | None => false end.

(** [d[k] = v]: an existing key keeps its position, a new one goes last. *)
Fixpoint dict_set (k : string) (v : val) (d : pydict) : pydict :=
  match d with
  | [] => [(k, v)]
  | (k', v') :: rest =>
      if String.eqb k' k then (k', v) :: rest else (k', v') :: dict_set k v rest
  end.

(** [del d[k]] on a dict that has [k]. *)
Fixpoint dict_del (k : string) (d : pydict) : pydict :=
  match d with
  | [] => []
  | (k', v') :: rest =>
      if String.eqb k' k then rest else (k', v') :: dict_del k rest
  end.

(** Exceptions.  The payload keeps what the message is formatted from. *)
Inductive exn :=
| TypeError_required (missing : gset string)
    (* TypeError('Required structure {} not provided'.format(a-b)) *)
| TypeError (what : string)
| AttributeError_structure (basename arg : string)
    (* AttributeError('Base {} has no structure named {}') *)
| AttributeError (attr : string)
| AssertionError (msg : string)
| KeyError (key : string)
| KeyError_id (id : Z)
| IndexError (msg : string)
| RecursionError
| Invalid (msg : string) (key : string)       (* voluptuous.Invalid *)
| MultipleInvalid (errors : list exn)         (* voluptuous.MultipleInvalid *)
| ValueError (msg : string)
| Exception (msg : string) (details : exn).
    (* Exception(msg % str(e)) *)

Definition res (A : Type) : Type := exn + A.

Definition raise {A} (e : exn) : res A := inl e.
Definition ret {A} (a : A) : res A := inr a.
Definition bind {A B} (m : res A) (k : A → res B) : res B :=
  match m with inl e => inl e | inr a => k a end.

(** [isinstance(e, TypeError)] *)
Definition is_TypeError (e : exn) : bool :=
  match e with
  | TypeError_required _ | TypeError _ => true
  | _ => false
  end.

(** [isinstance(e, AttributeError)] *)
Definition is_AttributeError (e : exn) : bool :=
  match e with
  | AttributeError_structure _ _ | AttributeError _ => true
  | _ => false
  end.

(** [isinstance(e, voluptuous.Invalid)]; MultipleInvalid derives from it. *)
Definition is_Invalid (e : exn) : bool :=
  match e with
  | Invalid _ _ | MultipleInvalid _ => true
  | _ => false
  end.

(** What voluptuous collects when a validator raises it: an Invalid, or a
    ValueError, which the wrapper of a callable turns into an Invalid. *)
Definition is_collected (e : exn) : bool :=
  match e with
  | Invalid _ _ | MultipleInvalid _ | ValueError _ => true
  | _ => false
  end.

(** [isinstance(v, list)]: a list or an instance of a list subclass. *)
Definition as_list (v : val) : option (list val) :=
  match v with
  | VList xs | VMulti _ xs => Some xs
  | _ => None
  end.

(** [bool(v)] *)
Definition truthy (v : val) : bool :=
  match v with
  | VNone => false
  | VBool b => b
  | VInt z => negb (Z.eqb z 0)
  | VStr s => negb (String.eqb s "")
  | VList xs | VMulti _ xs => match xs with [] => false | _ => true end
  | VDict kv => match kv with [] => false | _ => true end
  | VInst _ _ | VField _ _ => true
  end.

End Py.
Export Py.

Notation "x <- m ;; k" := (bind m (fun x => k))
  (at level 100, m at next level, right associativity).

(** [[f(x) for x in xs]]: stops at the first exception. *)
Definition mapM {A B} (f : A → res B) : list A → res (list B) :=
  fix go (xs : list A) : res (list B) :=
    match xs with
    | [] => ret []
    | x :: rest => y <- f x ;; ys <- go rest ;; ret (y :: ys)
    end.

(** [for x in v]: the elements of a list, the keys of a dict, the
    characters of a string. *)
Fixpoint chars (s : string) : list val :=
  match s with
  | EmptyString => []
  | String c rest => VStr (String c EmptyString) :: chars rest
  end.

Definition py_iter (v : val) : res (list val) :=
  match v with
  | VList xs | VMulti _ xs => ret xs
  | VDict kv => ret (map (λ k, VStr k) (keys kv))
  | VStr s => ret (chars s)
  | _ => raise (TypeError "object is not iterable")
  end.

(** ** The structure model ([lbstruct], [Content])

    The classes Field, Group and Content are not among the given sources;
    their attributes are the ones the given code reads. *)

Module Lbstruct.

Record Field := {
  name : string;
  _datatype : string;        (* name of the datatype in lbtypes *)
  required : bool;
  multivalued : bool;
  is_rel : bool;
}.

Record GroupMetadata := {
  gname : string;
  gmultivalued : bool;
}.

(** A Group also answers [getattr(struct, 'required', False)]: the flag is
    [grequired], [false] for a Group without the attribute. *)
Inductive Struct :=
| SField (f : Field)
| SGroup (metadata : GroupMetadata) (grequired : bool) (content : list Struct).

Definition Content := list Struct.

Definition is_field (s : Struct) : bool :=
  match s with SField _ => true | SGroup _ _ _ => false end.
Definition is_group (s : Struct) : bool :=
  match s with SField _ => false | SGroup _ _ _ => true end.

(** [struct.name] for a Field, [struct.metadata.name] for a Group. *)
Definition structname (s : Struct) : string :=
  match s with SField f => name f | SGroup md _ _ => gname md end.

(** [getattr(struct, 'required', False)] *)
Definition getattr_required (s : Struct) : bool :=
  match s with SField f => required f | SGroup _ r _ => r end.

(** Modelled from the spec: Content.__snames__, the legal child names of one
    Content level, in schema order. *)
Definition __snames__ (c : Content) : list string := map structname c.

(** Modelled from the spec: Content.__rnames__, the required-name set of one
    Content level. *)
Definition __rnames__ (c : Content) : list string :=
  map structname (filter (λ s, getattr_required s) c).

(** Modelled from the spec: Content.__allstructs__, every structure of the
    tree by name ("{structure name: structure}").  When a name occurs twice in
    the tree the first occurrence in depth-first order is the one found. *)
Fixpoint struct_allstructs (s : Struct) : list (string * Struct) :=
  (structname s, s) ::
  match s with
  | SField _ => []
  | SGroup _ _ inner =>
      (fix content_allstructs (c : list Struct) : list (string * Struct) :=
         match c with
         | [] => []
         | s' :: rest => struct_allstructs s' ++ content_allstructs rest
         end) inner
  end.

Definition __allstructs__ (c : Content) : list (string * Struct) :=
  concat (map struct_allstructs c).

Fixpoint find_struct (sname : string) (l : list (string * Struct)) : option Struct :=
  match l with
  | [] => None
  | (n, s) :: rest => if String.eqb n sname then Some s else find_struct sname rest
  end.

(** The name does not begin with an underscore. *)
Definition plain_name (n : string) : bool :=
  negb (String.eqb (substring 0 1 n) "_").

(** A name that a call can pass as a keyword argument to the constructor
    of a generated type and that none of the attributes every object has
    ([__dict__], [__class__], ...) is the private name of: it does not
    begin with an underscore and it is not [self], the name of the first
    parameter of [__init__]. *)
Definition keyword_name (n : string) : bool :=
  (plain_name n && negb (String.eqb n "self"))%bool.

(** The names of one Content level are distinct and none begins with an
    underscore. *)
Definition plain_level (c : Content) : Prop :=
  NoDup (__snames__ c) ∧ Forall (λ n, plain_name n = true) (__snames__ c).

End Lbstruct.
Export Lbstruct.

(** ** voluptuous

    The part of the [voluptuous] library the code relies on: a schema given
    as a dict from keys (bare names or [Required(name)] markers) to
    validators, applied to a mapping.  Validators are callables; those of
    [lbtypes] are handed the base and may update it, so a validator is a
    function on a state [S]. *)

Module Voluptuous.

(** A key of a schema dict: the bare name or [voluptuous.Required(name)]. *)
Inductive Marker :=
| Plain (k : string)
| Required (k : string).

(** [Marker.schema] *)
Definition marker_schema (m : Marker) : string :=
  match m with Plain k | Required k => k end.

Definition is_Required (m : Marker) : bool :=
  match m with Required _ => true | Plain _ => false end.

Section Schema.
Context {S : Type}.

Definition validator : Type := val → S → S * res val.

Definition schema_dict : Type := list (Marker * validator).

(** [schema.update({key: v})].  [Marker.__eq__] and [Marker.__hash__] go by
    the wrapped name, so a marker and a bare name for the same structure are
    one dict key: the entry keeps the key object it was created with and
    takes the new value. *)
Fixpoint schema_update (key : Marker) (v : validator) (schema : schema_dict)
  : schema_dict :=
  match schema with
  | [] => [(key, v)]
  | (key', v') :: rest =>
      if String.eqb (marker_schema key') (marker_schema key)
      then (key', v) :: rest
      else (key', v') :: schema_update key v rest
  end.

(** The schema entry a data key is checked against. *)
Fixpoint schema_find (key : string) (schema : schema_dict)
  : option (Marker * validator) :=
  match schema with
  | [] => None
  | (skey, cvalue) :: rest =>
      if String.eqb (marker_schema skey) key then Some (skey, cvalue)
      else schema_find key rest
  end.

(** [all_required_keys]: the keys of the schema that are Required markers. *)
Definition all_required_keys (schema : schema_dict) : list string :=
  map marker_schema (filter is_Required (map fst schema)).

(** [required_keys.discard(skey)] *)
Definition discard (skey : Marker) (required_keys : list string) : list string :=
  filter (λ k, negb (String.eqb k (marker_schema skey))) required_keys.

(** [exception_errors]: a MultipleInvalid contributes its errors, a plain
    Invalid itself. *)
Definition exception_errors (e : exn) : list exn :=
  match e with MultipleInvalid errors => errors | _ => [e] end.

(** [validate_mapping]: every item of the data is looked up in the schema
    and validated; the errors voluptuous catches are collected and
    validation goes on with the next item, any other exception leaves at
    once; afterwards every
    required key that was not seen is an error. *)
Fixpoint validate_mapping (schema : schema_dict) (items : pydict)
    (required_keys : list string) (out : pydict) (errors : list exn) (st : S)
  : S * res pydict :=
  match items with
  | [] =>
      let errors :=
        errors ++ map (Invalid "required key not provided") required_keys in
      match errors with
      | [] => (st, ret out)
      | _ => (st, raise (MultipleInvalid errors))
      end
  | (key, value) :: rest =>
      match schema_find key schema with
      | None =>
          validate_mapping schema rest required_keys out
            (errors ++ [Invalid "extra keys not allowed" key]) st
      | Some (skey, cvalue) =>
          match cvalue value st with
          | (st', inr cval) =>
              validate_mapping schema rest (discard skey required_keys)
                (dict_set key cval out) errors st'
          | (st', inl e) =>
              if is_collected e then
                validate_mapping schema rest (discard skey required_keys)
                  out (errors ++ exception_errors e) st'
              else (st', raise e)
          end
      end
  end.

(** [Schema(schema)(data)] for a dict schema: the data has to be a dict and
    the result is built in a new dict ([out = type(data)()]). *)
Definition Schema (schema : schema_dict) : validator :=
  λ data st,
    match data with
    | VDict items =>
        match validate_mapping schema items (all_required_keys schema) [] [] st with
        | (st', inr out) => (st', ret (VDict out))
        | (st', inl e) => (st', raise e)
        end
    | _ => (st, raise (MultipleInvalid [Invalid "expected a dictionary" ""]))
    end.

(** [validate_sequence] for the schema [[validate]]: every element of the
    data is validated on its own. *)
Fixpoint validate_sequence (validate : validator) (elements : list val)
    (out : list val) (errors : list exn) (st : S) : S * res (list val) :=
  match elements with
  | [] =>
      match errors with
      | [] => (st, ret out)
      | _ => (st, raise (MultipleInvalid errors))
      end
  | value :: rest =>
      match validate value st with
      | (st', inr cval) => validate_sequence validate rest (out ++ [cval]) errors st'
      | (st', inl e) =>
          if is_collected e then
            validate_sequence validate rest out (errors ++ exception_errors e) st'
          else (st', raise e)
      end
  end.

(** [Schema([validate])(data)]: the data has to be a list. *)
Definition Sequence (validate : validator) : validator :=
  λ data st,
    match data with
    | VList elements =>
        match validate_sequence validate elements [] [] st with
        | (st', inr out) => (st', ret (VList out))
        | (st', inl e) => (st', raise e)
        end
    | _ => (st, raise (MultipleInvalid [Invalid "expected a list" ""]))
    end.

(** Every validator of the schema preserves the property [P] of the state. *)
Definition validators_preserve (P : S → Prop) (schema : schema_dict) : Prop :=
  Forall (λ entry, ∀ v st, P st → P (entry.2 v st).1) schema.

End Schema.
Arguments validator : clear implicits.
Arguments schema_dict : clear implicits.

End Voluptuous.
Export Voluptuous.

(** ** lbbase/__init__.py *)

Module LbbaseInit.

(** What [Base.schema] reads of an element of [self.content]
    ([fields.Field] or [fields.Group]): [attr.name], the attribute
    [required] when the element has one, and [attr.schema]. *)
Record Attr {S : Type} := {
  attr_name : string;               (* attr.name *)
  attr_required : option val;       (* getattr(attr, 'required', None) *)
  attr_schema : validator S;        (* attr.schema *)
}.
Arguments Attr : clear implicits.

(** [obj.required] on a value: instances carry their attributes, anything
    else has no attribute [required]. *)
Definition getattr_required (obj : val) : res val :=
  match obj with
  | VInst _ attrs =>
      match dict_get "required" attrs with
      | Some v => ret v
      | None => raise (AttributeError "required")
      end
  | _ => raise (AttributeError "required")
  end.

(** One round of the loop of [Base.schema]. *)
Definition schema_step {S} (_schema : schema_dict S) (attr : Attr S)
  : res (schema_dict S) :=
  let required := match attr_required attr with Some r => r | None => VNone end in
  name <-
    (if truthy required then
       flag <- getattr_required required ;;
       match flag with
       | VBool true => ret (Required (attr_name attr))     (* is True *)
       | _ => ret (Plain (attr_name attr))
       end
     else ret (Plain (attr_name attr))) ;;
  ret (schema_update name (attr_schema attr) _schema).

(** [Base.schema]: the dict handed to [voluptuous.Schema]. *)
Fixpoint schema_from {S} (_schema : schema_dict S) (content : list (Attr S))
  : res (schema_dict S) :=
  match content with
  | [] => ret _schema
  | attr :: rest =>
      _schema' <- schema_step _schema attr ;; schema_from _schema' rest
  end.

Definition schema {S} (content : list (Attr S)) : res (schema_dict S) :=
  schema_from [] content.

(** The required flag of an element of the content: the attribute
    [required] of the object its attribute [required] holds, when that is
    the boolean True. *)
Definition required_flag {S} (attr : Attr S) : bool :=
  match attr_required attr with
  | Some (VInst _ attrs) =>
      match dict_get "required" attrs with
      | Some (VBool true) => true
      | _ => false
      end
  | _ => false
  end.

(** The attribute [required] of an element, when it has one that is not
    falsy, is an object with an attribute [required] of its own (the
    Required wrapper of [lbbase.fields]). *)
Definition required_attr_ok {S} (attr : Attr S) : Prop :=
  match attr_required attr with
  | None => True
  | Some r => truthy r = true → ∃ flag, getattr_required r = ret flag
  end.

(** The schema key compiled for an element. *)
Definition schema_key {S} (attr : Attr S) : Marker :=
  if required_flag attr then Required (attr_name attr)
  else Plain (attr_name attr).

End LbbaseInit.

(** ** lbdoc/metaclass.py *)

Module LbdocMetaclass.

(** The base object of this module: [base.metadata.name] and
    [base.content]. *)
Record Base := {
  metadata_name : string;
  content : Content;
}.

(** What [generate_metaclass] is handed as [struct]: a Field or a Group, or
    the Base itself when [base] is None. *)
Inductive owner :=
| OBase (b : Base)
| OStruct (s : Struct).

(** [struct.content] *)
Definition owner_content (o : owner) : res Content :=
  match o with
  | OBase b => ret (content b)
  | OStruct (SGroup _ _ c) => ret c
  | OStruct (SField _) => raise (AttributeError "content")
  end.

(** [struct.metadata.name] *)
Definition owner_name (o : owner) : res string :=
  match o with
  | OBase b => ret (metadata_name b)
  | OStruct (SGroup md _ _) => ret (gname md)
  | OStruct (SField _) => raise (AttributeError "metadata")
  end.

(** Private name mangling of the entries of [__slots__]: a name with two
    leading underscores that does not end in two underscores is stored as
    [_MetaClass] followed by the name. *)
Definition mangle (n : string) : string :=
  if (String.eqb (substring 0 2 n) "__"
      && negb (String.eqb (substring (String.length n - 2) 2 n) "__"))%bool
  then "_MetaClass" +:+ n
  else n.

(** The class [MetaClass] built by one call of [generate_metaclass], with
    the variables its methods close over. *)
Record MetaClassT := {
  cls_name : string;               (* MetaClass.__name__ *)
  cls_base : owner;                (* base *)
  cls_content : Content;           (* struct.content, one property each *)
  snames : list string;
  rnames : list string;
  build_metadata : bool;
  __valreq__ : bool;
  __slots__ : list string;
}.

(** The class of the instances of [C]. *)
Definition cls_id (C : MetaClassT) : pyclass :=
  if build_metadata C then DocClass None else DocClass (Some (cls_name C)).

(** [generate_metaclass(struct, base)], up to the properties, which
    [class_attr] looks up in [cls_content]. *)
Definition generate_metaclass (struct : owner) (base : option Base)
  : res MetaClassT :=
  let '(base, build_metadata) :=
    match base with
    | None => (struct, true)
    | Some b => (OBase b, false)
    end in
  content <- owner_content struct ;;
  let snames := __snames__ content in
  let rnames := __rnames__ content in
  let __slots__ := map (λ sname, mangle ("_" +:+ sname)) snames in
  let __slots__ :=
    if build_metadata then __slots__ ++ ["__metadata__"] else __slots__ in
  name <- owner_name struct ;;
  ret {| cls_name := name; cls_base := base; cls_content := content;
         snames := snames; rnames := rnames;
         build_metadata := build_metadata;
         __valreq__ := true; __slots__ := __slots__ |}.

(** [C] is a class [generate_metaclass] builds, over a level of distinct
    names without a leading underscore; a base-level class has no structure
    that is called [metadata]. *)
Definition generated_over (C : MetaClassT) : Prop :=
  (∃ struct base, generate_metaclass struct base = ret C)
  ∧ plain_level (cls_content C)
  ∧ (build_metadata C = true → "metadata" ∉ __snames__ (cls_content C)).

(** A generated type, as [base.metaclass(structname)] hands it out. *)
Inductive metaclass :=
| FieldMetaClassOf (field : Field)       (* generate_field_metaclass(field, base) *)
| MetaClassOf (C : MetaClassT).          (* generate_metaclass(group, base) *)

(** Modelled from the spec: Base.metaclass(structname), the generated type of
    the structure of that name ("addressable later by name"); the Base class
    of this module is not among the given sources. *)
Definition Base_metaclass (base : owner) (structname : string) : res metaclass :=
  match base with
  | OBase b =>
      match find_struct structname (__allstructs__ (content b)) with
      | Some (SField f) => ret (FieldMetaClassOf f)
      | Some (SGroup md r c) =>
          C <- generate_metaclass (OStruct (SGroup md r c)) (Some b) ;;
          ret (MetaClassOf C)
      | None => raise (KeyError structname)
      end
  | OStruct _ => raise (AttributeError "metaclass")
  end.

(** [isinstance(v, struct_metaclass)] *)
Definition isinstance (v : val) (struct_metaclass : metaclass) : bool :=
  match struct_metaclass, v with
  | FieldMetaClassOf f, VField n _ => String.eqb n (name f)
  | MetaClassOf C, VInst cls _ =>
      match cls_id C, cls with
      | DocClass None, DocClass None => true
      | DocClass (Some n), DocClass (Some n') => String.eqb n n'
      | _, _ => false
      end
  | _, _ => false
  end.

(** Modelled from the spec: lbutils.validate_required(rnames, kwargs), which
    fails when a name of the required-name set is absent from the input. *)
Definition validate_required (rnames : list string) (kwargs : pydict) : res unit :=
  let a : gset string := list_to_set rnames in
  let b : gset string := list_to_set (keys kwargs) in
  if decide (a ∖ b = ∅) then ret tt else raise (TypeError_required (a ∖ b)).

Section Generated.

(** [field._datatype.__schema__(base, field, 0)], the validator of the
    datatype of a field: it returns the normalized value or raises. *)
Variable datatype_schema : Field → val → res val.

(** *** generate_field_metaclass *)

(** [FieldMetaClass.__setattr__(self, obj, value)]; the state of the
    wrapper is its attribute __value__. *)
Definition FieldMetaClass_setattr (field : Field) (self : option val)
    (obj : string) (value : val) : res (option val) :=
  let validator := datatype_schema field in
  value <-
    (if multivalued field then
       match as_list value with
       | None => raise (AssertionError "Expected type list for {}, but found {}")
       | Some elements => value <- mapM validator elements ;; ret (VList value)
       end
     else validator value) ;;
  ret (Some value).

(** [FieldMetaClass.__init__(self, value)]: [self.__value__ = value] *)
Definition FieldMetaClass_init (field : Field) (value : val) : res val :=
  self <- FieldMetaClass_setattr field None "__value__" value ;;
  ret (VField (name field) self).

(** [getattr(value, '__value__')] on a wrapper; when the attribute is not
    set [FieldMetaClass.__getattr__] asks for it again and fails. *)
Definition FieldMetaClass_getattr (self : option val) (obj : string) : res val :=
  match self with
  | Some v => ret v
  | None => raise (AttributeError "__value__")
  end.

(** [getattr(value, '__value__')] on any value. *)
Definition getattr_value (value : val) : res val :=
  match value with
  | VField _ self => FieldMetaClass_getattr self "__value__"
  | VInst _ attrs =>
      match dict_get "__value__" attrs with
      | Some v => ret v
      | None => raise (AttributeError "__value__")
      end
  | _ => raise (AttributeError "__value__")
  end.

(** [v'] is what the datatype of [field] makes of [value]: the validated
    scalar, or for a multivalued field the list of the validated elements
    of a list. *)
Definition normalizes (field : Field) (value v' : val) : Prop :=
  if multivalued field then
    ∃ elements normalized,
      as_list value = Some elements
      ∧ Forall2 (λ x y, datatype_schema field x = ret y) elements normalized
      ∧ v' = VList normalized
  else datatype_schema field value = ret v'.

(** [value] is refused for [field] with [e]: a multivalued field is given
    something that is not a list, or the datatype raises [e] on the value
    or on one of its elements. *)
Definition rejects (field : Field) (value : val) (e : exn) : Prop :=
  if multivalued field then
    match as_list value with
    | None => e = AssertionError "Expected type list for {}, but found {}"
    | Some elements => ∃ x, x ∈ elements ∧ datatype_schema field x = raise e
    end
  else datatype_schema field value = raise e.

(** *** generate_multimetaclass *)

(** The methods of a list change the list object; they are functions from
    the elements of the list to the elements afterwards and the outcome. *)

(** [list.append(self, element)] *)
Definition list_append (self : list val) (element : val) : list val * res unit :=
  (self ++ [element], ret tt).

(** [list.__setitem__(self, index, element)] for an integer index. *)
Definition list_setitem (self : list val) (index : Z) (element : val)
  : list val * res unit :=
  let n := Z.of_nat (length self) in
  let i := if (index <? 0)%Z then (index + n)%Z else index in
  if ((0 <=? i)%Z && (i <? n)%Z)%bool
  then (<[Z.to_nat i := element]> self, ret tt)
  else (self, raise (IndexError "list assignment index out of range")).

(** [MultiGroupMetaClass.append(self, element)] *)
Definition MultiGroupMetaClass_append (struct_metaclass : metaclass)
    (self : list val) (element : val) : list val * res unit :=
  if isinstance element struct_metaclass then list_append self element
  else (self, raise (AssertionError "{} list elements should be instances of {}")).

(** [MultiGroupMetaClass.__setitem__(self, index, element)] *)
Definition MultiGroupMetaClass_setitem (struct_metaclass : metaclass)
    (self : list val) (index : Z) (element : val) : list val * res unit :=
  if isinstance element struct_metaclass then list_setitem self index element
  else (self, raise (AssertionError "{} list elements should be instances of {}")).

(** [generate_multimetaclass(struct, struct_metaclass)(value)]: a new list
    object of the subclass with the elements of [value]. *)
Definition MultiGroupMetaClass_new (struct : Struct) (value : list val) : val :=
  VMulti (structname struct) value.

(** *** generate_property and build_metadata_prop *)

(** What the class [C] has under an attribute name. *)
Inductive descriptor :=
| Property (struct : Struct)     (* property made by generate_property *)
| MetadataProperty               (* property made by build_metadata_prop *)
| Slot.                          (* member descriptor of a slot *)

(** The properties are set on the class after its creation, one per child
    structure in content order and then [_metadata], so each replaces what
    the class had under the same name. *)
Definition class_attr (C : MetaClassT) (attr : string) : option descriptor :=
  if (build_metadata C && String.eqb attr "_metadata")%bool
  then Some MetadataProperty
  else
    match find (λ s, String.eqb (structname s) attr) (reverse (cls_content C)) with
    | Some struct => Some (Property struct)
    | None =>
        if existsb (String.eqb attr) (__slots__ C) then Some Slot else None
    end.

(** [struct_metaclass(value)], a call with one positional argument. *)
Definition instantiate (struct_metaclass : metaclass) (value : val) : res val :=
  match struct_metaclass with
  | FieldMetaClassOf field => FieldMetaClass_init field value
  | MetaClassOf _ =>
      raise (TypeError "__init__() takes 1 positional argument but 2 were given")
  end.

(** [getter] of [generate_property(base, struct)]; [getattr] is the
    attribute lookup on the instance. *)
Definition getter (getattr : pydict → string → res val)
    (base : owner) (struct : Struct) (self : pydict) : res val :=
  let structname := structname struct in
  let attr_name := "_" +:+ structname in
  value <- getattr self attr_name ;;
  if is_field struct then getattr_value value else ret value.

(** [setter] of [generate_property(base, struct)]; [setattr] is the
    attribute assignment on the instance. *)
Definition setter (setattr : pydict → string → val → res pydict)
    (base : owner) (struct : Struct) (self : pydict) (value : val) : res pydict :=
  let structname := structname struct in
  let attr_name := "_" +:+ structname in
  struct_metaclass <- Base_metaclass base structname ;;
  value <-
    match struct with
    | SField _ => instantiate struct_metaclass value
    | SGroup md _ _ =>
        if gmultivalued md then
          match as_list value with
          | None => raise (AssertionError "object {} should be instance of {}")
          | Some elements =>
              if forallb (λ element, isinstance element struct_metaclass) elements
              then ret (MultiGroupMetaClass_new struct elements)
              else raise (AssertionError
                            "{} list elements should be instances of {}")
          end
        else
          if isinstance value struct_metaclass then ret value
          else raise (AssertionError "{} object should be an instance of {}")
    end ;;
  setattr self attr_name value.

(** [fget] and [fset] of [build_metadata_prop]. *)
Definition fget (getattr : pydict → string → res val) (self : pydict) : res val :=
  getattr self "__metadata__".

Definition fset (setattr : pydict → string → val → res pydict)
    (self : pydict) (value : val) : res pydict :=
  match value with
  | VInst (UserClass cname) _ =>
      if String.eqb cname "DocumentMetadata"
      then setattr self "__metadata__" value
      else raise (AssertionError "")
  | _ => raise (AssertionError "")
  end.

(** [setattr(self, attr, value)] on an instance of [C], whose state is the
    content of its slots.  The instance has no __dict__: a name that is
    neither a property nor a slot cannot be assigned.  A setter assigns
    another attribute in turn; [depth] bounds the nesting of calls as the
    interpreter does.  The operations [setattr], [getattr] and [delattr]
    cover the names of the structures, the slots and [_metadata]; of the
    attributes every object has only [__class__] can be assigned on such an
    instance, to a class object, and [val] has no class objects, so
    [__class__] is not a name of the model. *)
Fixpoint setattr (depth : nat) (C : MetaClassT) (self : pydict) (attr : string)
    (value : val) : res pydict :=
  match depth with
  | 0 => raise RecursionError
  | S depth =>
      match class_attr C attr with
      | Some (Property struct) =>
          setter (setattr depth C) (cls_base C) struct self value
      | Some MetadataProperty => fset (setattr depth C) self value
      | Some Slot => ret (dict_set attr value self)
      | None => raise (AttributeError attr)
      end
  end.

(** [getattr(self, attr)] on an instance of [C]. *)
Fixpoint getattr (depth : nat) (C : MetaClassT) (self : pydict) (attr : string)
  : res val :=
  match depth with
  | 0 => raise RecursionError
  | S depth =>
      match class_attr C attr with
      | Some (Property struct) =>
          getter (getattr depth C) (cls_base C) struct self
      | Some MetadataProperty => fget (getattr depth C) self
      | Some Slot =>
          match dict_get attr self with
          | Some v => ret v
          | None => raise (AttributeError attr)
          end
      | None => raise (AttributeError attr)
      end
  end.

(** The interpreter's limit on nested calls. *)
Definition recursion_limit : nat := 1000.

(** [deleter] of [generate_property(base, struct)]; [delattr] is the
    attribute deletion on the instance. *)
Definition deleter (delattr : pydict → string → res pydict)
    (base : owner) (struct : Struct) (self : pydict) : res pydict :=
  let structname := structname struct in
  let attr_name := "_" +:+ structname in
  delattr self attr_name.

(** [fdel] of [build_metadata_prop]: [del self.__metadata__] *)
Definition fdel (delattr : pydict → string → res pydict) (self : pydict)
  : res pydict :=
  delattr self "__metadata__".

(** [delattr(self, attr)] on an instance of [C]: a slot that holds nothing
    cannot be deleted. *)
Fixpoint delattr (depth : nat) (C : MetaClassT) (self : pydict) (attr : string)
  : res pydict :=
  match depth with
  | 0 => raise RecursionError
  | S depth =>
      match class_attr C attr with
      | Some (Property struct) =>
          deleter (delattr depth C) (cls_base C) struct self
      | Some MetadataProperty => fdel (delattr depth C) self
      | Some Slot =>
          if dict_has attr self then ret (dict_del attr self)
          else raise (AttributeError attr)
      | None => raise (AttributeError attr)
      end
  end.

(** Every element of the list is an instance of the generated type. *)
Definition homogeneous (struct_metaclass : metaclass) (l : list val) : Prop :=
  Forall (λ element, isinstance element struct_metaclass = true) l.

(** *** generate_metaclass: the constructor *)

(** The loop [for arg in kwargs: setattr(self, arg, kwargs[arg])]; the
    result carries the instance as the loop leaves it. *)
Fixpoint init_loop (setattr : pydict → string → val → res pydict)
    (self : pydict) (kwargs : pydict) : pydict * res unit :=
  match kwargs with
  | [] => (self, ret tt)
  | (arg, value) :: rest =>
      match setattr self arg value with
      | inl e => (self, raise e)
      | inr self => init_loop setattr self rest
      end
  end.

(** [MetaClass.__init__(self, **kwargs)] on a new instance. *)
Definition MetaClass_init (C : MetaClassT) (kwargs : pydict) : pydict * res unit :=
  let self : pydict := [] in
  match (if __valreq__ C then validate_required (rnames C) kwargs else ret tt) with
  | inl e => (self, raise e)
  | inr _ => init_loop (setattr recursion_limit C) self kwargs
  end.

(** A call of [MetaClass] with keyword arguments.  The call binds the new
    instance to the first parameter, [self], of [__init__], so a keyword
    that is called [self] is a TypeError of the call and the body of
    [__init__] does not run. *)
Definition MetaClass_new (C : MetaClassT) (kwargs : pydict) : res val :=
  if existsb (String.eqb "self") (keys kwargs)
  then raise (TypeError "__init__() got multiple values for argument 'self'")
  else
    match MetaClass_init C kwargs with
    | (self, inr _) => ret (VInst (cls_id C) self)
    | (_, inl e) => raise e
    end.

(** [l.append(element)] on the list object a slot holds: the method of the
    class of the list.  A MultiGroupMetaClass of the group [gname] checks
    against the type it was generated with, [base.metaclass(gname)]. *)
Definition append (base : owner) (l : val) (element : val) : val * res unit :=
  match l with
  | VList value =>
      let (value, r) := list_append value element in (VList value, r)
  | VMulti gname value =>
      match Base_metaclass base gname with
      | inl e => (l, raise e)
      | inr struct_metaclass =>
          let (value, r) :=
            MultiGroupMetaClass_append struct_metaclass value element in
          (VMulti gname value, r)
      end
  | _ => (l, raise (AttributeError "append"))
  end.

(** [l[index] = element] on the list object a slot holds. *)
Definition setitem (base : owner) (l : val) (index : Z) (element : val)
  : val * res unit :=
  match l with
  | VList value =>
      let (value, r) := list_setitem value index element in (VList value, r)
  | VMulti gname value =>
      match Base_metaclass base gname with
      | inl e => (l, raise e)
      | inr struct_metaclass =>
          let (value, r) :=
            MultiGroupMetaClass_setitem struct_metaclass value index element in
          (VMulti gname value, r)
      end
  | _ => (l, raise (TypeError "object does not support item assignment"))
  end.

End Generated.

End LbdocMetaclass.

(** ** lbbase/struct.py *)

Module LbbaseStruct.

(** A store of dict objects: the raw documents callers hold. *)
Definition loc := nat.
Abbreviation heap := (gmap loc pydict).

(** The base: [self.metadata.name], [self.content] and the two
    per-document memory areas. *)
Record Base := {
  metadata_name : string;
  content : Content;
  __files__ : gmap Z (list val);       (* {id_doc: list of files} *)
  __reldata__ : gmap Z pydict;         (* {id_doc: {field name: data}} *)
}.

Definition set_files (f : gmap Z (list val)) (self : Base) : Base :=
  {| metadata_name := metadata_name self; content := content self;
     __files__ := f; __reldata__ := __reldata__ self |}.

Definition set_reldata (r : gmap Z pydict) (self : Base) : Base :=
  {| metadata_name := metadata_name self; content := content self;
     __files__ := __files__ self; __reldata__ := r |}.

(** The document metadata object: its attribute [id_doc] and its attribute
    dictionary [__dict__]. *)
Record DocumentMetadata := {
  id_doc : Z;
  __dict__ : pydict;
}.

(** The metadata object itself, as a value. *)
Definition meta_object (_meta : DocumentMetadata) : val :=
  VInst (UserClass "DocumentMetadata") (__dict__ _meta).

Section Validator.

(** [struct.schema(base, id)] of [lbstruct]: the validator compiled for one
    structure.  It is handed the base and may fill its memory areas. *)
Variable struct_schema : Struct → Z → validator Base.

(** The key compiled for one structure. *)
Definition schema_key (s : Struct) : Marker :=
  if getattr_required s then Required (structname s) else Plain (structname s).

(** [Base.schema]: the dict handed to [voluptuous.Schema]. *)
Definition schema (self : Base) (id : Z) : schema_dict Base :=
  fold_left
    (λ schema struct,
       let structname := structname struct in
       let structname :=
         if getattr_required struct then Required structname
         else Plain structname in
       schema_update structname (struct_schema struct id) schema)
    (content self) [].

(** [self.__files__[id] = [ ]; self.__reldata__[id] = { }] *)
Definition create_memory_area (id : Z) (self : Base) : Base :=
  let self := set_files (<[id := []]> (__files__ self)) self in
  set_reldata (<[id := []]> (__reldata__ self)) self.

(** [if '_metadata' in document: del document['_metadata']] *)
Definition delete_metadata (d : pydict) : pydict :=
  if dict_has "_metadata" d then dict_del "_metadata" d else d.

(** The [except] branch: [del self.__files__[id]; del self.__reldata__[id]]
    and the exception that leaves it. *)
Definition clear_memory_area (id : Z) (e : exn) (self : Base) : Base * exn :=
  match __files__ self !! id with
  | None => (self, KeyError_id id)
  | Some _ =>
      let self := set_files (delete id (__files__ self)) self in
      match __reldata__ self !! id with
      | None => (self, KeyError_id id)
      | Some _ =>
          let self := set_reldata (delete id (__reldata__ self)) self in
          (self,
           Exception "document data is not according to base definition." e)
      end
  end.

(** [Base.validate].  [document] is the caller's mapping, a location of the
    store; the answer is [None] only for a location that holds no dict.
    The result carries the base and the store as the call leaves them. *)
Definition validate (self : Base) (h : heap) (document : loc)
    (_meta : DocumentMetadata)
  : option (Base * heap * res (loc * pydict * list val * list val)) :=
  match h !! document with
  | None => None
  | Some d =>
      let id := id_doc _meta in
      (* Create docs memory area *)
      let self := create_memory_area id self in
      (* Delete metadata from document *)
      let d := delete_metadata d in
      let h := <[document := d]> h in
      (* Build schema *)
      let _schema := Schema (schema self id) in
      match _schema (VDict d) self with
      | (self, inl e) =>
          (* If process goes wrong, clear the docs memory area *)
          let (self, e') := clear_memory_area id e self in
          Some (self, h, raise e')
      | (self, inr (VDict out)) =>
          (* [document] now names the dict the schema built *)
          let document := fresh (dom h) in
          (* Put document metadata back *)
          let h :=
            <[document := dict_set "_metadata" (VDict (__dict__ _meta)) out]> h in
          match __reldata__ self !! id with
          | None => Some (self, h, raise (KeyError_id id))
          | Some reldata =>
              match __files__ self !! id with
              | None => Some (self, h, raise (KeyError_id id))
              | Some files => Some (self, h, ret (document, reldata, files, []))
              end
          end
      | (self, inr _) =>
          Some (self, h,
            raise (TypeError "object does not support item assignment"))
      end
  end.

(** The memory areas of [id] exist. *)
Definition has_memory_area (id : Z) (self : Base) : Prop :=
  is_Some (__files__ self !! id) ∧ is_Some (__reldata__ self !! id).

(** The compiled validators fill the memory areas of a document but never
    drop them. *)
Definition keeps_memory_area (id : Z) : Prop :=
  ∀ s v st, has_memory_area id st → has_memory_area id (struct_schema s id v st).1.

End Validator.

Section Documents.

(** [field._datatype.__schema__(base, field, 0)], the validator of the
    datatype of a field: it returns the normalized value or raises. *)
Variable datatype_schema : Field → val → res val.

(** [Base.get_struct] *)
Definition get_struct (self : Base) (sname : string) : res Struct :=
  match find_struct sname (__allstructs__ (content self)) with
  | Some s => ret s
  | None => raise (KeyError sname)
  end.

(** A generated type of this module: the class [Base.metaclass()] returns,
    or an entry of [self.__metaclasses__], which is
    [struct.metaclass(self, 0)] of the structure [s]. *)
Inductive metaclass :=
| BaseMetaClass
| StructMetaClass (s : Struct).

(** [Base.get_metaclass], and [base.__metaclasses__[sname]]. *)
Definition get_metaclass (self : Base) (sname : string) : res metaclass :=
  match find_struct sname (__allstructs__ (content self)) with
  | Some s => ret (StructMetaClass s)
  | None => raise (KeyError sname)
  end.

(** [isinstance(v, struct_metaclass)] *)
Definition isinstance (v : val) (struct_metaclass : metaclass) : bool :=
  match struct_metaclass, v with
  | BaseMetaClass, VInst (DocClass None) _ => true
  | StructMetaClass (SField f), VField n _ => String.eqb n (name f)
  | StructMetaClass (SGroup md _ _), VInst (DocClass (Some n)) _ =>
      String.eqb n (gname md)
  | _, _ => false
  end.

(** The structures a generated type has a property for. *)
Definition metaclass_content (self : Base) (m : metaclass) : Content :=
  match m with
  | BaseMetaClass => content self
  | StructMetaClass (SGroup _ _ c) => c
  | StructMetaClass (SField _) => []
  end.

(** The class of the instances of a generated type. *)
Definition metaclass_id (m : metaclass) : pyclass :=
  match m with
  | BaseMetaClass => DocClass None
  | StructMetaClass s => DocClass (Some (structname s))
  end.

(** The properties of the class of an instance. *)
Definition class_content (self : Base) (cls : pyclass) : Content :=
  match cls with
  | DocClass None => content self
  | DocClass (Some n) =>
      match find_struct n (__allstructs__ (content self)) with
      | Some s => metaclass_content self (StructMetaClass s)
      | None => []
      end
  | UserClass _ => []
  end.

(** The property a class has under a name: each [setattr(BaseMetaClass,
    structname, prop)] replaces an earlier property of the same name. *)
Definition class_property (props : Content) (attr : string) : option Struct :=
  find (λ s, String.eqb (structname s) attr) (reverse props).

(** Modelled from the spec: Field.metaclass(base, 0), the Field Value Wrapper
    type, constructed as [generate_field_metaclass] of lbdoc/metaclass.py
    has it.  A type of documents takes keyword arguments only. *)
Definition instantiate (struct_metaclass : metaclass) (value : val) : res val :=
  match struct_metaclass with
  | StructMetaClass (SField field) =>
      LbdocMetaclass.FieldMetaClass_init datatype_schema field value
  | _ => raise (TypeError "__init__() takes 1 positional argument but 2 were given")
  end.

(** [getter] of [_make_meta_prop(base, struct)]; [getattr] is the attribute
    lookup on the instance. *)
Definition getter (getattr : pydict → string → res val)
    (base : Base) (struct : Struct) (self : pydict) : res val :=
  let structname := structname struct in
  let attr_name := "_" +:+ structname in
  value <- getattr self attr_name ;;
  if is_field struct then LbdocMetaclass.getattr_value value else ret value.

(** What [setter] of [_make_meta_prop(base, struct)] does to the incoming
    value before it stores it. *)
Definition setter_value (base : Base) (struct : Struct) (value : val) : res val :=
  let structname := structname struct in
  struct_metaclass <- get_metaclass base structname ;;
  match struct with
  | SField _ => instantiate struct_metaclass value
  | SGroup md _ _ =>
      if gmultivalued md then
        match as_list value with
        | None => raise (AssertionError "object {} should be instance of {}")
        | Some elements =>
            if forallb (λ element, isinstance element struct_metaclass) elements
            then ret value
            else raise (AssertionError
                          "{} list elements should be instances of {}")
        end
      else
        if isinstance value struct_metaclass then ret value
        else raise (AssertionError "{} object should be an instance of {}")
  end.

(** [setter] of [_make_meta_prop(base, struct)]; [setattr] is the attribute
    assignment on the instance. *)
Definition setter (setattr : pydict → string → val → res pydict)
    (base : Base) (struct : Struct) (self : pydict) (value : val) : res pydict :=
  let structname := structname struct in
  let attr_name := "_" +:+ structname in
  value <- setter_value base struct value ;;
  setattr self attr_name value.

(** [setattr(self, attr, value)] on an instance whose class has the
    properties [props]; the state of the instance is its __dict__.  A setter
    assigns another attribute in turn; [depth] bounds the nesting of calls
    as the interpreter does.  The operations [setattr], [getattr] and
    [delattr] cover the names of the structures and the private names made
    of names without a leading underscore; the attributes every object has
    ([__dict__], [__class__], [__doc__], ...), which are the private names
    of structures called [_dict__], [_class__] and so on, are not names of
    the model. *)
Fixpoint setattr (depth : nat) (base : Base) (props : Content) (self : pydict)
    (attr : string) (value : val) : res pydict :=
  match depth with
  | 0 => raise RecursionError
  | S depth =>
      match class_property props attr with
      | Some struct => setter (setattr depth base props) base struct self value
      | None => ret (dict_set attr value self)
      end
  end.

(** [getattr(self, attr)] on such an instance.  Of the attributes of the
    class only the properties are looked at. *)
Fixpoint getattr (depth : nat) (base : Base) (props : Content) (self : pydict)
    (attr : string) : res val :=
  match depth with
  | 0 => raise RecursionError
  | S depth =>
      match class_property props attr with
      | Some struct => getter (getattr depth base props) base struct self
      | None =>
          match dict_get attr self with
          | Some v => ret v
          | None => raise (AttributeError attr)
          end
      end
  end.

(** The interpreter's limit on nested calls. *)
Definition recursion_limit : nat := 1000.

(** [deleter] of [_make_meta_prop(base, struct)]; [delattr] is the
    attribute deletion on the instance. *)
Definition deleter (delattr : pydict → string → res pydict)
    (base : Base) (struct : Struct) (self : pydict) : res pydict :=
  let structname := structname struct in
  let attr_name := "_" +:+ structname in
  delattr self attr_name.

(** [delattr(self, attr)] on an instance whose class has the properties
    [props]: what is not in the __dict__ of the instance cannot be
    deleted. *)
Fixpoint delattr (depth : nat) (base : Base) (props : Content) (self : pydict)
    (attr : string) : res pydict :=
  match depth with
  | 0 => raise RecursionError
  | S depth =>
      match class_property props attr with
      | Some struct => deleter (delattr depth base props) base struct self
      | None =>
          if dict_has attr self then ret (dict_del attr self)
          else raise (AttributeError attr)
      end
  end.

(** The loop of [BaseMetaClass.__init__]; the result carries the instance as
    the loop leaves it. *)
Fixpoint init_loop (setattr : pydict → string → val → res pydict)
    (snames : list string) (basename : string)
    (self : pydict) (kwargs : pydict) : pydict * res unit :=
  match kwargs with
  | [] => (self, ret tt)
  | (arg, value) :: rest =>
      if existsb (String.eqb arg) snames then
        match setattr self arg value with
        | inl e => (self, raise e)
        | inr self => init_loop setattr snames basename self rest
        end
      else (self, raise (AttributeError_structure basename arg))
  end.

(** The assignments of a run of keyword arguments, one after the other. *)
Definition assign_all (setattr : pydict → string → val → res pydict)
    (self : pydict) (kwargs : pydict) : res pydict :=
  fold_left (λ acc p, self <- acc ;; setattr self p.1 p.2) kwargs (ret self).

(** [BaseMetaClass.__init__(self, **kwargs)] on a new instance, for the
    class whose properties are those of [props]. *)
Definition BaseMetaClass_init (base : Base) (props : Content) (basename : string)
    (kwargs : pydict) : pydict * res unit :=
  let snames := __snames__ props in
  let rnames := __rnames__ props in
  let self : pydict := [] in
  let a : gset string := list_to_set rnames in
  let b : gset string := list_to_set (keys kwargs) in
  match size (a ∖ b) with
  | S _ => (self, raise (TypeError_required (a ∖ b)))
  | 0 =>
      init_loop (setattr recursion_limit base props) snames basename self kwargs
  end.

(** A call of a generated type with keyword arguments.
    Modelled from the spec: Group.metaclass(base, 0), the type generated for
    a Group, whose constructor is the one of [BaseMetaClass] over the
    content of the group.  The wrapper type of a Field takes one positional
    argument. *)
Definition metaclass_new (base : Base) (m : metaclass) (kwargs : pydict) : res val :=
  match m with
  | StructMetaClass (SField _) =>
      raise (TypeError "__init__() got an unexpected keyword argument")
  | _ =>
      (* the call binds the new instance to the first parameter, [self],
         of [__init__]: a keyword of that name is a TypeError of the call,
         and the body of [__init__] does not run *)
      if existsb (String.eqb "self") (keys kwargs)
      then raise (TypeError "__init__() got multiple values for argument 'self'")
      else
        let basename :=
          match m with
          | BaseMetaClass => metadata_name base
          | StructMetaClass s => structname s
          end in
        match BaseMetaClass_init base (metaclass_content base m) basename
                kwargs with
        | (self, inr _) => ret (VInst (metaclass_id m) self)
        | (_, inl e) => raise e
        end
  end.

(** The exception of the first round of [for member in jsonobj] when
    [jsonobj] is not a dict: [get_struct(member)] fails, or
    [jsonobj[member]] does. *)
Definition member_error (self : Base) (member : val) : exn :=
  match member with
  | VStr sname =>
      match get_struct self sname with
      | inl e => e
      | inr _ => TypeError "indices must be integers"
      end
  | VList _ | VDict _ | VMulti _ _ => TypeError "unhashable type"
  | _ => KeyError "member"
  end.

(** [Base.json2document] on a [jsonobj] that is not a dict. *)
Definition json2document_other (self : Base) (jsonobj : val) (metaclass : metaclass)
  : res val :=
  members <- py_iter jsonobj ;;
  match members with
  | [] => metaclass_new self metaclass []
  | member :: _ => raise (member_error self member)
  end.

(** [kwargs[member] = value] for the pairs of a loop, in order. *)
Definition kwargs_of (pairs : list (string * val)) : pydict :=
  fold_left (λ kwargs p, dict_set p.1 p.2 kwargs) pairs [].

(** One round of the loop [for member in jsonobj] of [json2document] over a
    dict: the keyword argument made of the member.  [json2document] is the
    function itself, for the nested documents. *)
Definition json2document_member (json2document : val → metaclass → res val)
    (self : Base) (item : string * val) : res (string * val) :=
  let (member, value) := item in
  struct <- get_struct self member ;;
  match struct with
  | SField _ => ret (member, value)
  | SGroup md _ _ =>
      if gmultivalued md then
        meta_object <-
          match value with
          | VList elements | VMulti _ elements =>
              mapM (λ element,
                      metaclass <- get_metaclass self (gname md) ;;
                      json2document element metaclass) elements
          | _ =>
              elements <- py_iter value ;;
              mapM (λ element,
                      metaclass <- get_metaclass self (gname md) ;;
                      json2document_other self element metaclass) elements
          end ;;
        ret (member, VList meta_object)
      else
        metaclass <- get_metaclass self (gname md) ;;
        meta_object <- json2document value metaclass ;;
        ret (member, meta_object)
  end.

(** [Base.json2document(jsonobj, metaclass)]; [None] for [metaclass] is
    resolved by [json2document_top]. *)
Fixpoint json2document (self : Base) (jsonobj : val) (metaclass : metaclass)
  : res val :=
  match jsonobj with
  | VDict items =>
      pairs <- mapM (json2document_member (json2document self) self) items ;;
      metaclass_new self metaclass (kwargs_of pairs)
  | _ => json2document_other self jsonobj metaclass
  end.

Definition json2document_top (self : Base) (jsonobj : val)
    (metaclass : option metaclass) : res val :=
  json2document self jsonobj
    (match metaclass with None => BaseMetaClass | Some m => m end).

(** [getattr(document, sname)] on a value.  Of the values that are not
    instances of a generated type no attribute is looked at. *)
Definition getattr_document (self : Base) (document : val) (sname : string)
  : res val :=
  match document with
  | VInst cls attrs =>
      getattr recursion_limit self (class_content self cls) attrs sname
  | _ => raise (AttributeError sname)
  end.

(** The loop [for sname in snames] of [document2dict]; [document2dict] is
    the function itself, for the nested documents. *)
Definition document2dict_loop (document2dict : val → option Struct → res pydict)
    (self : Base) (document : val) : list string → pydict → res pydict :=
  fix loop (snames : list string) (dictobj : pydict) : res pydict :=
    match snames with
    | [] => ret dictobj
    | sname :: rest =>
        match getattr_document self document sname with
        | inl e => if is_AttributeError e then loop rest dictobj else raise e
        | inr value =>
            _struct <- get_struct self sname ;;
            match _struct with
            | SField _ => loop rest (dict_set sname value dictobj)
            | SGroup md _ _ =>
                _value <-
                  (if gmultivalued md then
                     elements <- py_iter value ;;
                     _value <-
                       mapM (λ element,
                               d <- document2dict element (Some _struct) ;;
                               ret (VDict d)) elements ;;
                     ret (VList _value)
                   else
                     d <- document2dict value (Some _struct) ;;
                     ret (VDict d)) ;;
                loop rest (dict_set sname _value dictobj)
            end
        end
    end.

(** [Base.document2dict(document, struct)].  The recursion follows the
    values the accessors return; [depth] bounds its nesting. *)
Fixpoint document2dict (depth : nat) (self : Base) (document : val)
    (struct : option Struct) : res pydict :=
  match depth with
  | 0 => raise RecursionError
  | S depth =>
      snames <-
        match struct with
        | None => ret (__snames__ (content self))
        | Some (SGroup _ _ c) => ret (__snames__ c)
        | Some (SField _) => raise (AttributeError "content")
        end ;;
      document2dict_loop (document2dict depth self) self document snames []
  end.

End Documents.

(** *** Valid raw documents *)

Section Specification.

Variable datatype_schema : Field → val → res val.

(** What the compiled validator of a field notes in the memory areas of the
    document (relational values, file references). *)
Variable bookkeeping : Field → Z → val → Base → Base.

(** The schema dict of one Content level, built as [Base.schema] builds
    it. *)
Definition content_schema (struct_schema : Struct → validator Base)
  : Content → schema_dict Base → schema_dict Base :=
  fix go (c : Content) (schema : schema_dict Base) : schema_dict Base :=
    match c with
    | [] => schema
    | struct :: rest =>
        go rest (schema_update (schema_key struct) (struct_schema struct) schema)
    end.

(** Modelled from the spec: Field.schema(base, id) and Group.schema(base, id)
    of lbstruct.  For a Field the validator is the one of its datatype, for
    a Group the compiled schema of the nested content; a multivalued
    structure validates "is a list, and every element independently
    validates". *)
Fixpoint struct_schema (s : Struct) (id : Z) {struct s} : validator Base :=
  match s with
  | SField f =>
      let validate : validator Base :=
        λ value st, (bookkeeping f id value st, datatype_schema f value) in
      if multivalued f then Sequence validate else validate
  | SGroup md _ c =>
      let validate : validator Base :=
        Schema (content_schema (λ s', struct_schema s' id) c []) in
      if gmultivalued md then Sequence validate else validate
  end.

(** The validators note things in the memory areas of a document but never
    drop the areas. *)
Definition bookkeeping_keeps (id : Z) : Prop :=
  ∀ f v st, has_memory_area id st → has_memory_area id (bookkeeping f id v st).

(** A raw value is valid for a structure, and a raw mapping for a Content
    level: every key is the name of a structure of the level and carries a
    valid value, and no required name is missing. *)
Inductive conforms : Struct → val → Prop :=
| conforms_field f v v' :
    multivalued f = false →
    datatype_schema f v = ret v' →
    conforms (SField f) v
| conforms_fields f xs :
    multivalued f = true →
    Forall (λ x, ∃ y, datatype_schema f x = ret y) xs →
    conforms (SField f) (VList xs)
| conforms_group md r c kv :
    gmultivalued md = false →
    conforms_dict c kv →
    conforms (SGroup md r c) (VDict kv)
| conforms_groups md r c ds :
    gmultivalued md = true →
    Forall (λ d, ∃ kv, d = VDict kv ∧ conforms_dict c kv) ds →
    conforms (SGroup md r c) (VList ds)
with conforms_dict : Content → pydict → Prop :=
| conforms_dict_intro c kv :
    dict_wf kv →
    Forall (λ r, r ∈ keys kv) (__rnames__ c) →
    Forall (λ p, ∃ s, s ∈ c ∧ structname s = p.1 ∧ conforms s p.2) kv →
    conforms_dict c kv.

(** The names of one Content level are distinct, and none is the private
    attribute name of another. *)
Definition wf_level (c : Content) : Prop :=
  NoDup (__snames__ c)
  ∧ Forall (λ n, "_" +:+ n ∉ __snames__ c) (__snames__ c).

(** Every structure of the tree is the one [get_struct] finds under its
    name, its name can be a keyword of a constructor ([keyword_name]), and
    every level is well formed. *)
Fixpoint wf_struct (self : Base) (s : Struct) {struct s} : Prop :=
  (find_struct (structname s) (__allstructs__ (content self)) = Some s
   ∧ keyword_name (structname s) = true)
  ∧ match s with
    | SField _ => True
    | SGroup _ _ c =>
        wf_level c
        ∧ (fix all (c : Content) : Prop :=
             match c with
             | [] => True
             | s' :: rest => wf_struct self s' ∧ all rest
             end) c
    end.

Definition wf_base (self : Base) : Prop :=
  wf_level (content self) ∧ Forall (wf_struct self) (content self).

(** The nesting depth of a structure. *)
Fixpoint height (s : Struct) : nat :=
  match s with
  | SField _ => 0
  | SGroup _ _ c =>
      S ((fix go (c : Content) : nat :=
            match c with
            | [] => 0
            | s' :: rest => Nat.max (height s') (go rest)
            end) c)
  end.

Definition content_height (c : Content) : nat :=
  foldr (λ s n, Nat.max (height s) n) 0 c.

(** The result of a validator, or the value itself when it is refused. *)
Definition normalized (f : Field) (x : val) : val :=
  match datatype_schema f x with inr y => y | inl _ => x end.

(** What the wrapper of a field holds for a valid raw value. *)
Definition normal_field (f : Field) (v : val) : val :=
  if multivalued f then
    match v with
    | VList xs => VList (map (normalized f) xs)
    | _ => v
    end
  else normalized f v.

(** Apply [f] to the structure of the level that has the name [k]. *)
Definition pick_struct {A} (f : Struct → A) (default : A) (k : string)
  : Content → A :=
  fix go (c : Content) : A :=
    match c with
    | [] => default
    | s :: rest => if String.eqb (structname s) k then f s else go rest
    end.

(** The attributes of the instance made of a valid mapping: one private
    attribute per key, in the order of the mapping. *)
Definition typed_attrs (typed : Struct → val → val) (c : Content) (kv : pydict)
  : pydict :=
  map (λ p, ("_" +:+ p.1, pick_struct (λ s, typed s p.2) p.2 p.1 c)) kv.

(** The typed value made of a valid raw value. *)
Fixpoint typed (s : Struct) (v : val) {struct s} : val :=
  match s with
  | SField f => VField (name f) (Some (normal_field f v))
  | SGroup md _ c =>
      let one (d : val) : val :=
        match d with
        | VDict kv => VInst (DocClass (Some (gname md))) (typed_attrs typed c kv)
        | _ => d
        end in
      if gmultivalued md then
        match v with
        | VList ds => VList (map one ds)
        | _ => v
        end
      else one v
  end.

(** The document instance made of a valid raw document. *)
Definition typed_document (self : Base) (d : pydict) : val :=
  VInst (DocClass None) (typed_attrs typed (content self) d).

(** The keys of a valid mapping in schema order, each with the normal form
    of its value. *)
Definition normal_dict (normal : Struct → val → val) : Content → pydict → pydict :=
  fix go (c : Content) (kv : pydict) : pydict :=
    match c with
    | [] => []
    | s :: rest =>
        match dict_get (structname s) kv with
        | Some x => (structname s, normal s x) :: go rest kv
        | None => go rest kv
        end
    end.

(** The normal form of a valid raw value: field values as the datatypes
    normalize them, the keys of every mapping in schema order. *)
Fixpoint normal (s : Struct) (v : val) {struct s} : val :=
  match s with
  | SField f => normal_field f v
  | SGroup md _ c =>
      let one (d : val) : val :=
        match d with
        | VDict kv => VDict (normal_dict normal c kv)
        | _ => d
        end in
      if gmultivalued md then
        match v with
        | VList ds => VList (map one ds)
        | _ => v
        end
      else one v
  end.

Definition normal_document (self : Base) (d : pydict) : pydict :=
  normal_dict normal (content self) d.

(** The datatypes return the values they accept as they are. *)
Definition validators_unchanging : Prop :=
  ∀ f x y, datatype_schema f x = ret y → y = x.

End Specification.

(** Raw document data: None, booleans, integers, strings, lists and dicts
    of such. *)
Fixpoint is_json (v : val) : bool :=
  match v with
  | VNone | VBool _ | VInt _ | VStr _ => true
  | VList xs => forallb is_json xs
  | VDict kv =>
      bool_decide (NoDup (map fst kv)) && forallb (λ p, is_json p.2) kv
  | _ => false
  end.

(** [a == b] on raw document data.  Dicts are equal when they have the same
    keys with equal values, in whatever order; True equals 1 and False
    equals 0.  Other objects compare by identity, which the values of the
    model do not have: the answer for them is False. *)
Fixpoint py_eqb (a b : val) {struct a} : bool :=
  match a, b with
  | VNone, VNone => true
  | VBool x, VBool y => Bool.eqb x y
  | VInt x, VInt y => Z.eqb x y
  | VBool x, VInt y => Z.eqb y (if x then 1 else 0)
  | VInt x, VBool y => Z.eqb x (if y then 1 else 0)
  | VStr x, VStr y => String.eqb x y
  | VList xs, VList ys =>
      (fix go (xs ys : list val) : bool :=
         match xs, ys with
         | [], [] => true
         | x :: xs, y :: ys => py_eqb x y && go xs ys
         | _, _ => false
         end) xs ys
  | VDict kv, VDict kv' =>
      Nat.eqb (length kv) (length kv')
      && (fix go (kv : list (string * val)) : bool :=
            match kv with
            | [] => true
            | (k, v) :: rest =>
                match dict_get k kv' with
                | Some v' => py_eqb v v'
                | None => false
                end && go rest
            end) kv
  | _, _ => false
  end.


End LbbaseStruct.

(** ** A small base used to run the definitions

    The scenario of the specification: a required field [title] and a
    single-valued group [author] with a required field [name]. *)

Module Example.
Import LbbaseStruct.

Definition title : Field :=
  {| name := "title"; _datatype := "Text"; required := true;
     multivalued := false; is_rel := true |}.

Definition author_name : Field :=
  {| name := "name"; _datatype := "Text"; required := true;
     multivalued := false; is_rel := false |}.

Definition author : Struct :=
  SGroup {| gname := "author"; gmultivalued := false |} false [SField author_name].

Definition base : Base :=
  {| metadata_name := "books"; content := [SField title; author];
     __files__ := ∅; __reldata__ := ∅ |}.

(** A compiled validator that takes every value as it is and notes it in
    the relational area of the document. *)
Definition noting_schema : Struct → Z → validator Base :=
  λ s id v st,
    (set_reldata (alter (dict_set (structname s) v) id (__reldata__ st)) st,
     ret v).

Definition meta7 : DocumentMetadata :=
  {| id_doc := 7; __dict__ := [("id_doc", VInt 7); ("dt_doc", VStr "2014-01-01")] |}.

(** The caller's store: one raw document at location 0. *)
Definition store (d : pydict) : heap := {[ 0%nat := d ]}.

Definition doc_full : pydict :=
  [("_metadata", VDict [("id_doc", VInt 3)]);
   ("title", VStr "X");
   ("author", VDict [("name", VStr "Y")])].

Definition doc_no_title : pydict :=
  [("author", VDict [("name", VStr "Y")])].

(** An element of the content of the base of lbbase/__init__.py: a field
    whose attribute [required] holds a Required object. *)
Definition old_title : LbbaseInit.Attr Base :=
  {| LbbaseInit.attr_name := "title";
     LbbaseInit.attr_required :=
       Some (VInst (UserClass "Required") [("required", VBool true)]);
     LbbaseInit.attr_schema := noting_schema (SField title) 0%Z |}.

(** A datatype: text is taken as it is, None becomes the empty text,
    anything else is refused. *)
Definition text (f : Field) (v : val) : res val :=
  match v with
  | VStr s => ret (VStr s)
  | VNone => ret (VStr "")
  | _ => raise (ValueError "Text: expected str")
  end.

(** The second scenario of the specification: a multivalued group [tags]
    with a field [value]. *)
Definition tag_value : Field :=
  {| name := "value"; _datatype := "Text"; required := false;
     multivalued := false; is_rel := false |}.

Definition tags : Struct :=
  SGroup {| gname := "tags"; gmultivalued := true |} false [SField tag_value].

Definition tagged : Base :=
  {| metadata_name := "tagged"; content := [tags];
     __files__ := ∅; __reldata__ := ∅ |}.

(** The same base for lbdoc/metaclass.py. *)
Definition tagged_doc : LbdocMetaclass.Base :=
  {| LbdocMetaclass.metadata_name := "tagged";
     LbdocMetaclass.content := [tags] |}.

(** The example base for lbdoc/metaclass.py. *)
Definition books_doc : LbdocMetaclass.Base :=
  {| LbdocMetaclass.metadata_name := "books";
     LbdocMetaclass.content := [SField title; author] |}.

(** The type [generate_metaclass(base)] builds for it. *)
Definition books_MetaClass : res LbdocMetaclass.MetaClassT :=
  LbdocMetaclass.generate_metaclass (LbdocMetaclass.OBase books_doc) None.

(** The type generated for the group [tags]. *)
Definition tags_MetaClass : res LbdocMetaclass.MetaClassT :=
  LbdocMetaclass.generate_metaclass (LbdocMetaclass.OStruct tags)
    (Some tagged_doc).

(** The class that [books_MetaClass] evaluates to. *)
Definition books_class : LbdocMetaclass.MetaClassT :=
  {| LbdocMetaclass.cls_name := "books";
     LbdocMetaclass.cls_base := LbdocMetaclass.OBase books_doc;
     LbdocMetaclass.cls_content := [SField title; author];
     LbdocMetaclass.snames := ["title"; "author"];
     LbdocMetaclass.rnames := ["title"];
     LbdocMetaclass.build_metadata := true;
     LbdocMetaclass.__valreq__ := true;
     LbdocMetaclass.__slots__ := ["_title"; "_author"; "__metadata__"] |}.

(** A base with a structure that is called [metadata], and the class
    [generate_metaclass] builds for it. *)
Definition metadata_field : Field :=
  {| name := "metadata"; _datatype := "Text"; required := false;
     multivalued := false; is_rel := false |}.

Definition described_doc : LbdocMetaclass.Base :=
  {| LbdocMetaclass.metadata_name := "described";
     LbdocMetaclass.content := [SField metadata_field] |}.

Definition described_class : LbdocMetaclass.MetaClassT :=
  {| LbdocMetaclass.cls_name := "described";
     LbdocMetaclass.cls_base := LbdocMetaclass.OBase described_doc;
     LbdocMetaclass.cls_content := [SField metadata_field];
     LbdocMetaclass.snames := ["metadata"];
     LbdocMetaclass.rnames := [];
     LbdocMetaclass.build_metadata := true;
     LbdocMetaclass.__valreq__ := true;
     LbdocMetaclass.__slots__ := ["_metadata"; "__metadata__"] |}.

(** The class [generate_metaclass] builds for the base [tagged_doc]. *)
Definition tagged_class : LbdocMetaclass.MetaClassT :=
  {| LbdocMetaclass.cls_name := "tagged";
     LbdocMetaclass.cls_base := LbdocMetaclass.OBase tagged_doc;
     LbdocMetaclass.cls_content := [tags];
     LbdocMetaclass.snames := ["tags"];
     LbdocMetaclass.rnames := [];
     LbdocMetaclass.build_metadata := true;
     LbdocMetaclass.__valreq__ := true;
     LbdocMetaclass.__slots__ := ["_tags"; "__metadata__"] |}.

(** What the compiled validator of a relational field notes. *)
Definition note_relational : Field → Z → val → Base → Base :=
  λ f id v st,
    if is_rel f
    then set_reldata (alter (dict_set (name f) v) id (__reldata__ st)) st
    else st.

(** What [text] makes of a title it accepts. *)
Definition normalized_title (v : val) : val :=
  match v with VNone => VStr "" | _ => v end.

(** A valid raw document, and one whose title the datatype normalizes. *)
Definition doc_title_first : pydict :=
  [("title", VStr "X"); ("author", VDict [("name", VStr "Y")])].

Definition doc_none_title : pydict :=
  [("title", VNone); ("author", VDict [("name", VStr "Y")])].

(** An instance of the type generated for [tags]. *)
Definition tag_a : val :=
  VInst (DocClass (Some "tags")) [("_value", VField "value" (Some (VStr "a")))].

End Example.

(** ** Notions of the proofs about valid raw documents *)

Section Notions.
Import LbbaseStruct.

Variable datatype_schema : Field → val → res val.

Local Abbreviation conforms := (LbbaseStruct.conforms datatype_schema).
Local Abbreviation typed := (LbbaseStruct.typed datatype_schema).
Local Abbreviation normal := (LbbaseStruct.normal datatype_schema).
Local Abbreviation json2document := (LbbaseStruct.json2document datatype_schema).

(** The value is what the type of the group [s] takes: an instance of it,
    or a list of instances. *)
Definition group_value (s : Struct) (tv : val) : Prop :=
  match s with
  | SField _ => False
  | SGroup md _ _ =>
      if gmultivalued md then
        ∃ ds, tv = VList ds
              ∧ Forall (λ d, ∃ a, d = VInst (DocClass (Some (gname md))) a) ds
      else ∃ a, tv = VInst (DocClass (Some (gname md))) a
  end.

(** What [json2document] hands to the constructor for a valid value: the
    raw value of a Field, the typed value of a Group. *)
Definition kwarg_of (s : Struct) (v : val) : val :=
  match s with
  | SField _ => v
  | SGroup _ _ _ => typed s v
  end.

(** The member of a valid mapping becomes the keyword argument. *)
Definition member_converts (self : Base) (s : Struct) : Prop :=
  wf_struct self s → ∀ v, conforms s v →
  LbbaseStruct.json2document_member datatype_schema (json2document self) self
    (structname s, v)
  = ret (structname s, kwarg_of s v).

(** The conversion of the loop of [document2dict] for the value of a
    Group, with nested calls of depth [n]. *)
Definition group_to_raw (n : nat) (self : Base) (s : Struct) (value : val)
  : res val :=
  match s with
  | SField _ => ret value
  | SGroup md _ _ =>
      if gmultivalued md then
        elements <- py_iter value ;;
        _value <-
          mapM (λ element,
                  d <- LbbaseStruct.document2dict n self element (Some s) ;;
                  ret (VDict d)) elements ;;
        ret (VList _value)
      else
        d <- LbbaseStruct.document2dict n self value (Some s) ;;
        ret (VDict d)
  end.

(** The value of a Group in a typed document converts to its normal form. *)
Definition raw_converts (self : Base) (s : Struct) : Prop :=
  wf_struct self s → ∀ v n, conforms s v → (LbbaseStruct.height s ≤ n)%nat →
  match s with
  | SField _ => True
  | SGroup _ _ _ => group_to_raw n self s (typed s v) = ret (normal s v)
  end.

(** The normal form of a valid value equals the value when the datatypes
    change nothing. *)
Definition normal_equal (self : Base) (s : Struct) : Prop :=
  wf_struct self s → ∀ v, conforms s v → is_json v = true →
  py_eqb (normal s v) v = true.

(** The validator accepts the value in every state and keeps the memory
    areas of [id]. *)
Definition accepts (id : Z) (V : validator Base) (v : val) : Prop :=
  ∀ st, ∃ st' out,
    V v st = (st', inr out)
    ∧ (has_memory_area id st → has_memory_area id st').

End Notions.

(** * Verification *)

Import LbbaseStruct.

Arguments LbbaseStruct.recursion_limit : simpl never.
Arguments LbdocMetaclass.recursion_limit : simpl never.

(** ** Dicts *)

Lemma dict_get_set_eq k v d : dict_get k (dict_set k v d) = Some v.
Proof.
  induction d as [|[k' v'] d IH]; simpl.
  - by rewrite String.eqb_refl.
  - destruct (String.eqb k' k) eqn:E; simpl; rewrite E; done.
Qed.

Lemma dict_get_set_ne k k' v d :
  k ≠ k' → dict_get k' (dict_set k v d) = dict_get k' d.
Proof.
  intros Hne. induction d as [|[k0 v0] d IH]; simpl.
  - destruct (String.eqb k k') eqn:E; [|done].
    apply String.eqb_eq in E. done.
  - destruct (String.eqb k0 k) eqn:E; simpl.
    + apply String.eqb_eq in E. subst k0.
      destruct (String.eqb k k') eqn:E'; [|done].
      apply String.eqb_eq in E'. done.
    + by rewrite IH.
Qed.

Lemma dict_get_del_eq k d : dict_wf d → dict_get k (dict_del k d) = None.
Proof.
  unfold dict_wf, keys. induction d as [|[k' v'] d IH]; simpl; [done|].
  intros Hnd. apply NoDup_cons in Hnd as [Hni Hnd].
  destruct (String.eqb k' k) eqn:E; simpl.
  - apply String.eqb_eq in E. subst k'.
    clear -Hni. induction d as [|[k0 v0] d IH]; simpl; [done|].
    simpl in Hni. apply not_elem_of_cons in Hni as [Hne Hni].
    destruct (String.eqb k0 k) eqn:E; [|by apply IH].
    apply String.eqb_eq in E. done.
  - rewrite E. by apply IH.
Qed.

Lemma dict_has_delete_metadata d :
  dict_wf d → dict_has "_metadata" (delete_metadata d) = false.
Proof.
  intros Hwf. unfold delete_metadata.
  destruct (dict_has "_metadata" d) eqn:E; [|done].
  unfold dict_has. by rewrite dict_get_del_eq.
Qed.

(** ** voluptuous: what a schema application preserves *)

Section SchemaInvariant.
Context {S : Type} (P : S → Prop).

Lemma schema_find_elem key (schema : schema_dict S) skey cvalue :
  schema_find key schema = Some (skey, cvalue) → (skey, cvalue) ∈ schema.
Proof.
  induction schema as [|[k c] schema IH]; simpl; [done|].
  destruct (String.eqb (marker_schema k) key).
  - intros [= -> ->]. apply list_elem_of_here.
  - intros H. apply list_elem_of_further. by apply IH.
Qed.

Lemma validate_mapping_preserves schema items required_keys out errors st :
  validators_preserve P schema → P st →
  P (validate_mapping schema items required_keys out errors st).1.
Proof.
  intros Hall. revert required_keys out errors st.
  induction items as [|[key value] items IH]; intros required_keys out errors st Hst.
  - simpl. by destruct (errors ++ _).
  - simpl. destruct (schema_find key schema) as [[skey cvalue]|] eqn:Hfind.
    + apply schema_find_elem in Hfind.
      unfold validators_preserve in Hall. rewrite Forall_forall in Hall.
      specialize (Hall _ Hfind value st Hst). simpl in Hall.
      destruct (cvalue value st) as [st' [e|cval]]; simpl in Hall.
      * destruct (is_collected e); [by apply IH | done].
      * by apply IH.
    + by apply IH.
Qed.

Lemma Schema_preserves schema data st :
  validators_preserve P schema → P st → P (Schema schema data st).1.
Proof.
  intros Hall Hst. unfold Schema. destruct data; try done.
  pose proof (validate_mapping_preserves schema kv (all_required_keys schema)
                [] [] st Hall Hst) as H.
  by destruct (validate_mapping _ _ _ _ _ _) as [st' [e|out]].
Qed.

(** A schema application answers with a dict or with an exception. *)
Lemma Schema_result (schema : schema_dict S) data st st' (v : val) :
  Schema schema data st = (st', inr v) → ∃ out, v = VDict out.
Proof.
  unfold Schema. destruct data; try by intros [= _ ?].
  destruct (validate_mapping _ _ _ _ _ _) as [st1 [e|out]]; [done|].
  intros [= _ <-]. by eexists.
Qed.

End SchemaInvariant.

(** ** Base.schema and Base.validate (lbbase/struct.py) *)

Section Validate.
Variable struct_schema : Struct → Z → validator Base.

Local Abbreviation schema := (LbbaseStruct.schema struct_schema).
Local Abbreviation validate := (LbbaseStruct.validate struct_schema).
Local Abbreviation keeps_memory_area := (LbbaseStruct.keeps_memory_area struct_schema).

Lemma schema_update_fresh {S} key (v : validator S) (schema : schema_dict S) :
  marker_schema key ∉ map (λ e, marker_schema e.1) schema →
  schema_update key v schema = schema ++ [(key, v)].
Proof.
  induction schema as [|[k c] schema IH]; simpl; [done|].
  intros Hni. apply not_elem_of_cons in Hni as [Hne Hni].
  destruct (String.eqb (marker_schema k) (marker_schema key)) eqn:E.
  - apply String.eqb_eq in E. congruence.
  - by rewrite IH.
Qed.

Lemma schema_fold_nodup id (c : Content) (acc : schema_dict Base) :
  NoDup (map (λ e, marker_schema e.1) acc ++ __snames__ c) →
  fold_left
    (λ schema struct,
       let structname := structname struct in
       let structname :=
         if getattr_required struct then Required structname
         else Plain structname in
       schema_update structname (struct_schema struct id) schema) c acc
  = acc ++ map (λ s, (schema_key s, struct_schema s id)) c.
Proof.
  revert acc. induction c as [|s c IH]; intros acc Hnd; simpl.
  - by rewrite app_nil_r.
  - assert (marker_schema (schema_key s) = structname s) as Hk.
    { unfold schema_key. by destruct (getattr_required s). }
    fold (schema_key s).
    simpl in Hnd. rewrite schema_update_fresh.
    + rewrite IH.
      * by rewrite <- app_assoc.
      * rewrite map_app. simpl. rewrite Hk. rewrite <- app_assoc. done.
    + rewrite Hk. apply NoDup_app in Hnd as (_ & Hdisj & _).
      intros Hin. apply (Hdisj _ Hin). apply list_elem_of_here.
Qed.

Lemma schema_nodup self id :
  NoDup (__snames__ (content self)) →
  schema self id = map (λ s, (schema_key s, struct_schema s id)) (content self).
Proof.
  intros Hnd. exact (schema_fold_nodup id (content self) [] Hnd).
Qed.

Lemma schema_find_map id (c : Content) s :
  NoDup (__snames__ c) → s ∈ c →
  schema_find (structname s) (map (λ s, (schema_key s, struct_schema s id)) c)
  = Some (schema_key s, struct_schema s id).
Proof.
  induction c as [|s' c IH]; simpl; intros Hnd Hin.
  - by apply elem_of_nil in Hin.
  - apply NoDup_cons in Hnd as [Hni Hnd].
    assert (marker_schema (schema_key s') = structname s') as Hk.
    { unfold schema_key. by destruct (getattr_required s'). }
    rewrite Hk. apply elem_of_cons in Hin as [->|Hin].
    + by rewrite String.eqb_refl.
    + destruct (String.eqb (structname s') (structname s)) eqn:E.
      * apply String.eqb_eq in E. exfalso. apply Hni. rewrite E.
        unfold __snames__. apply list_elem_of_fmap. by exists s.
      * by apply IH.
Qed.

(** Every validator of the compiled schema is [struct.schema(self, id)] of
    some structure. *)
Lemma schema_entries self id entry :
  entry ∈ schema self id → ∃ s, entry.2 = struct_schema s id.
Proof.
  unfold LbbaseStruct.schema.
  assert (∀ (c : Content) (acc : schema_dict Base),
    (∀ e, e ∈ acc → ∃ s, e.2 = struct_schema s id) →
    ∀ e, e ∈ fold_left
      (λ schema struct,
         let structname := structname struct in
         let structname :=
           if getattr_required struct then Required structname
           else Plain structname in
         schema_update structname (struct_schema struct id) schema) c acc →
    ∃ s, e.2 = struct_schema s id) as Hgen.
  { induction c as [|s c IH]; intros acc Hacc e; simpl; [by apply Hacc|].
    apply IH. clear e IH. intros e.
    generalize (if getattr_required s then Required (structname s)
                else Plain (structname s)) as key.
    intros key. induction acc as [|[k v] acc IHacc]; simpl.
    - intros ->%list_elem_of_singleton. by exists s.
    - destruct (String.eqb (marker_schema k) (marker_schema key)).
      + intros [->|Hin]%elem_of_cons; [by exists s|].
        apply Hacc. by apply list_elem_of_further.
      + intros [->|Hin]%elem_of_cons.
        * apply (Hacc (k, v)). apply list_elem_of_here.
        * apply IHacc; [|done]. intros e' He'. apply Hacc.
          by apply list_elem_of_further. }
  apply Hgen. intros e He. by apply elem_of_nil in He.
Qed.

Lemma schema_keeps_memory_area self id :
  keeps_memory_area id →
  validators_preserve (has_memory_area id) (schema self id).
Proof.
  intros Hk. unfold validators_preserve. rewrite Forall_forall.
  intros [key cvalue] [s Hs]%schema_entries v st Hst. simpl in *.
  subst cvalue. by apply Hk.
Qed.

Lemma create_memory_area_has id self :
  has_memory_area id (create_memory_area id self).
Proof.
  unfold has_memory_area, create_memory_area. simpl.
  by rewrite !lookup_insert_eq.
Qed.

Lemma clear_memory_area_ok id e self :
  has_memory_area id self →
  ∃ self',
    clear_memory_area id e self =
      (self', Exception "document data is not according to base definition." e)
    ∧ __files__ self' !! id = None ∧ __reldata__ self' !! id = None
    ∧ (∀ j, j ≠ id → __files__ self' !! j = __files__ self !! j
                     ∧ __reldata__ self' !! j = __reldata__ self !! j).
Proof.
  intros [[f Hf] [r Hr]]. unfold clear_memory_area. rewrite Hf. simpl.
  rewrite Hr. eexists. split; [done|]. simpl.
  rewrite !lookup_delete_eq. repeat split; by rewrite lookup_delete_ne.
Qed.

Lemma init_schema_step_ok {S} (acc : schema_dict S) (attr : LbbaseInit.Attr S) :
  LbbaseInit.required_attr_ok attr →
  LbbaseInit.schema_step acc attr
  = ret (schema_update (LbbaseInit.schema_key attr)
           (LbbaseInit.attr_schema attr) acc).
Proof.
  unfold LbbaseInit.required_attr_ok, LbbaseInit.schema_step,
    LbbaseInit.schema_key, LbbaseInit.required_flag.
  destruct (LbbaseInit.attr_required attr) as [r|]; [|done].
  destruct (truthy r) eqn:Ht; intros Hok.
  - destruct (Hok eq_refl) as [flag Hflag]. rewrite Hflag. simpl.
    destruct r; try done. simpl in Hflag.
    destruct (dict_get "required" attrs) as [v|]; [|done].
    unfold ret in Hflag. injection Hflag as ->.
    by destruct flag as [|[]| | | | | | |].
  - by destruct r.
Qed.

Lemma init_schema_from_nodup {S} (content : list (LbbaseInit.Attr S))
    (acc : schema_dict S) :
  NoDup (map (λ e, marker_schema e.1) acc ++ map LbbaseInit.attr_name content) →
  Forall LbbaseInit.required_attr_ok content →
  LbbaseInit.schema_from acc content
  = ret (acc ++ map (λ attr, (LbbaseInit.schema_key attr,
                              LbbaseInit.attr_schema attr)) content).
Proof.
  revert acc. induction content as [|attr content IH]; intros acc Hnd Hok; simpl.
  - by rewrite app_nil_r.
  - apply Forall_cons in Hok as [Hattr Hok].
    rewrite init_schema_step_ok by done. simpl.
    assert (marker_schema (LbbaseInit.schema_key attr)
            = LbbaseInit.attr_name attr) as Hk.
    { unfold LbbaseInit.schema_key. by destruct (LbbaseInit.required_flag attr). }
    rewrite schema_update_fresh.
    + rewrite IH; [by rewrite <- app_assoc| |done].
      rewrite map_app. simpl. rewrite Hk. by rewrite <- app_assoc.
    + rewrite Hk. apply NoDup_app in Hnd as (_ & Hdisj & _).
      intros Hin. apply (Hdisj _ Hin). apply list_elem_of_here.
Qed.

Lemma init_schema_find_map {S} (content : list (LbbaseInit.Attr S)) attr :
  NoDup (map LbbaseInit.attr_name content) → attr ∈ content →
  schema_find (LbbaseInit.attr_name attr)
    (map (λ attr, (LbbaseInit.schema_key attr, LbbaseInit.attr_schema attr))
       content)
  = Some (LbbaseInit.schema_key attr, LbbaseInit.attr_schema attr).
Proof.
  induction content as [|a content IH]; simpl; intros Hnd Hin.
  - by apply elem_of_nil in Hin.
  - apply NoDup_cons in Hnd as [Hni Hnd].
    assert (marker_schema (LbbaseInit.schema_key a) = LbbaseInit.attr_name a)
      as Hk.
    { unfold LbbaseInit.schema_key. by destruct (LbbaseInit.required_flag a). }
    rewrite Hk. apply elem_of_cons in Hin as [->|Hin].
    + by rewrite String.eqb_refl.
    + destruct (String.eqb (LbbaseInit.attr_name a) (LbbaseInit.attr_name attr))
        eqn:E.
      * apply String.eqb_eq in E. exfalso. apply Hni. rewrite E.
        apply list_elem_of_fmap. by exists attr.
      * by apply IH.
Qed.

(** C6.  Schema compilation marks the key of a structure as required
    exactly when the required flag of the structure is true: in
    [Base.schema] of lbbase/struct.py, where the flag of a Field and the
    flag of a Group are both read with [getattr(struct, 'required', False)],
    and in [Base.schema] of lbbase/__init__.py, where the flag sits in the
    object held by the attribute [required].  The key found for the name of
    the structure maps to the validator of that structure. *)
Theorem schema_marks_required_iff :
  (∀ self id s,
     NoDup (__snames__ (content self)) → s ∈ content self →
     ∃ key,
       schema_find (structname s) (schema self id)
         = Some (key, struct_schema s id)
       ∧ marker_schema key = structname s
       ∧ (is_Required key = true ↔ getattr_required s = true))
  ∧
  (∀ (elements : list (LbbaseInit.Attr Base)) attr,
     NoDup (map LbbaseInit.attr_name elements) →
     Forall LbbaseInit.required_attr_ok elements →
     attr ∈ elements →
     ∃ _schema key,
       LbbaseInit.schema elements = ret _schema
       ∧ schema_find (LbbaseInit.attr_name attr) _schema
           = Some (key, LbbaseInit.attr_schema attr)
       ∧ marker_schema key = LbbaseInit.attr_name attr
       ∧ (is_Required key = true ↔ LbbaseInit.required_flag attr = true)).
Proof.
  split.
  - intros self id s Hnd Hin. exists (LbbaseStruct.schema_key s).
    rewrite schema_nodup by done. split; [by apply schema_find_map|].
    unfold LbbaseStruct.schema_key. by destruct (getattr_required s).
  - intros elements attr Hnd Hok Hin.
    eexists _, (LbbaseInit.schema_key attr).
    unfold LbbaseInit.schema.
    rewrite (init_schema_from_nodup elements []) by done. simpl.
    split; [done|]. split; [by apply init_schema_find_map|].
    unfold LbbaseInit.schema_key. by destruct (LbbaseInit.required_flag attr).
Qed.

(** The base and the raw document as the schema application finds them:
    memory areas created, metadata key deleted. *)
Local Abbreviation apply_schema self _meta d :=
  (Schema (schema (create_memory_area (id_doc _meta) self) (id_doc _meta))
     (VDict (delete_metadata d)) (create_memory_area (id_doc _meta) self)).

Lemma validate_failure self h document _meta d st e :
  keeps_memory_area (id_doc _meta) →
  h !! document = Some d →
  apply_schema self _meta d = (st, inl e) →
  ∃ self',
    validate self h document _meta =
      Some (self', <[document := delete_metadata d]> h,
            raise (Exception
              "document data is not according to base definition." e))
    ∧ __files__ self' !! id_doc _meta = None
    ∧ __reldata__ self' !! id_doc _meta = None.
Proof.
  intros Hkeep Hd Happ. unfold LbbaseStruct.validate. rewrite Hd.
  pose proof (Schema_preserves (has_memory_area (id_doc _meta)) _
    (VDict (delete_metadata d)) _
    (schema_keeps_memory_area (create_memory_area (id_doc _meta) self) _ Hkeep)
    (create_memory_area_has (id_doc _meta) self)) as Hst.
  cbv zeta. rewrite Happ in Hst |- *. simpl in Hst.
  destruct (clear_memory_area_ok (id_doc _meta) e st Hst)
    as (self' & -> & Hf & Hr & _).
  by exists self'.
Qed.

(** C1.  When applying the compiled schema to the raw document fails with
    [e], [Base.validate] deletes the entries of the document id from
    [__files__] and from [__reldata__] and raises the exception that carries
    [e]; afterwards neither map has an entry for the id, and the entries of
    the other document ids are as the validators left them. *)
Theorem validate_failure_clears_memory_area self h document _meta d st e :
  keeps_memory_area (id_doc _meta) →
  h !! document = Some d →
  apply_schema self _meta d = (st, inl e) →
  ∃ self',
    validate self h document _meta =
      Some (self', <[document := delete_metadata d]> h,
            raise (Exception
              "document data is not according to base definition." e))
    ∧ __files__ self' !! id_doc _meta = None
    ∧ __reldata__ self' !! id_doc _meta = None
    ∧ (∀ j, j ≠ id_doc _meta →
         __files__ self' !! j = __files__ st !! j
         ∧ __reldata__ self' !! j = __reldata__ st !! j).
Proof.
  intros Hkeep Hd Happ.
  assert (has_memory_area (id_doc _meta) st) as Hst.
  { pose proof (Schema_preserves (has_memory_area (id_doc _meta)) _
      (VDict (delete_metadata d)) _
      (schema_keeps_memory_area (create_memory_area (id_doc _meta) self) _ Hkeep)
      (create_memory_area_has (id_doc _meta) self)) as Hst.
    by rewrite Happ in Hst. }
  destruct (clear_memory_area_ok (id_doc _meta) e st Hst)
    as (self' & Hclear & Hf & Hr & Hframe).
  exists self'. split; [|done].
  unfold LbbaseStruct.validate. rewrite Hd. cbv zeta.
  by rewrite Happ, Hclear.
Qed.

Lemma validate_success self h document _meta d st out :
  keeps_memory_area (id_doc _meta) →
  h !! document = Some d →
  apply_schema self _meta d = (st, inr out) →
  ∃ h' validated validated_doc reldata files,
    validate self h document _meta =
      Some (st, h', ret (validated, reldata, files, []))
    ∧ out = VDict validated_doc
    ∧ h' !! validated =
        Some (dict_set "_metadata" (VDict (__dict__ _meta)) validated_doc)
    ∧ __reldata__ st !! id_doc _meta = Some reldata
    ∧ __files__ st !! id_doc _meta = Some files.
Proof.
  intros Hkeep Hd Happ. unfold LbbaseStruct.validate. rewrite Hd.
  pose proof (Schema_preserves (has_memory_area (id_doc _meta)) _
    (VDict (delete_metadata d)) _
    (schema_keeps_memory_area (create_memory_area (id_doc _meta) self) _ Hkeep)
    (create_memory_area_has (id_doc _meta) self)) as Hst.
  destruct (Schema_result _ _ _ _ _ Happ) as [validated_doc ->].
  cbv zeta. rewrite Happ in Hst |- *. simpl in Hst.
  destruct Hst as [[files Hf] [reldata Hr]]. rewrite Hf, Hr.
  eexists _, _, validated_doc, reldata, files.
  split; [done|]. split; [done|]. by rewrite lookup_insert_eq.
Qed.

(** C5.  When schema validation succeeds, [Base.validate] returns the
    validated document with the metadata reattached: the returned mapping
    has the attribute dictionary of the metadata under the key '_metadata'
    and under every other key what the validated document has there.  With
    it come the relational map and the file list stored for the document
    id, and an empty list of warnings. *)
Theorem validate_success_result self h document _meta d st out :
  keeps_memory_area (id_doc _meta) →
  h !! document = Some d →
  apply_schema self _meta d = (st, inr out) →
  ∃ h' validated returned validated_doc reldata files,
    validate self h document _meta =
      Some (st, h', ret (validated, reldata, files, []))
    ∧ out = VDict validated_doc
    ∧ h' !! validated = Some returned
    ∧ dict_get "_metadata" returned = Some (VDict (__dict__ _meta))
    ∧ (∀ k, k ≠ "_metadata" → dict_get k returned = dict_get k validated_doc)
    ∧ __reldata__ st !! id_doc _meta = Some reldata
    ∧ __files__ st !! id_doc _meta = Some files.
Proof.
  intros Hkeep Hd Happ. unfold LbbaseStruct.validate. rewrite Hd.
  pose proof (Schema_preserves (has_memory_area (id_doc _meta)) _
    (VDict (delete_metadata d)) _
    (schema_keeps_memory_area (create_memory_area (id_doc _meta) self) _ Hkeep)
    (create_memory_area_has (id_doc _meta) self)) as Hst.
  destruct (Schema_result _ _ _ _ _ Happ) as [validated_doc ->].
  cbv zeta. rewrite Happ in Hst |- *. simpl in Hst.
  destruct Hst as [[files Hf] [reldata Hr]]. rewrite Hf, Hr.
  eexists _, _, _, validated_doc, reldata, files.
  split; [done|]. split; [done|].
  split; [by rewrite lookup_insert_eq|].
  split; [apply dict_get_set_eq|].
  split; [|done]. intros k Hk. by apply dict_get_set_ne.
Qed.

(** C9, as the code has it.  [Base.validate] deletes the key '_metadata'
    from the caller's mapping and never puts it back there, whether
    validation fails or succeeds.  On success the key is set in the mapping
    the call returns, which is the new dict built by the schema and not the
    caller's mapping; the value under the key is the attribute dictionary of
    the metadata object, not the object. *)
Theorem validate_metadata_key self h document _meta d :
  dict_wf d →
  h !! document = Some d →
  ∃ self' h' r,
    validate self h document _meta = Some (self', h', r)
    ∧ h' !! document = Some (delete_metadata d)
    ∧ dict_has "_metadata" (delete_metadata d) = false
    ∧ match r with
      | inl _ => True
      | inr (validated, _, _, _) =>
          validated ≠ document
          ∧ h !! validated = None
          ∧ (∃ validated_doc,
               (apply_schema self _meta d).2 = inr (VDict validated_doc)
               ∧ h' !! validated = Some
                   (dict_set "_metadata" (VDict (__dict__ _meta)) validated_doc))
          ∧ (h' !! validated ≫= dict_get "_metadata")
              = Some (VDict (__dict__ _meta))
          ∧ VDict (__dict__ _meta) ≠ meta_object _meta
      end.
Proof.
  intros Hwf Hd. unfold LbbaseStruct.validate. rewrite Hd. cbv zeta.
  pose proof (is_fresh (dom (<[document := delete_metadata d]> h))) as Hfresh.
  set (validated := fresh (dom (<[document := delete_metadata d]> h))) in *.
  assert (validated ≠ document) as Hne.
  { intros ->. apply Hfresh. rewrite dom_insert. set_solver. }
  assert (h !! validated = None) as Hnone.
  { apply not_elem_of_dom. intros Hin. apply Hfresh. rewrite dom_insert.
    set_solver. }
  destruct (apply_schema self _meta d) as [st [e|out]] eqn:Happ.
  - destruct (clear_memory_area _ _ _) as [self' e'].
    eexists _, _, _. split; [done|].
    rewrite lookup_insert_eq. by rewrite dict_has_delete_metadata.
  - destruct (Schema_result _ _ _ _ _ Happ) as [validated_doc ->].
    simpl.
    assert (<[validated := dict_set "_metadata" (VDict (__dict__ _meta))
                validated_doc]> (<[document := delete_metadata d]> h)
            !! document = Some (delete_metadata d)) as Hcaller.
    { rewrite lookup_insert_ne by done. by rewrite lookup_insert_eq. }
    pose proof (dict_has_delete_metadata d Hwf) as Hstrip.
    destruct (__reldata__ st !! id_doc _meta);
      [destruct (__files__ st !! id_doc _meta)|];
      eexists _, _, _; (split; [done|]); (split; [done|]); (split; [done|]);
      [|done..].
    unfold ret. rewrite lookup_insert_eq. simpl. rewrite dict_get_set_eq.
    repeat split; try done. by eexists.
Qed.

(** *** A required key that is absent *)

Lemma schema_find_name {S} key (schema : schema_dict S) skey cvalue :
  schema_find key schema = Some (skey, cvalue) → marker_schema skey = key.
Proof.
  induction schema as [|[k c] schema IH]; simpl; [done|].
  destruct (String.eqb (marker_schema k) key) eqn:E.
  - intros [= -> _]. by apply String.eqb_eq.
  - apply IH.
Qed.

Lemma discard_keeps (skey : Marker) required_keys r :
  r ∈ required_keys → marker_schema skey ≠ r →
  r ∈ discard skey required_keys.
Proof.
  intros Hin Hne. unfold discard. apply list_elem_of_filter. split; [|done].
  destruct (String.eqb r (marker_schema skey)) eqn:E; [|done].
  apply String.eqb_eq in E. congruence.
Qed.

Lemma validate_mapping_missing_required {S} (schema : schema_dict S)
    items required_keys out errors st r :
  r ∈ required_keys → r ∉ keys items →
  ∃ e, (validate_mapping schema items required_keys out errors st).2 = inl e.
Proof.
  revert required_keys out errors st.
  induction items as [|[key value] items IH];
    intros required_keys out errors st Hin Hni.
  - simpl.
    destruct (errors ++ map (Invalid "required key not provided") required_keys)
      eqn:E; [|by eexists].
    apply app_eq_nil in E as [_ E]. apply fmap_nil_inv in E. subst.
    by apply elem_of_nil in Hin.
  - simpl in Hni. apply not_elem_of_cons in Hni as [Hne Hni]. simpl.
    destruct (schema_find key schema) as [[skey cvalue]|] eqn:Hfind;
      [|by apply IH].
    apply schema_find_name in Hfind.
    destruct (cvalue value st) as [st' [e|cval]].
    + destruct (is_collected e); [|by eexists].
      apply IH; [|done]. apply discard_keeps; congruence.
    + apply IH; [|done]. apply discard_keeps; congruence.
Qed.

Lemma Schema_missing_required {S} (schema : schema_dict S) d st r :
  r ∈ all_required_keys schema → r ∉ keys d →
  ∃ e, (Schema schema (VDict d) st).2 = inl e.
Proof.
  intros Hin Hni. unfold Schema.
  destruct (validate_mapping_missing_required schema d
              (all_required_keys schema) [] [] st r Hin Hni) as [e He].
  destruct (validate_mapping _ _ _ _ _ _) as [st' [e'|out]]; [|done].
  by eexists.
Qed.

Lemma schema_required_keys self id r :
  NoDup (__snames__ (content self)) →
  r ∈ __rnames__ (content self) → r ∈ all_required_keys (schema self id).
Proof.
  intros Hnd Hr. rewrite schema_nodup by done.
  unfold all_required_keys, __rnames__ in *.
  apply list_elem_of_fmap in Hr as (s & -> & Hs).
  apply list_elem_of_filter in Hs as [Hreq Hs].
  assert (LbbaseStruct.schema_key s = Required (structname s)) as Hkey.
  { unfold LbbaseStruct.schema_key. destruct (getattr_required s); done. }
  apply list_elem_of_fmap. exists (LbbaseStruct.schema_key s).
  split; [by rewrite Hkey|]. apply list_elem_of_filter.
  split; [by rewrite Hkey|].
  rewrite <- list_fmap_compose. apply list_elem_of_fmap. by exists s.
Qed.

Lemma validate_missing_required self h document _meta d r :
  keeps_memory_area (id_doc _meta) →
  NoDup (__snames__ (content self)) →
  h !! document = Some d →
  r ∈ __rnames__ (content self) →
  r ∉ keys (delete_metadata d) →
  ∃ self' e,
    validate self h document _meta =
      Some (self', <[document := delete_metadata d]> h,
            raise (Exception
              "document data is not according to base definition." e))
    ∧ __files__ self' !! id_doc _meta = None
    ∧ __reldata__ self' !! id_doc _meta = None.
Proof.
  intros Hkeep Hnd Hd Hr Hni.
  destruct (Schema_missing_required
              (schema (create_memory_area (id_doc _meta) self) (id_doc _meta))
              (delete_metadata d) (create_memory_area (id_doc _meta) self) r)
    as [e He]; [by apply schema_required_keys | done |].
  destruct (apply_schema self _meta d) as [st r'] eqn:Happ.
  simpl in He. subst r'.
  destruct (validate_failure self h document _meta d st e Hkeep Hd Happ)
    as (self' & Hv). by exists self', e.
Qed.

End Validate.

(** ** The Field Value Wrapper and the list of a multivalued Group
    (lbdoc/metaclass.py) *)

Section Wrapper.
Variable datatype_schema : Field → val → res val.

Local Abbreviation FieldMetaClass_setattr :=
  (LbdocMetaclass.FieldMetaClass_setattr datatype_schema).
Local Abbreviation FieldMetaClass_init :=
  (LbdocMetaclass.FieldMetaClass_init datatype_schema).
Local Abbreviation normalizes := (LbdocMetaclass.normalizes datatype_schema).
Local Abbreviation rejects := (LbdocMetaclass.rejects datatype_schema).

Lemma mapM_inr {A B} (f : A → res B) xs ys :
  mapM f xs = inr ys → Forall2 (λ x y, f x = ret y) xs ys.
Proof.
  revert ys. induction xs as [|x xs IH]; simpl; intros ys.
  - intros [= <-]. constructor.
  - destruct (f x) as [e|y] eqn:Hx; simpl; [done|].
    destruct (mapM f xs) as [e|ys'] eqn:Hxs; simpl; [done|].
    intros [= <-]. constructor; [done|]. by apply IH.
Qed.

Lemma mapM_inl {A B} (f : A → res B) xs e :
  mapM f xs = inl e → ∃ x, x ∈ xs ∧ f x = raise e.
Proof.
  induction xs as [|x xs IH]; simpl; [done|].
  destruct (f x) as [e'|y] eqn:Hx; simpl.
  - intros [= ->]. exists x. split; [apply list_elem_of_here | done].
  - destruct (mapM f xs) as [e'|ys'] eqn:Hxs; simpl; [|done].
    intros [= ->]. destruct (IH eq_refl) as (x' & Hin & Hx').
    exists x'. split; [by apply list_elem_of_further | done].
Qed.

Lemma mapM_Forall2 {A B} (f : A → res B) xs ys :
  Forall2 (λ x y, f x = ret y) xs ys → mapM f xs = ret ys.
Proof.
  induction 1 as [|x y xs ys Hx _ IH]; simpl; [done|].
  rewrite Hx. simpl. by rewrite IH.
Qed.

Lemma FieldMetaClass_setattr_spec field self obj value :
  match FieldMetaClass_setattr field self obj value with
  | inr self' => ∃ v', self' = Some v' ∧ normalizes field value v'
  | inl e => rejects field value e
  end.
Proof.
  unfold LbdocMetaclass.FieldMetaClass_setattr, LbdocMetaclass.normalizes,
    LbdocMetaclass.rejects.
  destruct (multivalued field).
  - destruct (as_list value) as [elements|]; simpl; [|done].
    destruct (mapM (datatype_schema field) elements) as [e|normalized] eqn:Hm;
      simpl.
    + by apply mapM_inl.
    + eexists. split; [done|]. exists elements, normalized.
      split; [done|]. split; [by apply mapM_inr | done].
  - destruct (datatype_schema field value) as [e|v'] eqn:Hv; simpl; [done|].
    by exists v'.
Qed.

(** C7.  Constructing the value wrapper of a Field and every assignment to
    an attribute of the wrapper hand the incoming value to the datatype
    validator of the Field.  For a multivalued Field the value has to be a
    list, every element is validated on its own and the list of the
    normalized elements is what the wrapper holds; otherwise the scalar is
    validated.  An assignment ends in an exception or leaves the normalized
    incoming value in the wrapper, whatever the wrapper held before: it is
    never a silent no-op. *)
Theorem field_wrapper_validates_every_assignment field value :
  (∀ self obj,
     match FieldMetaClass_setattr field self obj value with
     | inr self' => ∃ v', self' = Some v' ∧ normalizes field value v'
     | inl e => rejects field value e
     end)
  ∧ match FieldMetaClass_init field value with
    | inr wrapper =>
        ∃ v', wrapper = VField (name field) (Some v') ∧ normalizes field value v'
    | inl e => rejects field value e
    end
  ∧ (∀ v', normalizes field value v' →
       (∀ self obj, FieldMetaClass_setattr field self obj value = ret (Some v'))
       ∧ FieldMetaClass_init field value = ret (VField (name field) (Some v'))).
Proof.
  split; [intros; apply FieldMetaClass_setattr_spec|]. split.
  - unfold LbdocMetaclass.FieldMetaClass_init.
    pose proof (FieldMetaClass_setattr_spec field None "__value__" value) as H.
    destruct (FieldMetaClass_setattr field None "__value__" value)
      as [e|self']; simpl; [done|].
    destruct H as (v' & -> & Hn). by exists v'.
  - intros v' Hn.
    assert (∀ self obj,
      FieldMetaClass_setattr field self obj value = ret (Some v')) as Hset.
    { intros self obj. revert Hn.
      unfold LbdocMetaclass.FieldMetaClass_setattr, LbdocMetaclass.normalizes.
      destruct (multivalued field).
      - intros (elements & normalized & -> & HF & ->).
        by rewrite (mapM_Forall2 _ _ _ HF).
      - by intros ->. }
    split; [done|]. unfold LbdocMetaclass.FieldMetaClass_init.
    by rewrite Hset.
Qed.

End Wrapper.

(** C8.  Appending to the list a multivalued Group slot holds an element
    that is not an instance of the generated type of the Group fails with
    the AssertionError of the type check, and the list is the same
    afterwards; its length in particular. *)
Theorem multigroup_append_rejects base gname value struct_metaclass element :
  LbdocMetaclass.Base_metaclass base gname = ret struct_metaclass →
  LbdocMetaclass.isinstance element struct_metaclass = false →
  LbdocMetaclass.MultiGroupMetaClass_append struct_metaclass value element
    = (value,
       raise (AssertionError "{} list elements should be instances of {}"))
  ∧ LbdocMetaclass.append base (VMulti gname value) element
    = (VMulti gname value,
       raise (AssertionError "{} list elements should be instances of {}"))
  ∧ length (LbdocMetaclass.MultiGroupMetaClass_append
              struct_metaclass value element).1 = length value.
Proof.
  intros Hcls Hinst.
  unfold LbdocMetaclass.append, LbdocMetaclass.MultiGroupMetaClass_append.
  rewrite Hcls. simpl. by rewrite Hinst.
Qed.

Lemma multigroup_append_rejects_witness :
  LbdocMetaclass.append (LbdocMetaclass.OBase Example.tagged_doc)
    (VMulti "tags" [Example.tag_a]) (VDict [("value", VStr "b")])
  = (VMulti "tags" [Example.tag_a],
     raise (AssertionError "{} list elements should be instances of {}")).
Proof.
  refine (proj1 (proj2 (multigroup_append_rejects
    (LbdocMetaclass.OBase Example.tagged_doc) "tags" [Example.tag_a]
    (LbdocMetaclass.MetaClassOf _)
    (VDict [("value", VStr "b")]) _ _))); vm_compute; reflexivity.
Defined.

(** ** Base.validate on the example base *)

(** Distinctness of the names of a concrete list, by evaluation. *)
Ltac nodup_by_eval :=
  unfold dict_wf, keys, __snames__; simpl;
  apply (bool_decide_unpack _); vm_compute; reflexivity.

Lemma noting_schema_keeps id :
  LbbaseStruct.keeps_memory_area Example.noting_schema id.
Proof.
  intros s v st [Hf Hr]. split; [done|]. simpl.
  destruct Hr as [r Hr]. rewrite lookup_alter_eq, Hr. by eexists.
Qed.

Lemma validate_failure_witness :
  ∃ self',
    LbbaseStruct.validate Example.noting_schema Example.base
      (Example.store Example.doc_no_title) 0%nat Example.meta7 =
      Some (self',
            <[0%nat := delete_metadata Example.doc_no_title]>
              (Example.store Example.doc_no_title),
            raise (Exception
              "document data is not according to base definition."
              (MultipleInvalid [Invalid "required key not provided" "title"])))
    ∧ __files__ self' !! 7%Z = None
    ∧ __reldata__ self' !! 7%Z = None.
Proof.
  destruct (validate_failure_clears_memory_area Example.noting_schema
              Example.base (Example.store Example.doc_no_title) 0%nat
              Example.meta7 Example.doc_no_title
              (Schema (LbbaseStruct.schema Example.noting_schema
                         (create_memory_area 7%Z Example.base) 7%Z)
                 (VDict (delete_metadata Example.doc_no_title))
                 (create_memory_area 7%Z Example.base)).1
              (MultipleInvalid [Invalid "required key not provided" "title"]))
    as (self' & Hv & Hf & Hr & _).
  - apply noting_schema_keeps.
  - reflexivity.
  - vm_compute. reflexivity.
  - by exists self'.
Defined.

Lemma validate_success_witness :
  ∃ h' st,
    LbbaseStruct.validate Example.noting_schema Example.base
      (Example.store Example.doc_full) 0%nat Example.meta7 =
      Some (st, h',
            ret (1%nat,
                 [("title", VStr "X"); ("author", VDict [("name", VStr "Y")])],
                 [], []))
    ∧ h' !! 1%nat =
        Some [("title", VStr "X"); ("author", VDict [("name", VStr "Y")]);
              ("_metadata",
               VDict [("id_doc", VInt 7); ("dt_doc", VStr "2014-01-01")])]
    ∧ __reldata__ st !! 7%Z
      = Some [("title", VStr "X"); ("author", VDict [("name", VStr "Y")])]
    ∧ __files__ st !! 7%Z = Some [].
Proof.
  destruct (validate_success_result Example.noting_schema
              Example.base (Example.store Example.doc_full) 0%nat
              Example.meta7 Example.doc_full
              (Schema (LbbaseStruct.schema Example.noting_schema
                         (create_memory_area 7%Z Example.base) 7%Z)
                 (VDict (delete_metadata Example.doc_full))
                 (create_memory_area 7%Z Example.base)).1
              (VDict [("title", VStr "X"); ("author", VDict [("name", VStr "Y")])]))
    as (h' & validated & returned & validated_doc & reldata & files
        & Hv & _ & Hh & _ & _ & Hr & Hf).
  - apply noting_schema_keeps.
  - reflexivity.
  - vm_compute. reflexivity.
  - vm_compute in Hv. injection Hv as Hh' Hvalidated Hreldata Hfiles.
    subst h' validated reldata files.
    eexists _, _. split; [vm_compute; reflexivity|].
    split; [vm_compute; reflexivity|]. split; [exact Hr|exact Hf].
Defined.

(** C9, as stated, fails: after a successful validation of a document that
    came with a '_metadata' key, the caller's mapping (location 0) has no
    such key; the mapping with the metadata is another one (location 1). *)
Lemma validate_caller_mapping_stays_stripped :
  ∃ st h' reldata files,
    LbbaseStruct.validate Example.noting_schema Example.base
      (Example.store Example.doc_full) 0%nat Example.meta7 =
      Some (st, h', ret (1%nat, reldata, files, []))
    ∧ (h' !! 0%nat ≫= dict_get "_metadata") = None
    ∧ (h' !! 1%nat ≫= dict_get "_metadata")
        = Some (VDict (__dict__ Example.meta7)).
Proof.
  eexists _, _, _, _. split; [vm_compute; reflexivity|].
  split; vm_compute; reflexivity.
Qed.

Lemma validate_metadata_key_witness :
  ∃ self' h' r,
    LbbaseStruct.validate Example.noting_schema Example.base
      (Example.store Example.doc_full) 0%nat Example.meta7 = Some (self', h', r)
    ∧ h' !! 0%nat = Some (delete_metadata Example.doc_full)
    ∧ dict_has "_metadata" (delete_metadata Example.doc_full) = false.
Proof.
  destruct (validate_metadata_key Example.noting_schema Example.base
              (Example.store Example.doc_full) 0%nat Example.meta7
              Example.doc_full) as (self' & h' & r & Hv & Hh & Hs & _).
  - nodup_by_eval.
  - reflexivity.
  - by exists self', h', r.
Defined.

Lemma schema_marks_required_iff_witness :
  (∃ key,
     schema_find "title"
       (LbbaseStruct.schema Example.noting_schema Example.base 7%Z)
       = Some (key, Example.noting_schema (SField Example.title) 7%Z)
     ∧ marker_schema key = "title"
     ∧ (is_Required key = true ↔ required Example.title = true))
  ∧
  (∃ _schema key,
     LbbaseInit.schema [Example.old_title] = ret _schema
     ∧ schema_find "title" _schema
         = Some (key, LbbaseInit.attr_schema Example.old_title)
     ∧ marker_schema key = "title"
     ∧ (is_Required key = true
        ↔ LbbaseInit.required_flag Example.old_title = true)).
Proof.
  split.
  - apply (proj1 (schema_marks_required_iff Example.noting_schema)
             Example.base 7%Z (SField Example.title)).
    + nodup_by_eval.
    + apply list_elem_of_here.
  - apply (proj2 (schema_marks_required_iff Example.noting_schema)
             [Example.old_title] Example.old_title).
    + nodup_by_eval.
    + repeat constructor. intros _. by eexists.
    + apply list_elem_of_here.
Defined.

(** ** Construction of document types *)

Section Construction.
Variable datatype_schema : Field → val → res val.
Variable struct_schema : Struct → Z → validator Base.

Local Abbreviation BaseMetaClass_init :=
  (LbbaseStruct.BaseMetaClass_init datatype_schema).
Local Abbreviation MetaClass_init :=
  (LbdocMetaclass.MetaClass_init datatype_schema).
Local Abbreviation MetaClass_new :=
  (LbdocMetaclass.MetaClass_new datatype_schema).

Lemma missing_name_in_difference (rnames : list string) (kwargs : pydict) r :
  r ∈ rnames → r ∉ keys kwargs →
  r ∈ (list_to_set rnames : gset string) ∖ list_to_set (keys kwargs).
Proof.
  intros Hr Hk. apply elem_of_difference.
  split; [by apply elem_of_list_to_set | by rewrite elem_of_list_to_set].
Qed.

Lemma BaseMetaClass_init_missing base props basename kwargs r :
  r ∈ __rnames__ props → r ∉ keys kwargs →
  ∃ missing,
    BaseMetaClass_init base props basename kwargs
      = ([], raise (TypeError_required missing))
    ∧ r ∈ missing.
Proof.
  intros Hr Hk. unfold LbbaseStruct.BaseMetaClass_init.
  pose proof (missing_name_in_difference _ _ _ Hr Hk) as Hin.
  destruct (size _) eqn:E.
  - apply size_empty_iff in E. rewrite E in Hin. by apply elem_of_empty in Hin.
  - by eexists.
Qed.

Lemma MetaClass_init_missing C kwargs r :
  LbdocMetaclass.__valreq__ C = true →
  r ∈ LbdocMetaclass.rnames C → r ∉ keys kwargs →
  ∃ missing,
    MetaClass_init C kwargs = ([], raise (TypeError_required missing))
    ∧ r ∈ missing.
Proof.
  intros Hflag Hr Hk.
  unfold LbdocMetaclass.MetaClass_init, LbdocMetaclass.validate_required.
  rewrite Hflag.
  pose proof (missing_name_in_difference _ _ _ Hr Hk) as Hin.
  case_decide as E; [rewrite E in Hin; by apply elem_of_empty in Hin|].
  by eexists.
Qed.

Lemma generate_metaclass_valreq struct base C :
  LbdocMetaclass.generate_metaclass struct base = ret C →
  LbdocMetaclass.__valreq__ C = true.
Proof.
  unfold LbdocMetaclass.generate_metaclass.
  destruct base as [b|]; destruct (LbdocMetaclass.owner_content struct);
    simpl; try done;
    destruct (LbdocMetaclass.owner_name struct); simpl; try done;
    by intros [= <-].
Qed.

Lemma keyword_self (l : list string) :
  existsb (String.eqb "self") l = true ↔ "self" ∈ l.
Proof.
  rewrite existsb_exists. split.
  - intros (x & Hx & <-%String.eqb_eq). by apply list_elem_of_In.
  - intros Hin. exists "self". split; [by apply list_elem_of_In|done].
Qed.

Lemma keyword_not_self (l : list string) :
  "self" ∉ l → existsb (String.eqb "self") l = false.
Proof.
  intros Hni. destruct (existsb _ l) eqn:E; [|done].
  by apply keyword_self in E.
Qed.

(** C4.  Construction from a keyword set that misses a name of the
    required-name set fails with a TypeError, for every type of
    lbbase/struct.py and for every type [generate_metaclass] of
    lbdoc/metaclass.py returns (the class flag [__valreq__] is set in each
    of them).  Unless a keyword is called [self], which the call itself
    refuses with a TypeError, it is the TypeError of the required-name
    check that names the missing structures (MissingRequiredStructure),
    raised before anything is assigned.  Full validation of a raw document
    that misses a required name of the base fails and leaves no entry for
    the document id in [__files__] or [__reldata__]. *)
Theorem missing_required_name_fails :
  (∀ base m kwargs r,
     r ∈ __rnames__ (LbbaseStruct.metaclass_content base m) →
     r ∉ keys kwargs →
     ∃ e,
       LbbaseStruct.metaclass_new datatype_schema base m kwargs = raise e
       ∧ is_TypeError e = true
       ∧ ("self" ∉ keys kwargs →
          ∃ missing, e = TypeError_required missing ∧ r ∈ missing)
       ∧ ("self" ∈ keys kwargs →
          e = TypeError "__init__() got multiple values for argument 'self'"))
  ∧ (∀ base props basename kwargs r,
       r ∈ __rnames__ props → r ∉ keys kwargs →
       ∃ missing,
         BaseMetaClass_init base props basename kwargs
           = ([], raise (TypeError_required missing))
         ∧ r ∈ missing)
  ∧ (∀ struct base C kwargs r,
       LbdocMetaclass.generate_metaclass struct base = ret C →
       r ∈ LbdocMetaclass.rnames C → r ∉ keys kwargs →
       ∃ e,
         MetaClass_new C kwargs = raise e
         ∧ is_TypeError e = true
         ∧ ("self" ∉ keys kwargs →
            ∃ missing,
              e = TypeError_required missing ∧ r ∈ missing
              ∧ MetaClass_init C kwargs = ([], raise e))
         ∧ ("self" ∈ keys kwargs →
            e = TypeError "__init__() got multiple values for argument 'self'"))
  ∧ (∀ self h document _meta d r,
       LbbaseStruct.keeps_memory_area struct_schema (id_doc _meta) →
       NoDup (__snames__ (content self)) →
       h !! document = Some d →
       r ∈ __rnames__ (content self) →
       r ∉ keys (delete_metadata d) →
       ∃ self' e,
         LbbaseStruct.validate struct_schema self h document _meta =
           Some (self', <[document := delete_metadata d]> h,
                 raise (Exception
                   "document data is not according to base definition." e))
         ∧ __files__ self' !! id_doc _meta = None
         ∧ __reldata__ self' !! id_doc _meta = None).
Proof.
  split; [|split; [apply BaseMetaClass_init_missing|split]].
  - intros base m kwargs r Hr Hk.
    assert (∀ basename,
      ∃ missing,
        BaseMetaClass_init base (LbbaseStruct.metaclass_content base m)
          basename kwargs = ([], raise (TypeError_required missing))
        ∧ r ∈ missing) as Hinit
      by (intros basename; by apply BaseMetaClass_init_missing).
    unfold LbbaseStruct.metaclass_new.
    destruct m as [|[f|md gr c]].
    + destruct (existsb (String.eqb "self") (keys kwargs)) eqn:Hself.
      * eexists. split; [done|]. split; [done|]. split; [|done].
        intros Hni. by apply keyword_self in Hself.
      * destruct (Hinit (metadata_name base)) as (missing & -> & Hin).
        eexists. split; [done|]. split; [done|].
        split; [intros _; by exists missing|].
        intros Hin'%keyword_self. by rewrite Hin' in Hself.
    + by apply elem_of_nil in Hr.
    + destruct (existsb (String.eqb "self") (keys kwargs)) eqn:Hself.
      * eexists. split; [done|]. split; [done|]. split; [|done].
        intros Hni. by apply keyword_self in Hself.
      * destruct (Hinit (structname (SGroup md gr c)))
          as (missing & -> & Hin).
        eexists. split; [done|]. split; [done|].
        split; [intros _; by exists missing|].
        intros Hin'%keyword_self. by rewrite Hin' in Hself.
  - intros struct base C kwargs r HC Hr Hk.
    destruct (MetaClass_init_missing C kwargs r
                (generate_metaclass_valreq _ _ _ HC) Hr Hk)
      as (missing & Hinit & Hin).
    unfold LbdocMetaclass.MetaClass_new.
    destruct (existsb (String.eqb "self") (keys kwargs)) eqn:Hself.
    + eexists. split; [done|]. split; [done|]. split; [|done].
      intros Hni. by apply keyword_self in Hself.
    + rewrite Hinit. eexists. split; [done|]. split; [done|].
      split; [intros _; by exists missing|].
      intros Hin'%keyword_self. by rewrite Hin' in Hself.
  - apply validate_missing_required.
Qed.

End Construction.

Lemma missing_required_name_fails_witness :
  (∃ e,
     LbbaseStruct.metaclass_new Example.text Example.base BaseMetaClass
       [("author", VNone)] = raise e
     ∧ is_TypeError e = true
     ∧ ∃ missing, e = TypeError_required missing ∧ "title" ∈ missing)
  ∧ (∃ e,
       LbdocMetaclass.MetaClass_new Example.text Example.books_class
         [("author", VNone)] = raise e
       ∧ is_TypeError e = true
       ∧ ∃ missing,
           e = TypeError_required missing ∧ "title" ∈ missing
           ∧ LbdocMetaclass.MetaClass_init Example.text Example.books_class
               [("author", VNone)] = ([], raise e))
  ∧ (∃ self' e,
       LbbaseStruct.validate Example.noting_schema Example.base
         (Example.store Example.doc_no_title) 0%nat Example.meta7 =
         Some (self',
               <[0%nat := delete_metadata Example.doc_no_title]>
                 (Example.store Example.doc_no_title),
               raise (Exception
                 "document data is not according to base definition." e))
       ∧ __files__ self' !! 7%Z = None
       ∧ __reldata__ self' !! 7%Z = None).
Proof.
  pose proof (missing_required_name_fails Example.text Example.noting_schema)
    as (Hbase & _ & Hmeta & Hvalidate).
  assert ("title" ∉ keys [("author", VNone)]) as Hmiss.
  { simpl. by intros ?%list_elem_of_singleton. }
  assert ("self" ∉ keys [("author", VNone)]) as Hself.
  { simpl. by intros ?%list_elem_of_singleton. }
  split; [|split].
  - destruct (Hbase Example.base BaseMetaClass [("author", VNone)] "title")
      as (e & He & Ht & Hreq & _); [apply list_elem_of_here|exact Hmiss|].
    exists e. split; [exact He|]. split; [exact Ht|]. exact (Hreq Hself).
  - destruct (Hmeta (LbdocMetaclass.OBase Example.books_doc) None
                Example.books_class [("author", VNone)] "title")
      as (e & He & Ht & Hreq & _);
      [reflexivity|apply list_elem_of_here|exact Hmiss|].
    exists e. split; [exact He|]. split; [exact Ht|]. exact (Hreq Hself).
  - apply (Hvalidate Example.base (Example.store Example.doc_no_title) 0%nat
             Example.meta7 Example.doc_no_title "title").
    + apply noting_schema_keeps.
    + nodup_by_eval.
    + reflexivity.
    + apply list_elem_of_here.
    + simpl. by intros ?%list_elem_of_singleton.
Defined.

(** ** Assignment to the slot of a multivalued Group, and the keyword
    arguments of a constructor *)

(** C3 at the input where the code departs from it.  The setter of
    [Base._make_meta_prop] (lbbase/struct.py) checks that the value is a
    list of instances of the generated type of the Group and then stores
    the list it was given: the slot holds a plain list, and appending a
    value of any type to it succeeds.  The setter of [generate_property]
    (lbdoc/metaclass.py) stores a MultiGroupMetaClass built from the same
    list, whose [append] refuses that value. *)
Theorem struct_setter_stores_plain_list :
  LbbaseStruct.setattr Example.text LbbaseStruct.recursion_limit
    Example.tagged (content Example.tagged) [] "tags" (VList [Example.tag_a])
  = ret [("_tags", VList [Example.tag_a])]
  ∧ LbbaseStruct.getattr LbbaseStruct.recursion_limit
      Example.tagged (content Example.tagged)
      [("_tags", VList [Example.tag_a])] "tags"
    = ret (VList [Example.tag_a])
  ∧ LbdocMetaclass.append (LbdocMetaclass.OBase Example.tagged_doc)
      (VList [Example.tag_a]) (VInt 5)
    = (VList [Example.tag_a; VInt 5], ret tt)
  ∧ ∃ C,
      LbdocMetaclass.generate_metaclass
        (LbdocMetaclass.OBase Example.tagged_doc) None = ret C
      ∧ LbdocMetaclass.setattr Example.text LbdocMetaclass.recursion_limit C
          [] "tags" (VList [Example.tag_a])
        = ret [("_tags", VMulti "tags" [Example.tag_a])]
      ∧ LbdocMetaclass.append (LbdocMetaclass.OBase Example.tagged_doc)
          (VMulti "tags" [Example.tag_a]) (VInt 5)
        = (VMulti "tags" [Example.tag_a],
           raise (AssertionError "{} list elements should be instances of {}")).
Proof.
  split; [vm_compute; reflexivity|]. split; [vm_compute; reflexivity|].
  split; [vm_compute; reflexivity|].
  eexists. split; [vm_compute; reflexivity|].
  split; vm_compute; reflexivity.
Qed.

(** What the setter of [generate_property] does with a value for the slot
    of a multivalued Group: anything but a list of instances of the
    generated type of the Group ends in the AssertionError of the check, and
    a list of instances is stored as a MultiGroupMetaClass with the same
    elements. *)
Lemma generate_property_setter_multivalued datatype_schema setattr base md r c
    struct_metaclass self value :
  gmultivalued md = true →
  LbdocMetaclass.Base_metaclass base (gname md) = ret struct_metaclass →
  LbdocMetaclass.setter datatype_schema setattr base (SGroup md r c) self value
  = match as_list value with
    | None => raise (AssertionError "object {} should be instance of {}")
    | Some elements =>
        if forallb (λ element,
                      LbdocMetaclass.isinstance element struct_metaclass)
             elements
        then setattr self ("_" +:+ gname md) (VMulti (gname md) elements)
        else raise (AssertionError "{} list elements should be instances of {}")
    end.
Proof.
  intros Hmulti Hcls. unfold LbdocMetaclass.setter. simpl.
  rewrite Hcls, Hmulti. simpl.
  destruct (as_list value) as [elements|]; [|done].
  by destruct (forallb _ elements).
Qed.

(** C10 at the input where the code departs from it.  [MetaClass.__init__]
    (lbdoc/metaclass.py) has no check of the names: a keyword that names the
    private slot of a structure is assigned to the slot as it is, without
    the accessor.  With the keywords [_value] and [nope] construction fails
    at [nope], and [_value] holds 5, a value the accessor of [value]
    refuses; with [_value] alone construction succeeds.  [BaseMetaClass]
    (lbbase/struct.py) refuses the keyword [_value] as the name of no
    structure. *)
Theorem metaclass_init_assigns_slot_unvalidated :
  ∃ C,
    Example.tags_MetaClass = ret C
    ∧ LbdocMetaclass.MetaClass_init Example.text C
        [("_value", VInt 5); ("nope", VNone)]
      = ([("_value", VInt 5)], raise (AttributeError "nope"))
    ∧ LbdocMetaclass.setattr Example.text LbdocMetaclass.recursion_limit C []
        "value" (VInt 5)
      = raise (ValueError "Text: expected str")
    ∧ LbdocMetaclass.MetaClass_new Example.text C [("_value", VInt 5)]
      = ret (VInst (DocClass (Some "tags")) [("_value", VInt 5)])
    ∧ LbbaseStruct.BaseMetaClass_init Example.text Example.tagged
        [SField Example.tag_value] "tags" [("_value", VInt 5); ("nope", VNone)]
      = ([], raise (AttributeError_structure "tags" "_value")).
Proof.
  eexists. split; [vm_compute; reflexivity|].
  repeat split; vm_compute; reflexivity.
Qed.

(** The loop of [BaseMetaClass.__init__] stops at the first keyword that is
    not the name of a structure or whose assignment fails; the instance then
    holds what the assignments of the keywords before it left, each made
    through [setattr] and so through the accessor of the structure. *)
Lemma BaseMetaClass_init_loop_stops setattr snames basename pre arg value post
    self self' :
  Forall (λ p, existsb (String.eqb p.1) snames = true) pre →
  LbbaseStruct.assign_all setattr self pre = ret self' →
  LbbaseStruct.init_loop setattr snames basename self (pre ++ (arg, value) :: post)
  = if existsb (String.eqb arg) snames then
      match setattr self' arg value with
      | inl e => (self', raise e)
      | inr self'' =>
          LbbaseStruct.init_loop setattr snames basename self'' post
      end
    else (self', raise (AttributeError_structure basename arg)).
Proof.
  revert self. induction pre as [|[k v] pre IH]; intros self Hin Hall.
  - unfold LbbaseStruct.assign_all in Hall. simpl in Hall.
    injection Hall as ->. done.
  - apply Forall_cons in Hin as [Hk Hin]. simpl in Hk. simpl. rewrite Hk.
    unfold LbbaseStruct.assign_all in Hall. simpl in Hall.
    change (bind (ret self) (λ self0, setattr self0 k v))
      with (setattr self k v) in Hall.
    destruct (setattr self k v) as [e|self1] eqn:Hset.
    + exfalso. clear -Hall.
      assert (∀ l, fold_left
        (λ (acc : res pydict) (p : string * val),
           self0 <- acc;; setattr self0 p.1 p.2) l (inl e) = inl e) as Hfix.
      { induction l as [|x l IHl]; simpl; done. }
      rewrite Hfix in Hall. done.
    + by apply IH.
Qed.

(** ** Typed documents of valid raw documents (lbbase/struct.py) *)

Lemma Struct_ind' (P : Struct → Prop) :
  (∀ f, P (SField f)) →
  (∀ md r c, Forall P c → P (SGroup md r c)) →
  ∀ s, P s.
Proof.
  intros Hf Hg. fix IH 1. intros [f|md r c]; [apply Hf|].
  apply Hg. induction c as [|s c IHc]; constructor; [apply IH | apply IHc].
Qed.

Lemma find_unique {A} (f : A → bool) (l : list A) (x : A) :
  x ∈ l → f x = true → (∀ y, y ∈ l → f y = true → y = x) →
  find f l = Some x.
Proof.
  induction l as [|a l IH]; intros Hin Hfx Huniq; [by apply elem_of_nil in Hin|].
  simpl. destruct (f a) eqn:Hfa.
  - f_equal. apply Huniq; [apply list_elem_of_here | done].
  - apply elem_of_cons in Hin as [->|Hin]; [congruence|].
    apply IH; [done..|]. intros y Hy. apply Huniq. by apply list_elem_of_further.
Qed.

Lemma find_none {A} (f : A → bool) (l : list A) :
  (∀ y, y ∈ l → f y = false) → find f l = None.
Proof.
  induction l as [|a l IH]; intros Hall; [done|]. simpl.
  rewrite (Hall a) by apply list_elem_of_here.
  apply IH. intros y Hy. apply Hall. by apply list_elem_of_further.
Qed.

Lemma NoDup_fmap_eq {A B} (f : A → B) (l : list A) x y :
  NoDup (f <$> l) → x ∈ l → y ∈ l → f x = f y → x = y.
Proof.
  induction l as [|a l IH]; intros Hnd Hx Hy Hxy; [by apply elem_of_nil in Hx|].
  rewrite fmap_cons in Hnd. apply NoDup_cons in Hnd as [Hni Hnd].
  apply elem_of_cons in Hx as [->|Hx]; apply elem_of_cons in Hy as [->|Hy].
  - done.
  - exfalso. apply Hni. rewrite Hxy. by apply list_elem_of_fmap_2.
  - exfalso. apply Hni. rewrite <- Hxy. by apply list_elem_of_fmap_2.
  - by apply IH.
Qed.

Lemma private_name_inj (k k' : string) : "_" +:+ k = "_" +:+ k' → k = k'.
Proof. simpl. by intros [= ?]. Qed.

Section Levels.

(** *** The properties of one well-formed level *)

Lemma structname_unique (c : Content) s s' :
  wf_level c → s ∈ c → s' ∈ c → structname s' = structname s → s' = s.
Proof.
  intros [Hnd _] Hs Hs' Hn. by apply (NoDup_fmap_eq structname c).
Qed.

Lemma class_property_found (c : Content) s :
  wf_level c → s ∈ c → class_property c (structname s) = Some s.
Proof.
  intros Hwf Hin. unfold class_property. apply find_unique.
  - by apply elem_of_reverse.
  - apply String.eqb_refl.
  - intros s' Hs' Hn%String.eqb_eq. rewrite elem_of_reverse in Hs'.
    by apply (structname_unique c).
Qed.

Lemma class_property_private (c : Content) s :
  wf_level c → s ∈ c → class_property c ("_" +:+ structname s) = None.
Proof.
  intros [_ Hplain] Hin. unfold class_property. apply find_none.
  intros s' Hs'. rewrite elem_of_reverse in Hs'.
  destruct (String.eqb (structname s') ("_" +:+ structname s)) eqn:E; [|done].
  apply String.eqb_eq in E. exfalso.
  rewrite Forall_forall in Hplain.
  apply (Hplain (structname s)).
  - by apply list_elem_of_fmap_2.
  - rewrite <- E. by apply list_elem_of_fmap_2.
Qed.

Lemma pick_struct_found {A} (f : Struct → A) default (c : Content) s :
  wf_level c → s ∈ c → pick_struct f default (structname s) c = f s.
Proof.
  intros Hwf Hin. induction c as [|s' c IH]; [by apply elem_of_nil in Hin|].
  simpl. destruct (String.eqb (structname s') (structname s)) eqn:E.
  - apply String.eqb_eq in E. f_equal.
    apply (structname_unique (s' :: c)); [done| |apply list_elem_of_here|done].
    done.
  - apply elem_of_cons in Hin as [->|Hin]; [by rewrite String.eqb_refl in E|].
    apply IH; [|done]. destruct Hwf as [Hnd Hplain]. split.
    + by apply NoDup_cons in Hnd as [_ ?].
    + apply Forall_cons in Hplain as [_ Hplain].
      eapply Forall_impl; [exact Hplain|]. intros n Hn Hin'. apply Hn.
      by apply list_elem_of_further.
Qed.

End Levels.

Section Roundtrip.
Variable datatype_schema : Field → val → res val.
Variable bookkeeping : Field → Z → val → Base → Base.

Local Abbreviation struct_schema :=
  (LbbaseStruct.struct_schema datatype_schema bookkeeping).

Local Abbreviation setattr := (LbbaseStruct.setattr datatype_schema).
Local Abbreviation setter_value := (LbbaseStruct.setter_value datatype_schema).
Local Abbreviation json2document := (LbbaseStruct.json2document datatype_schema).
Local Abbreviation metaclass_new := (LbbaseStruct.metaclass_new datatype_schema).
Local Abbreviation conforms := (LbbaseStruct.conforms datatype_schema).
Local Abbreviation conforms_dict := (LbbaseStruct.conforms_dict datatype_schema).
Local Abbreviation typed := (LbbaseStruct.typed datatype_schema).
Local Abbreviation normal := (LbbaseStruct.normal datatype_schema).
Local Abbreviation normal_field := (LbbaseStruct.normal_field datatype_schema).
Local Abbreviation normalized := (LbbaseStruct.normalized datatype_schema).
Local Abbreviation kwarg_of := (kwarg_of datatype_schema).
Local Abbreviation member_converts := (member_converts datatype_schema).
Local Abbreviation raw_converts := (raw_converts datatype_schema).
Local Abbreviation normal_equal := (normal_equal datatype_schema).

(** *** Attribute assignment and lookup on a well-formed level *)

Lemma setattr_level n self (c : Content) attrs s value :
  wf_level c → s ∈ c →
  setattr (S (S n)) self c attrs (structname s) value
  = (v' <- setter_value self s value ;;
     ret (dict_set ("_" +:+ structname s) v' attrs)).
Proof.
  intros Hwf Hin. cbn [LbbaseStruct.setattr].
  rewrite class_property_found by done. unfold LbbaseStruct.setter.
  destruct (setter_value self s value) as [e|v']; [done|].
  cbn [bind]. by rewrite class_property_private.
Qed.

Lemma getattr_level n self (c : Content) attrs s :
  wf_level c → s ∈ c →
  LbbaseStruct.getattr (S (S n)) self c attrs (structname s)
  = match dict_get ("_" +:+ structname s) attrs with
    | Some value =>
        if is_field s then LbdocMetaclass.getattr_value value else ret value
    | None => raise (AttributeError ("_" +:+ structname s))
    end.
Proof.
  intros Hwf Hin. cbn [LbbaseStruct.getattr].
  rewrite class_property_found by done. unfold LbbaseStruct.getter.
  rewrite class_property_private by done.
  by destruct (dict_get _ attrs).
Qed.

Lemma recursion_limit_unfold :
  LbbaseStruct.recursion_limit = S (S 998).
Proof. reflexivity. Qed.

(** *** Dicts built key by key *)

Lemma dict_set_fresh k v (d : pydict) :
  k ∉ keys d → dict_set k v d = d ++ [(k, v)].
Proof.
  induction d as [|[k' v'] d IH]; simpl; [done|].
  intros Hni. apply not_elem_of_cons in Hni as [Hne Hni].
  destruct (String.eqb k' k) eqn:E.
  - apply String.eqb_eq in E. congruence.
  - by rewrite IH.
Qed.

Lemma kwargs_of_nodup (pairs : pydict) :
  NoDup (keys pairs) → LbbaseStruct.kwargs_of pairs = pairs.
Proof.
  unfold LbbaseStruct.kwargs_of.
  assert (∀ acc : pydict, NoDup (keys acc ++ keys pairs) →
    fold_left (λ kwargs p, dict_set p.1 p.2 kwargs) pairs acc = acc ++ pairs)
    as Hgen.
  { induction pairs as [|[k v] pairs IH]; intros acc Hnd; simpl.
    - by rewrite app_nil_r.
    - simpl in Hnd. rewrite dict_set_fresh.
      + rewrite IH; [by rewrite <- app_assoc|].
        unfold keys. rewrite map_app. simpl. by rewrite <- app_assoc.
      + apply NoDup_app in Hnd as (_ & Hdisj & _).
        intros Hin. apply (Hdisj _ Hin). apply list_elem_of_here. }
  intros Hnd. by apply (Hgen []).
Qed.

Lemma dict_get_elem k v (d : pydict) :
  dict_wf d → (k, v) ∈ d → dict_get k d = Some v.
Proof.
  unfold dict_wf, keys. induction d as [|[k' v'] d IH]; intros Hnd Hin.
  - by apply elem_of_nil in Hin.
  - simpl in Hnd. apply NoDup_cons in Hnd as [Hni Hnd]. simpl.
    apply elem_of_cons in Hin as [[= <- <-]|Hin].
    + by rewrite String.eqb_refl.
    + destruct (String.eqb k' k) eqn:E.
      * apply String.eqb_eq in E. subst k'. exfalso. apply Hni.
        apply list_elem_of_fmap. by exists (k, v).
      * by apply IH.
Qed.

Lemma dict_get_Some_elem k v (d : pydict) :
  dict_get k d = Some v → (k, v) ∈ d.
Proof.
  induction d as [|[k' v'] d IH]; simpl; [done|].
  destruct (String.eqb k' k) eqn:E.
  - apply String.eqb_eq in E. intros [= ->]. subst. apply list_elem_of_here.
  - intros H. apply list_elem_of_further. by apply IH.
Qed.

Lemma dict_get_None_keys k (d : pydict) :
  dict_get k d = None ↔ k ∉ keys d.
Proof.
  induction d as [|[k' v'] d IH]; simpl.
  - split; [intros _; apply not_elem_of_nil | done].
  - rewrite not_elem_of_cons. destruct (String.eqb k' k) eqn:E.
    + apply String.eqb_eq in E. split; [done|]. intros [Hne _]. congruence.
    + rewrite IH. split; [|by intros [_ ?]]. intros Hni. split; [|done].
      intros ->. by rewrite String.eqb_refl in E.
Qed.

(** *** What the setters make of valid values *)

Lemma mapM_map {A B} (f : A → res B) (g : A → B) (l : list A) :
  (∀ x, x ∈ l → f x = ret (g x)) → mapM f l = ret (map g l).
Proof.
  induction l as [|x l IH]; intros Hall; simpl; [done|].
  rewrite (Hall x) by apply list_elem_of_here. simpl.
  rewrite IH; [done|]. intros y Hy. apply Hall. by apply list_elem_of_further.
Qed.

Lemma mapM_fmap {A B C} (f : B → res C) (h : A → B) (l : list A) :
  mapM f (map h l) = mapM (λ x, f (h x)) l.
Proof. induction l as [|x l IH]; simpl; [done|]. by rewrite IH. Qed.

Lemma wf_struct_found self s :
  wf_struct self s →
  find_struct (structname s) (__allstructs__ (content self)) = Some s.
Proof. destruct s; simpl; by intros [[? _] _]. Qed.

Lemma wf_struct_keyword self s :
  wf_struct self s → keyword_name (structname s) = true.
Proof. destruct s; simpl; by intros [[_ ?] _]. Qed.

(** No structure of a well-formed level is called [self]. *)
Lemma wf_level_not_self self (c : Content) :
  Forall (wf_struct self) c → "self" ∉ __snames__ c.
Proof.
  intros Hwf (s & Hname & Hs)%list_elem_of_fmap.
  rewrite Forall_forall in Hwf.
  pose proof (wf_struct_keyword self s (Hwf s Hs)) as Hkey.
  unfold keyword_name in Hkey. rewrite <- Hname in Hkey.
  by rewrite andb_false_r in Hkey.
Qed.

Lemma wf_struct_group self md r c :
  wf_struct self (SGroup md r c) →
  wf_level c ∧ Forall (wf_struct self) c.
Proof.
  simpl. intros (_ & Hlevel & Hall). split; [done|].
  induction c as [|s c IH]; constructor.
  - by destruct Hall.
  - apply IH; [|by destruct Hall]. clear -Hlevel. destruct Hlevel as [Hnd Hplain].
    split.
    + by apply NoDup_cons in Hnd as [_ ?].
    + apply Forall_cons in Hplain as [_ Hplain].
      eapply Forall_impl; [exact Hplain|]. intros n Hn Hin. apply Hn.
      by apply list_elem_of_further.
Qed.

Lemma normalized_accepts f x y :
  datatype_schema f x = ret y → normalized f x = y.
Proof. unfold LbbaseStruct.normalized. by intros ->. Qed.

Lemma setter_value_field self f v :
  wf_struct self (SField f) → conforms (SField f) v →
  setter_value self (SField f) v = ret (typed (SField f) v).
Proof.
  intros Hwf Hc. unfold LbbaseStruct.setter_value, LbbaseStruct.get_metaclass.
  rewrite (wf_struct_found self (SField f)) by done. simpl.
  unfold LbdocMetaclass.FieldMetaClass_init,
    LbdocMetaclass.FieldMetaClass_setattr, LbbaseStruct.normal_field.
  inversion Hc as [f' v0 v' Hm Hv|f' xs Hm Hxs| |]; subst; rewrite Hm.
  - rewrite Hv. simpl. by rewrite (normalized_accepts _ _ _ Hv).
  - simpl. rewrite (mapM_map _ (normalized f)); [done|].
    intros x Hx. rewrite Forall_forall in Hxs.
    destruct (Hxs x Hx) as [y Hy]. by rewrite (normalized_accepts _ _ _ Hy).
Qed.

Lemma setter_value_group self md r c tv :
  wf_struct self (SGroup md r c) → group_value (SGroup md r c) tv →
  setter_value self (SGroup md r c) tv = ret tv.
Proof.
  intros Hwf Hv. unfold LbbaseStruct.setter_value, LbbaseStruct.get_metaclass.
  rewrite (wf_struct_found self (SGroup md r c)) by done.
  cbn [bind ret structname]. unfold group_value in Hv.
  destruct (gmultivalued md).
  - destruct Hv as (ds & -> & Hds). cbn [as_list].
    assert (forallb (λ element,
      LbbaseStruct.isinstance element (StructMetaClass (SGroup md r c))) ds
      = true) as ->; [|done].
    induction Hds as [|d ds [a ->] _ IH]; simpl; [done|].
    by rewrite String.eqb_refl.
  - destruct Hv as [a ->]. simpl. by rewrite String.eqb_refl.
Qed.

Lemma typed_group_value md r c v :
  conforms (SGroup md r c) v → group_value (SGroup md r c) (typed (SGroup md r c) v).
Proof.
  intros Hc. inversion Hc as [| |md' r' c' kv Hm Hkv|md' r' c' ds Hm Hds]; subst;
    simpl; rewrite Hm.
  - by eexists.
  - eexists. split; [done|]. clear Hc.
    induction Hds as [|d ds (kv & -> & _) _ IH]; constructor; [by eexists | done].
Qed.

Lemma setter_value_kwarg self s v :
  wf_struct self s → conforms s v →
  setter_value self s (kwarg_of s v) = ret (typed s v).
Proof.
  intros Hwf Hc. destruct s as [f|md r c].
  - by apply setter_value_field.
  - apply setter_value_group; [done|]. by apply typed_group_value.
Qed.

(** *** The constructor on the keyword arguments of a valid mapping *)

Lemma conforms_dict_inv (c : Content) kv :
  conforms_dict c kv →
  dict_wf kv
  ∧ Forall (λ r, r ∈ keys kv) (__rnames__ c)
  ∧ Forall (λ p, ∃ s, s ∈ c ∧ structname s = p.1 ∧ conforms s p.2) kv.
Proof. by inversion 1. Qed.

Lemma init_loop_typed self (c : Content) basename (rest acc : pydict) :
  wf_level c → Forall (wf_struct self) c →
  Forall (λ p, ∃ s, s ∈ c ∧ structname s = p.1 ∧ conforms s p.2) rest →
  NoDup (keys acc ++ map (λ p, "_" +:+ p.1) rest) →
  LbbaseStruct.init_loop
    (setattr LbbaseStruct.recursion_limit self c) (__snames__ c) basename acc
    (map (λ p, (p.1, pick_struct (λ s, kwarg_of s p.2) p.2 p.1 c)) rest)
  = (acc ++ LbbaseStruct.typed_attrs typed c rest, ret tt).
Proof.
  intros Hlevel Hwf. revert acc.
  induction rest as [|[k x] rest IH]; intros acc Hrest Hnd.
  - simpl. by rewrite app_nil_r.
  - apply Forall_cons in Hrest as [(s & Hs & Hk & Hc) Hrest]. simpl in Hk, Hc.
    subst k. unfold LbbaseStruct.typed_attrs. rewrite !map_cons.
    cbn [LbbaseStruct.init_loop fst snd].
    rewrite !pick_struct_found by done.
    assert (existsb (String.eqb (structname s)) (__snames__ c) = true) as ->.
    { apply existsb_exists. exists (structname s).
      split; [|apply String.eqb_refl].
      apply list_elem_of_In. by apply list_elem_of_fmap_2. }
    rewrite recursion_limit_unfold, setattr_level by done.
    rewrite <- recursion_limit_unfold.
    rewrite Forall_forall in Hwf.
    rewrite setter_value_kwarg by auto. cbn [bind ret].
    simpl in Hnd.
    rewrite dict_set_fresh.
    + rewrite IH; [by rewrite <- app_assoc|done|].
      unfold keys. rewrite map_app. simpl. by rewrite <- app_assoc.
    + apply NoDup_app in Hnd as (_ & Hdisj & _).
      intros Hin. apply (Hdisj _ Hin). apply list_elem_of_here.
Qed.

Lemma private_names_nodup (kv : pydict) :
  dict_wf kv → NoDup (map (λ p : string * val, "_" +:+ p.1) kv).
Proof.
  unfold dict_wf, keys. induction kv as [|[k v] kv IH]; simpl; intros Hnd.
  - constructor.
  - apply NoDup_cons in Hnd as [Hni Hnd]. apply NoDup_cons.
    split; [|by apply IH]. intros Hin.
    apply list_elem_of_fmap in Hin as ([k' v'] & Heq & Hin).
    apply private_name_inj in Heq. simpl in Heq. subst k'.
    apply Hni. apply list_elem_of_fmap. by exists (k, v').
Qed.

Lemma metaclass_new_typed self m (c : Content) kv :
  match m with StructMetaClass (SField _) => False | _ => True end →
  LbbaseStruct.metaclass_content self m = c →
  wf_level c → Forall (wf_struct self) c →
  conforms_dict c kv →
  metaclass_new self m
    (map (λ p, (p.1, pick_struct (λ s, kwarg_of s p.2) p.2 p.1 c)) kv)
  = ret (VInst (LbbaseStruct.metaclass_id m)
           (LbbaseStruct.typed_attrs typed c kv)).
Proof.
  intros Hm Hc Hlevel Hwf (Hkv & Hreq & Hitems)%conforms_dict_inv.
  assert (LbbaseStruct.BaseMetaClass_init datatype_schema self c
            (match m with
             | BaseMetaClass => metadata_name self
             | StructMetaClass s => structname s
             end)
            (map (λ p, (p.1, pick_struct (λ s, kwarg_of s p.2) p.2 p.1 c)) kv)
          = (LbbaseStruct.typed_attrs typed c kv, ret tt)) as Hinit.
  { unfold LbbaseStruct.BaseMetaClass_init.
    assert (keys (map (λ p : string * val,
               (p.1, pick_struct (λ s, kwarg_of s p.2) p.2 p.1 c)) kv)
            = keys kv) as ->.
    { unfold keys. rewrite map_map. done. }
    assert ((list_to_set (__rnames__ c) : gset string) ∖ list_to_set (keys kv)
            = ∅) as ->.
    { apply set_eq. intros x. rewrite elem_of_difference, !elem_of_list_to_set.
      rewrite Forall_forall in Hreq. split; [|by intros ?%elem_of_empty].
      intros [Hx Hnx]. exfalso. by apply Hnx, Hreq. }
    rewrite size_empty.
    rewrite (init_loop_typed self c _ kv []); [done..|].
    simpl. by apply private_names_nodup. }
  assert (existsb (String.eqb "self")
            (keys (map (λ p : string * val,
               (p.1, pick_struct (λ s, kwarg_of s p.2) p.2 p.1 c)) kv))
          = false) as Hself.
  { apply keyword_not_self. intros Hin.
    apply (wf_level_not_self self c Hwf).
    unfold keys in Hin. rewrite map_map in Hin.
    apply list_elem_of_fmap in Hin as ([k x] & Hk & Hin). simpl in Hk.
    rewrite Forall_forall in Hitems.
    destruct (Hitems _ Hin) as (s & Hs & Hname & _). simpl in Hname.
    rewrite Hk, <- Hname. by apply list_elem_of_fmap_2. }
  unfold LbbaseStruct.metaclass_new. rewrite Hc.
  destruct m as [|[f|md r c']]; [|done|]; by rewrite Hself, Hinit.
Qed.

(** *** json2document on a valid raw document *)

Lemma json2document_dict self kv m :
  json2document self (VDict kv) m
  = (pairs <-
       mapM (LbbaseStruct.json2document_member datatype_schema
               (json2document self) self) kv ;;
     metaclass_new self m (LbbaseStruct.kwargs_of pairs)).
Proof. reflexivity. Qed.

Lemma json2document_conforms_dict self m (c : Content) kv :
  match m with StructMetaClass (SField _) => False | _ => True end →
  LbbaseStruct.metaclass_content self m = c →
  wf_level c → Forall (wf_struct self) c →
  Forall (member_converts self) c →
  conforms_dict c kv →
  json2document self (VDict kv) m
  = ret (VInst (LbbaseStruct.metaclass_id m)
           (LbbaseStruct.typed_attrs typed c kv)).
Proof.
  intros Hm Hc Hlevel Hwf IH Hkv. rewrite json2document_dict.
  pose proof (conforms_dict_inv c kv Hkv) as (Hnd & _ & Hitems).
  rewrite (mapM_map _
    (λ p, (p.1, pick_struct (λ s, kwarg_of s p.2) p.2 p.1 c))).
  - cbn [bind ret]. rewrite kwargs_of_nodup.
    + by apply metaclass_new_typed.
    + unfold keys. rewrite map_map. exact Hnd.
  - intros [k x] Hin. rewrite Forall_forall in Hitems.
    rewrite Forall_forall in IH. rewrite Forall_forall in Hwf.
    destruct (Hitems _ Hin) as (s & Hs & Hk & Hx). simpl in *. subst k.
    rewrite pick_struct_found by done. apply IH; auto.
Qed.

Lemma json2document_member_converts self s : member_converts self s.
Proof.
  induction s as [f|md r c IH] using Struct_ind'; intros Hwf v Hv.
  - unfold LbbaseStruct.json2document_member, LbbaseStruct.get_struct.
    by rewrite (wf_struct_found self (SField f)).
  - pose proof (wf_struct_group self md r c Hwf) as [Hlevel Hwfc].
    pose proof (wf_struct_found self _ Hwf) as Hfind. simpl structname in Hfind.
    unfold LbbaseStruct.json2document_member, LbbaseStruct.get_struct,
      LbbaseStruct.get_metaclass.
    simpl structname. rewrite Hfind. cbn [bind ret].
    inversion Hv as [| |md' r' c' kv Hm Hkv|md' r' c' ds Hm Hds]; subst;
      rewrite Hm.
    + rewrite Hfind. cbn [bind ret].
      rewrite (json2document_conforms_dict self
                 (StructMetaClass (SGroup md r c)) c kv) by done.
      simpl. by rewrite Hm.
    + rewrite (mapM_map _
        (λ d, match d with
              | VDict kv =>
                  VInst (DocClass (Some (gname md)))
                    (LbbaseStruct.typed_attrs typed c kv)
              | _ => d
              end)).
      * simpl. by rewrite Hm.
      * intros d Hd. rewrite Forall_forall in Hds.
        destruct (Hds d Hd) as (kv & -> & Hkv). rewrite Hfind. cbn [bind ret].
        by rewrite (json2document_conforms_dict self
                      (StructMetaClass (SGroup md r c)) c kv).
Qed.

(** A valid raw document converts to its typed document. *)
Lemma json2document_valid self d :
  wf_base self → conforms_dict (content self) d →
  json2document self (VDict d) BaseMetaClass
  = ret (LbbaseStruct.typed_document datatype_schema self d).
Proof.
  intros [Hlevel Hwf] Hd.
  apply (json2document_conforms_dict self BaseMetaClass (content self) d);
    try done.
  apply Forall_forall. intros s _. apply json2document_member_converts.
Qed.

(** *** document2dict on the typed document *)

Lemma dict_get_typed_attrs (c : Content) (kv : pydict) s :
  wf_level c → s ∈ c →
  dict_get ("_" +:+ structname s) (LbbaseStruct.typed_attrs typed c kv)
  = typed s <$> dict_get (structname s) kv.
Proof.
  intros Hlevel Hs. unfold LbbaseStruct.typed_attrs.
  induction kv as [|[k x] kv IH]; [done|].
  rewrite map_cons. cbn [dict_get fst snd].
  assert (String.eqb ("_" +:+ k) ("_" +:+ structname s)
          = String.eqb k (structname s)) as -> by done.
  destruct (String.eqb k (structname s)) eqn:E; [|done].
  apply String.eqb_eq in E. subst k. simpl.
  by rewrite pick_struct_found.
Qed.

Lemma conforms_dict_lookup (c : Content) kv s x :
  wf_level c → conforms_dict c kv → s ∈ c →
  dict_get (structname s) kv = Some x → conforms s x.
Proof.
  intros Hlevel (_ & _ & Hitems)%conforms_dict_inv Hs Hget.
  apply dict_get_Some_elem in Hget. rewrite Forall_forall in Hitems.
  destruct (Hitems _ Hget) as (s' & Hs' & Hn & Hx). simpl in *.
  by rewrite <- (structname_unique c s s').
Qed.

Lemma height_group md r c :
  LbbaseStruct.height (SGroup md r c) = S (LbbaseStruct.content_height c).
Proof.
  simpl. f_equal; induction c as [|s c IH]; simpl; try done; by rewrite IH.
Qed.

Lemma height_le_content (c : Content) s :
  s ∈ c → (LbbaseStruct.height s ≤ LbbaseStruct.content_height c)%nat.
Proof.
  induction c as [|s' c IH]; intros Hin; [by apply elem_of_nil in Hin|].
  simpl. apply elem_of_cons in Hin as [->|Hin]; [lia|].
  specialize (IH Hin). lia.
Qed.

Lemma document2dict_loop_typed self n cls (c c2 : Content) kv acc :
  LbbaseStruct.class_content self cls = c →
  wf_level c → Forall (wf_struct self) c → Forall (raw_converts self) c →
  conforms_dict c kv → (LbbaseStruct.content_height c ≤ n)%nat →
  (∀ s, s ∈ c2 → s ∈ c) →
  NoDup (keys acc ++ __snames__ c2) →
  LbbaseStruct.document2dict_loop (LbbaseStruct.document2dict n self) self
    (VInst cls (LbbaseStruct.typed_attrs typed c kv)) (__snames__ c2) acc
  = ret (acc ++ LbbaseStruct.normal_dict normal c2 kv).
Proof.
  intros Hcls Hlevel Hwf IH Hkv Hn. revert acc.
  induction c2 as [|s c2 IHc2]; intros acc Hsub Hnd.
  - simpl. by rewrite app_nil_r.
  - assert (s ∈ c) as Hs by (apply Hsub, list_elem_of_here).
    assert (∀ s', s' ∈ c2 → s' ∈ c) as Hsub'
      by (intros s' Hs'; by apply Hsub, list_elem_of_further).
    rewrite Forall_forall in Hwf. rewrite Forall_forall in IH.
    pose proof (Hwf s Hs) as Hwfs.
    assert (structname s ∉ keys acc) as Hfresh.
    { apply NoDup_app in Hnd as (_ & Hdisj & _). intros Hin.
      apply (Hdisj _ Hin). apply list_elem_of_here. }
    assert (∀ v, NoDup (keys (acc ++ [(structname s, v)]) ++ __snames__ c2))
      as Hnd'.
    { intros v. unfold keys. rewrite map_app. simpl.
      rewrite <- app_assoc. exact Hnd. }
    cbn [__snames__ map LbbaseStruct.document2dict_loop].
    fold (__snames__ c2).
    unfold LbbaseStruct.getattr_document. rewrite Hcls.
    rewrite recursion_limit_unfold, getattr_level by done.
    rewrite dict_get_typed_attrs by done.
    cbn [LbbaseStruct.normal_dict].
    fold (LbbaseStruct.normal_dict normal).
    destruct (dict_get (structname s) kv) as [x|] eqn:Hget.
    + pose proof (conforms_dict_lookup c kv s x Hlevel Hkv Hs Hget) as Hx.
      cbn [fmap option_fmap option_map].
      unfold LbbaseStruct.get_struct.
      destruct s as [f|md r c'].
      * cbn [is_field typed LbbaseStruct.typed LbdocMetaclass.getattr_value
             LbdocMetaclass.FieldMetaClass_getattr].
        rewrite (wf_struct_found self (SField f)) by done.
        cbn [bind ret normal LbbaseStruct.normal].
        rewrite dict_set_fresh by done.
        rewrite IHc2 by done. by rewrite <- app_assoc.
      * cbn [is_field].
        rewrite (wf_struct_found self (SGroup md r c')) by done.
        cbn [bind ret].
        pose proof (IH _ Hs Hwfs x n Hx) as Hconv.
        unfold group_to_raw in Hconv.
        rewrite Hconv by (pose proof (height_le_content c _ Hs); lia).
        cbn [bind ret].
        rewrite dict_set_fresh by done.
        rewrite IHc2 by done. by rewrite <- app_assoc.
    + cbn [fmap option_fmap option_map is_AttributeError].
      by apply IHc2; [|apply NoDup_app in Hnd as (Hacc & Hdisj & Hc2);
        apply NoDup_app; split; [done|]; split;
        [intros y Hy Hy2; by apply (Hdisj y Hy), list_elem_of_further
        |by apply NoDup_cons in Hc2 as [_ ?]]].
Qed.

Lemma document2dict_typed_attrs self n m (c : Content) kv :
  match m with StructMetaClass (SField _) => False | _ => True end →
  LbbaseStruct.metaclass_content self m = c →
  LbbaseStruct.class_content self (LbbaseStruct.metaclass_id m) = c →
  wf_level c → Forall (wf_struct self) c → Forall (raw_converts self) c →
  conforms_dict c kv → (LbbaseStruct.content_height c ≤ n)%nat →
  LbbaseStruct.document2dict (S n) self
    (VInst (LbbaseStruct.metaclass_id m) (LbbaseStruct.typed_attrs typed c kv))
    (match m with BaseMetaClass => None | StructMetaClass s => Some s end)
  = ret (LbbaseStruct.normal_dict normal c kv).
Proof.
  intros Hm Hc Hcls Hlevel Hwf IH Hkv Hn.
  cbn [LbbaseStruct.document2dict].
  assert (match
            match m with BaseMetaClass => None | StructMetaClass s => Some s end
          with
          | None => ret (__snames__ (content self))
          | Some (SGroup _ _ c0) => ret (__snames__ c0)
          | Some (SField _) => raise (AttributeError "content")
          end = ret (__snames__ c)) as ->.
  { destruct m as [|[f|md r c']]; simpl in *; by subst. }
  cbn [bind ret].
  rewrite (document2dict_loop_typed self n _ c c kv []); try done.
  simpl. apply Hlevel.
Qed.

Lemma document2dict_raw_converts self s : raw_converts self s.
Proof.
  induction s as [f|md r c IH] using Struct_ind'; intros Hwf v n Hv Hh; [done|].
  pose proof (wf_struct_group self md r c Hwf) as [Hlevel Hwfc].
  pose proof (wf_struct_found self _ Hwf) as Hfind. simpl structname in Hfind.
  rewrite height_group in Hh. destruct n as [|n]; [lia|].
  assert (LbbaseStruct.content_height c ≤ n)%nat as Hn by lia.
  assert (∀ kv, conforms_dict c kv →
    LbbaseStruct.document2dict (S n) self
      (VInst (DocClass (Some (gname md)))
         (LbbaseStruct.typed_attrs typed c kv)) (Some (SGroup md r c))
    = ret (LbbaseStruct.normal_dict normal c kv)) as Hdict.
  { intros kv Hkv.
    apply (document2dict_typed_attrs self n (StructMetaClass (SGroup md r c)));
      try done.
    simpl. by rewrite Hfind. }
  unfold group_to_raw.
  inversion Hv as [| |md' r' c' kv Hm Hkv|md' r' c' ds Hm Hds]; subst;
    rewrite Hm.
  - cbn [typed LbbaseStruct.typed normal LbbaseStruct.normal]. rewrite Hm.
    by rewrite Hdict.
  - cbn [typed LbbaseStruct.typed normal LbbaseStruct.normal]. rewrite Hm.
    cbn [py_iter bind ret].
    rewrite mapM_fmap.
    rewrite (mapM_map _
      (λ d, match d with
            | VDict kv => VDict (LbbaseStruct.normal_dict normal c kv)
            | _ => d
            end)); [done|].
    intros d Hd. rewrite Forall_forall in Hds.
    destruct (Hds d Hd) as (kv & -> & Hkv). by rewrite Hdict.
Qed.

(** The typed document of a valid raw document converts to the normal form
    of the raw document, whatever depth above the nesting of the schema the
    recursion is given. *)
Lemma document2dict_valid self d depth :
  wf_base self → conforms_dict (content self) d →
  (LbbaseStruct.content_height (content self) < depth)%nat →
  LbbaseStruct.document2dict depth self
    (LbbaseStruct.typed_document datatype_schema self d) None
  = ret (LbbaseStruct.normal_document datatype_schema self d).
Proof.
  intros [Hlevel Hwf] Hd Hdepth. destruct depth as [|n]; [lia|].
  apply (document2dict_typed_attrs self n BaseMetaClass (content self) d);
    try done; [|lia].
  apply Forall_forall. intros s _. apply document2dict_raw_converts.
Qed.

(** *** Equality of raw documents *)

Lemma val_ind' (P : val → Prop) :
  P VNone → (∀ b, P (VBool b)) → (∀ z, P (VInt z)) → (∀ s, P (VStr s)) →
  (∀ xs, Forall P xs → P (VList xs)) →
  (∀ kv, Forall (λ p, P p.2) kv → P (VDict kv)) →
  (∀ cls attrs, P (VInst cls attrs)) →
  (∀ n o, P (VField n o)) →
  (∀ g xs, P (VMulti g xs)) →
  ∀ v, P v.
Proof.
  intros HN HB HI HS HL HD HInst HF HM. fix IH 1. intros [].
  - exact HN.
  - apply HB.
  - apply HI.
  - apply HS.
  - apply HL. induction xs as [|x xs IHxs]; constructor; [apply IH | apply IHxs].
  - apply HD. induction kv as [|[k x] kv IHkv]; constructor;
      [apply IH | apply IHkv].
  - apply HInst.
  - apply HF.
  - apply HM.
Qed.

Lemma py_eqb_list xs ys :
  py_eqb (VList xs) (VList ys)
  = bool_decide (length xs = length ys)
    && forallb (λ p, py_eqb p.1 p.2) (zip xs ys).
Proof.
  cbn [py_eqb]. revert ys. induction xs as [|x xs IH]; intros [|y ys]; try done.
  - simpl. rewrite IH.
    destruct (py_eqb x y); simpl; [|by rewrite andb_false_r].
    f_equal. apply bool_decide_ext. lia.
Qed.

Lemma py_eqb_dict kv kv' :
  py_eqb (VDict kv) (VDict kv')
  = Nat.eqb (length kv) (length kv')
    && forallb (λ p, match dict_get p.1 kv' with
                     | Some v' => py_eqb p.2 v'
                     | None => false
                     end) kv.
Proof.
  cbn [py_eqb]. f_equal. induction kv as [|[k v] kv IH]; [done|].
  simpl. by rewrite IH.
Qed.

Lemma py_eqb_refl v : is_json v = true → py_eqb v v = true.
Proof.
  induction v as [|b|z|s|xs IH|kv IH| | |] using val_ind'; try done.
  - intros _. by destruct b.
  - intros _. apply Z.eqb_refl.
  - intros _. apply String.eqb_refl.
  - intros Hj. rewrite py_eqb_list. rewrite bool_decide_eq_true_2 by done.
    simpl in Hj. simpl. induction IH as [|x xs Hx _ IHxs]; [done|].
    simpl in *. apply andb_true_iff in Hj as [Hjx Hjxs].
    rewrite Hx by done. by apply IHxs.
  - intros Hj. rewrite py_eqb_dict. rewrite Nat.eqb_refl. simpl.
    simpl in Hj. apply andb_true_iff in Hj as [Hnd Hj].
    apply bool_decide_eq_true_1 in Hnd.
    apply forallb_forall. intros [k x] Hin%list_elem_of_In. simpl.
    rewrite (dict_get_elem k x kv) by done.
    rewrite Forall_forall in IH. apply (IH (k, x) Hin).
    rewrite forallb_forall in Hj. apply (Hj (k, x)). by apply list_elem_of_In.
Qed.

Lemma normal_field_unchanging f v :
  LbbaseStruct.validators_unchanging datatype_schema →
  conforms (SField f) v → normal_field f v = v.
Proof.
  intros Hun Hc. unfold LbbaseStruct.normal_field.
  inversion Hc as [f' v0 v' Hm Hv|f' xs Hm Hxs| |]; subst; rewrite Hm.
  - rewrite (normalized_accepts _ _ _ Hv). by apply (Hun f).
  - f_equal. clear Hc. induction Hxs as [|x xs [y Hy] _ IH]; [done|]. simpl.
    rewrite IH. rewrite (normalized_accepts _ _ _ Hy). f_equal.
    by apply (Hun f).
Qed.

Lemma normal_dict_keys (c : Content) kv :
  keys (LbbaseStruct.normal_dict normal c kv)
  = filter (λ n, dict_get n kv ≠ None) (__snames__ c).
Proof.
  induction c as [|s c IH]; [done|]. simpl.
  destruct (dict_get (structname s) kv) eqn:E.
  - rewrite filter_cons_True by (rewrite E; done). simpl. f_equal. apply IH.
  - rewrite filter_cons_False by (rewrite E; tauto). apply IH.
Qed.

Lemma normal_dict_length (c : Content) kv :
  wf_level c → conforms_dict c kv →
  length (LbbaseStruct.normal_dict normal c kv) = length kv.
Proof.
  intros [Hnd _] (Hkv & _ & Hitems)%conforms_dict_inv.
  transitivity (length (keys (LbbaseStruct.normal_dict normal c kv)));
    [unfold keys; by rewrite length_map|].
  transitivity (length (keys kv)); [|unfold keys; by rewrite length_map].
  apply Permutation_length. rewrite normal_dict_keys.
  apply NoDup_Permutation; [by apply NoDup_filter | done |].
  intros n. rewrite list_elem_of_filter. rewrite dict_get_None_keys.
  split.
  - intros [Hin _]. destruct (decide (n ∈ keys kv)); [done|tauto].
  - intros Hin. split; [tauto|].
    unfold keys in Hin. apply list_elem_of_fmap in Hin as ([k x] & -> & Hin).
    rewrite Forall_forall in Hitems.
    destruct (Hitems _ Hin) as (s & Hs & <- & _). simpl.
    by apply list_elem_of_fmap_2.
Qed.

Lemma normal_dict_equal self (c : Content) kv :
  wf_level c → Forall (wf_struct self) c → Forall (normal_equal self) c →
  conforms_dict c kv → is_json (VDict kv) = true →
  py_eqb (VDict (LbbaseStruct.normal_dict normal c kv)) (VDict kv) = true.
Proof.
  intros Hlevel Hwf IH Hkv Hj. rewrite py_eqb_dict.
  rewrite normal_dict_length by done. rewrite Nat.eqb_refl. simpl.
  simpl in Hj. apply andb_true_iff in Hj as [_ Hj].
  rewrite forallb_forall in Hj.
  assert (∀ c2 : Content, (∀ s, s ∈ c2 → s ∈ c) →
    forallb (λ p, match dict_get p.1 kv with
                  | Some v' => py_eqb p.2 v'
                  | None => false
                  end) (LbbaseStruct.normal_dict normal c2 kv) = true) as Hgen.
  { induction c2 as [|s c2 IHc2]; intros Hsub; [done|].
    assert (s ∈ c) as Hs by (apply Hsub, list_elem_of_here).
    assert (∀ s', s' ∈ c2 → s' ∈ c) as Hsub'
      by (intros s' Hs'; by apply Hsub, list_elem_of_further).
    cbn [LbbaseStruct.normal_dict]. fold (LbbaseStruct.normal_dict normal).
    destruct (dict_get (structname s) kv) as [x|] eqn:Hget; [|by apply IHc2].
    cbn [forallb fst snd]. rewrite Hget. rewrite IHc2 by done.
    rewrite Forall_forall in IH. rewrite Forall_forall in Hwf.
    rewrite (IH s Hs); [done|by apply Hwf| |].
    - by apply (conforms_dict_lookup c kv).
    - apply (Hj (structname s, x)). apply list_elem_of_In.
      by apply dict_get_Some_elem. }
  by apply Hgen.
Qed.

Lemma normal_equal_all self s :
  LbbaseStruct.validators_unchanging datatype_schema → normal_equal self s.
Proof.
  intros Hun.
  induction s as [f|md r c IH] using Struct_ind'; intros Hwf v Hv Hj.
  - cbn [normal LbbaseStruct.normal]. rewrite normal_field_unchanging by done.
    by apply py_eqb_refl.
  - pose proof (wf_struct_group self md r c Hwf) as [Hlevel Hwfc].
    inversion Hv as [| |md' r' c' kv Hm Hkv|md' r' c' ds Hm Hds]; subst;
      cbn [normal LbbaseStruct.normal]; rewrite Hm.
    + by apply (normal_dict_equal self).
    + rewrite py_eqb_list. rewrite length_map.
      rewrite bool_decide_eq_true_2 by done. simpl.
      simpl in Hj. clear Hv.
      induction Hds as [|d ds (kv & -> & Hkv) _ IHds]; [done|].
      simpl in Hj. apply andb_true_iff in Hj as [Hjd Hjds].
      cbn [map zip zip_with forallb fst snd].
      rewrite (normal_dict_equal self c kv) by done. by apply IHds.
Qed.

(** *** The compiled schema accepts a valid raw document *)

Lemma content_schema_nodup (V : Struct → validator Base) (c : Content)
    (acc : schema_dict Base) :
  NoDup (map (λ e, marker_schema e.1) acc ++ __snames__ c) →
  LbbaseStruct.content_schema V c acc
  = acc ++ map (λ s, (LbbaseStruct.schema_key s, V s)) c.
Proof.
  revert acc. induction c as [|s c IH]; intros acc Hnd; simpl.
  - by rewrite app_nil_r.
  - assert (marker_schema (LbbaseStruct.schema_key s) = structname s) as Hk.
    { unfold LbbaseStruct.schema_key. by destruct (getattr_required s). }
    simpl in Hnd. rewrite schema_update_fresh.
    + rewrite IH; [by rewrite <- app_assoc|].
      rewrite map_app. simpl. rewrite Hk. by rewrite <- app_assoc.
    + rewrite Hk. apply NoDup_app in Hnd as (_ & Hdisj & _).
      intros Hin. apply (Hdisj _ Hin). apply list_elem_of_here.
Qed.

Lemma validate_sequence_accepts id (V : validator Base) elements out st :
  Forall (accepts id V) elements →
  ∃ st' out',
    validate_sequence V elements out [] st = (st', inr out')
    ∧ (has_memory_area id st → has_memory_area id st').
Proof.
  intros Hall. revert out st.
  induction Hall as [|x xs Hx _ IH]; intros out st; simpl; [by eexists _, _|].
  destruct (Hx st) as (st1 & cval & -> & Hkeep).
  destruct (IH (out ++ [cval]) st1) as (st' & out' & -> & Hkeep').
  eexists _, _. split; [done|]. auto.
Qed.

Lemma Sequence_accepts id (V : validator Base) elements :
  Forall (accepts id V) elements → accepts id (Sequence V) (VList elements).
Proof.
  intros Hall st. unfold Sequence.
  destruct (validate_sequence_accepts id V elements [] st Hall)
    as (st' & out & -> & Hkeep).
  by eexists _, _.
Qed.

Lemma validate_mapping_accepts id (V : Struct → validator Base) (c : Content)
    items required_keys out st :
  wf_level c →
  NoDup (keys items) →
  Forall (λ p, ∃ s, s ∈ c ∧ structname s = p.1 ∧ accepts id (V s) p.2) items →
  Forall (λ r, r ∈ keys items) required_keys →
  ∃ st' out',
    validate_mapping (map (λ s, (LbbaseStruct.schema_key s, V s)) c) items
      required_keys out [] st = (st', inr out')
    ∧ (has_memory_area id st → has_memory_area id st').
Proof.
  intros Hlevel. revert required_keys out st.
  induction items as [|[k x] items IH]; intros required_keys out st Hnd Hitems Hreq.
  - simpl. destruct required_keys as [|r ?].
    + by eexists _, _.
    + apply Forall_cons in Hreq as [Hr _]. by apply elem_of_nil in Hr.
  - apply Forall_cons in Hitems as [(s & Hs & Hk & Hacc) Hitems].
    simpl in Hk, Hacc. subst k. simpl in Hnd.
    apply NoDup_cons in Hnd as [Hni Hnd].
    cbn [validate_mapping].
    assert (schema_find (structname s)
              (map (λ s, (LbbaseStruct.schema_key s, V s)) c)
            = Some (LbbaseStruct.schema_key s, V s)) as ->.
    { destruct Hlevel as [Hndc _]. clear -Hs Hndc.
      induction c as [|s' c IHc]; [by apply elem_of_nil in Hs|].
      simpl in Hndc. apply NoDup_cons in Hndc as [Hni Hndc]. simpl.
      assert (marker_schema (LbbaseStruct.schema_key s') = structname s') as ->.
      { unfold LbbaseStruct.schema_key. by destruct (getattr_required s'). }
      apply elem_of_cons in Hs as [->|Hs]; [by rewrite String.eqb_refl|].
      destruct (String.eqb (structname s') (structname s)) eqn:E.
      - apply String.eqb_eq in E. exfalso. apply Hni. rewrite E.
        by apply list_elem_of_fmap_2.
      - by apply IHc. }
    destruct (Hacc st) as (st1 & cval & -> & Hkeep).
    destruct (IH (discard (LbbaseStruct.schema_key s) required_keys)
                (dict_set (structname s) cval out) st1)
      as (st' & out' & -> & Hkeep'); [done..| |].
    + apply Forall_forall. intros r Hr. unfold discard in Hr.
      apply list_elem_of_filter in Hr as [Hne Hr].
      rewrite Forall_forall in Hreq. specialize (Hreq r Hr). simpl in Hreq.
      apply elem_of_cons in Hreq as [->|Hreq]; [|done].
      exfalso. apply Is_true_true in Hne. apply negb_true_iff in Hne.
      assert (marker_schema (LbbaseStruct.schema_key s) = structname s) as Hms.
      { unfold LbbaseStruct.schema_key. by destruct (getattr_required s). }
      rewrite Hms, String.eqb_refl in Hne. done.
    + eexists _, _. split; [done|]. auto.
Qed.

Lemma all_required_keys_rnames (V : Struct → validator Base) (c : Content) r :
  r ∈ all_required_keys (map (λ s, (LbbaseStruct.schema_key s, V s)) c) →
  r ∈ __rnames__ c.
Proof.
  unfold all_required_keys, __rnames__. rewrite map_map. simpl.
  intros Hin. apply list_elem_of_fmap in Hin as (key & -> & Hkey).
  apply list_elem_of_filter in Hkey as [Hreq Hkey].
  apply list_elem_of_fmap in Hkey as (s & -> & Hs).
  unfold LbbaseStruct.schema_key in *.
  destruct (getattr_required s) eqn:E; [|done]. simpl.
  apply list_elem_of_fmap. exists s. split; [done|].
  apply list_elem_of_filter. split; [by rewrite E|done].
Qed.

Lemma Schema_accepts id (V : Struct → validator Base) (c : Content) kv :
  wf_level c → dict_wf kv →
  Forall (λ r, r ∈ keys kv) (__rnames__ c) →
  Forall (λ p, ∃ s, s ∈ c ∧ structname s = p.1 ∧ accepts id (V s) p.2) kv →
  accepts id (Schema (map (λ s, (LbbaseStruct.schema_key s, V s)) c)) (VDict kv).
Proof.
  intros Hlevel Hkv Hreq Hitems st. unfold Schema.
  destruct (validate_mapping_accepts id V c kv
              (all_required_keys (map (λ s, (LbbaseStruct.schema_key s, V s)) c))
              [] st Hlevel Hkv Hitems) as (st' & out & -> & Hkeep).
  - apply Forall_forall. intros r Hr%all_required_keys_rnames.
    rewrite Forall_forall in Hreq. by apply Hreq.
  - by eexists _, _.
Qed.

Lemma struct_schema_accepts self id s :
  LbbaseStruct.bookkeeping_keeps bookkeeping id →
  wf_struct self s → ∀ v, conforms s v → accepts id (struct_schema s id) v.
Proof.
  intros Hkeep.
  induction s as [f|md r c IH] using Struct_ind'; intros Hwf v Hv.
  - assert (∀ x y, datatype_schema f x = ret y →
      accepts id (λ value st,
        (bookkeeping f id value st, datatype_schema f value)) x) as Hone.
    { intros x y Hx st. eexists _, _. rewrite Hx. split; [done|]. apply Hkeep. }
    cbn [LbbaseStruct.struct_schema].
    inversion Hv as [f' v0 v' Hm Hv'|f' xs Hm Hxs| |]; subst; rewrite Hm.
    + by apply (Hone v v').
    + apply Sequence_accepts. eapply Forall_impl; [exact Hxs|].
      intros x [y Hy]. by apply (Hone x y).
  - pose proof (wf_struct_group self md r c Hwf) as [Hlevel Hwfc].
    assert (∀ kv, conforms_dict c kv →
      accepts id
        (Schema (LbbaseStruct.content_schema (λ s', struct_schema s' id) c []))
        (VDict kv)) as Hdict.
    { intros kv (Hkv & Hreq & Hitems)%conforms_dict_inv.
      rewrite content_schema_nodup by (simpl; apply Hlevel). simpl.
      apply Schema_accepts; try done.
      eapply Forall_impl; [exact Hitems|].
      intros p (s & Hs & Hn & Hp). exists s. split; [done|]. split; [done|].
      rewrite Forall_forall in IH. rewrite Forall_forall in Hwfc.
      by apply IH; [|apply Hwfc|]. }
    change (struct_schema (SGroup md r c) id) with
      (if gmultivalued md
       then Sequence (Schema (LbbaseStruct.content_schema
                                (λ s', struct_schema s' id) c []))
       else Schema (LbbaseStruct.content_schema
                      (λ s', struct_schema s' id) c [])).
    inversion Hv as [| |md' r' c' kv Hm Hkv|md' r' c' ds Hm Hds]; subst;
      rewrite Hm.
    + by apply Hdict.
    + apply Sequence_accepts. eapply Forall_impl; [exact Hds|].
      intros d (kv & -> & Hkv). by apply Hdict.
Qed.

Lemma wf_struct_content self self' s :
  content self' = content self → wf_struct self s → wf_struct self' s.
Proof.
  intros Hc. induction s as [f|md r c IH] using Struct_ind'; simpl.
  - rewrite Hc. done.
  - rewrite Hc. intros (Hfind & Hlevel & Hall). split; [done|]. split; [done|].
    clear Hfind Hlevel. induction IH as [|s c Hs _ IHc]; [done|].
    destruct Hall as [Hs' Hall]. split; [by apply Hs | by apply IHc].
Qed.

Lemma wf_base_content self self' :
  content self' = content self → wf_base self → wf_base self'.
Proof.
  intros Hc [Hlevel Hwf]. split; [by rewrite Hc|]. rewrite Hc.
  eapply Forall_impl; [exact Hwf|]. intros s. by apply wf_struct_content.
Qed.

(** The schema of the base accepts a valid raw document. *)
Lemma schema_accepts_valid self id d :
  LbbaseStruct.bookkeeping_keeps bookkeeping id →
  wf_base self → conforms_dict (content self) d →
  accepts id (Schema (LbbaseStruct.schema struct_schema self id)) (VDict d).
Proof.
  intros Hkeep [Hlevel Hwf] (Hkv & Hreq & Hitems)%conforms_dict_inv.
  rewrite schema_nodup by apply Hlevel.
  apply (Schema_accepts id (λ s, struct_schema s id)); try done.
  eapply Forall_impl; [exact Hitems|].
  intros p (s & Hs & Hn & Hp). exists s. split; [done|]. split; [done|].
  rewrite Forall_forall in Hwf.
  exact (struct_schema_accepts self id s Hkeep (Hwf s Hs) p.2 Hp).
Qed.

(** C2, as the code has it.  For a base whose structures are found under
    their names, none of which begins with an underscore or is [self] (the
    constructor of a generated type refuses a keyword of that name), and
    a raw document [d] valid for its schema:
    [json2document] succeeds; [document2dict] of the result is the normal
    form of [d], in which every Field value is what the datatype returned
    for it and the keys follow the schema; when the datatypes return the
    values they accept unchanged this equals [d] as Python compares dicts;
    and [validate] succeeds on [d], with or without a '_metadata' key
    attached to it. *)
Theorem roundtrip_of_valid_document self d :
  wf_base self → conforms_dict (content self) d →
  json2document self (VDict d) BaseMetaClass
    = ret (LbbaseStruct.typed_document datatype_schema self d)
  ∧ (∀ depth, (LbbaseStruct.content_height (content self) < depth)%nat →
       LbbaseStruct.document2dict depth self
         (LbbaseStruct.typed_document datatype_schema self d) None
       = ret (LbbaseStruct.normal_document datatype_schema self d))
  ∧ (LbbaseStruct.validators_unchanging datatype_schema →
     is_json (VDict d) = true →
     py_eqb (VDict (LbbaseStruct.normal_document datatype_schema self d))
       (VDict d) = true)
  ∧ (∀ h document _meta d0,
       LbbaseStruct.bookkeeping_keeps bookkeeping (id_doc _meta) →
       h !! document = Some d0 → delete_metadata d0 = d →
       ∃ st h' validated validated_doc reldata files,
         LbbaseStruct.validate struct_schema self h document _meta
           = Some (st, h', ret (validated, reldata, files, []))
         ∧ h' !! validated = Some
             (dict_set "_metadata" (VDict (__dict__ _meta)) validated_doc)).
Proof.
  intros Hwf Hd. split; [by apply json2document_valid|].
  split; [intros depth Hdepth; by apply document2dict_valid|]. split.
  - intros Hun Hj. destruct Hwf as [Hlevel Hwf].
    apply (normal_dict_equal self); try done.
    apply Forall_forall. intros s _. by apply normal_equal_all.
  - intros h document _meta d0 Hkeep Hh Hd0.
    assert (LbbaseStruct.keeps_memory_area struct_schema (id_doc _meta))
      as Hkeeps.
    { intros s v st Hst. clear -Hkeep Hst. revert v st Hst.
      induction s as [f|md r c IH] using Struct_ind'; intros v st Hst.
      - cbn [LbbaseStruct.struct_schema]. destruct (multivalued f).
        + unfold Sequence. destruct v; try done.
          assert (∀ xs out errors st,
            has_memory_area (id_doc _meta) st →
            has_memory_area (id_doc _meta)
              (validate_sequence
                 (λ value st,
                    (bookkeeping f (id_doc _meta) value st,
                     datatype_schema f value)) xs out errors st).1) as Hseq.
          { induction xs0 as [|x xs0 IHxs]; intros out errors st0 Hst0; simpl.
            - by destruct errors.
            - destruct (datatype_schema f x) as [e|y].
              + destruct (is_collected e); [|by apply Hkeep].
                apply IHxs. by apply Hkeep.
              + apply IHxs. by apply Hkeep. }
          specialize (Hseq xs [] [] st Hst).
          by destruct (validate_sequence _ _ _ _ _) as [st' [e|out]].
        + by apply Hkeep.
      - assert (∀ v st, has_memory_area (id_doc _meta) st →
          has_memory_area (id_doc _meta)
            (Schema (LbbaseStruct.content_schema
                       (λ s', struct_schema s' (id_doc _meta)) c []) v st).1)
          as Hdict.
        { intros v0 st0 Hst0. apply Schema_preserves; [|done].
          assert (∀ acc,
            validators_preserve (has_memory_area (id_doc _meta)) acc →
            validators_preserve (has_memory_area (id_doc _meta))
              (LbbaseStruct.content_schema
                 (λ s', struct_schema s' (id_doc _meta)) c acc)) as Hgen.
          { clear -IH. induction IH as [|s c Hs _ IHc]; intros acc Hacc; [done|].
            simpl. apply IHc. clear IHc.
            generalize (LbbaseStruct.schema_key s) as key. intros key.
            induction acc as [|[k V] acc IHacc]; simpl.
            - constructor; [|constructor]. simpl. intros; by apply Hs.
            - apply Forall_cons in Hacc as [HV Hacc].
              destruct (String.eqb (marker_schema k) (marker_schema key)).
              + constructor; [|done]. simpl. intros; by apply Hs.
              + constructor; [done|]. by apply IHacc. }
          apply Hgen. constructor. }
        change (struct_schema (SGroup md r c) (id_doc _meta)) with
          (if gmultivalued md
           then Sequence (Schema (LbbaseStruct.content_schema
                   (λ s', struct_schema s' (id_doc _meta)) c []))
           else Schema (LbbaseStruct.content_schema
                   (λ s', struct_schema s' (id_doc _meta)) c [])).
        destruct (gmultivalued md); [|by apply Hdict].
        unfold Sequence. destruct v; try done.
        assert (∀ xs out errors st,
          has_memory_area (id_doc _meta) st →
          has_memory_area (id_doc _meta)
            (validate_sequence
               (Schema (LbbaseStruct.content_schema
                   (λ s', struct_schema s' (id_doc _meta)) c []))
               xs out errors st).1) as Hseq.
        { induction xs0 as [|x xs0 IHxs]; intros out errors st0 Hst0; simpl.
          - by destruct errors.
          - specialize (Hdict x st0 Hst0).
            destruct (Schema _ x st0) as [st1 [e|y]]; simpl in Hdict.
            + destruct (is_collected e); [|done]. by apply IHxs.
            + by apply IHxs. }
        specialize (Hseq xs [] [] st Hst).
        by destruct (validate_sequence _ _ _ _ _) as [st' [e|out]]. }
    pose proof (schema_accepts_valid
                  (create_memory_area (id_doc _meta) self) (id_doc _meta) d
                  Hkeep
                  (wf_base_content self
                     (create_memory_area (id_doc _meta) self) eq_refl Hwf)
                  Hd (create_memory_area (id_doc _meta) self))
      as (st & out & Happ & _).
    rewrite <- Hd0 in Happ.
    destruct (validate_success struct_schema self h document _meta d0 st out
                Hkeeps Hh Happ)
      as (h' & validated & validated_doc & reldata & files & Hv & _ & Hh' & _).
    by exists st, h', validated, validated_doc, reldata, files.
Qed.

End Roundtrip.

(** ** The round trip on the example base *)

Lemma example_base_wf : wf_base Example.base.
Proof.
  split; [split; [nodup_by_eval|]|].
  - apply (bool_decide_unpack _). vm_compute. reflexivity.
  - repeat constructor; simpl; try reflexivity; try nodup_by_eval.
Qed.

Lemma example_conforms v :
  Example.text Example.title v = ret (Example.normalized_title v) →
  LbbaseStruct.conforms_dict Example.text (content Example.base)
    [("title", v); ("author", VDict [("name", VStr "Y")])].
Proof.
  intros Hv. constructor.
  - nodup_by_eval.
  - repeat constructor; simpl; set_solver.
  - repeat constructor.
    + exists (SField Example.title). split; [set_solver|]. split; [done|].
      by eapply conforms_field.
    + exists Example.author. split; [set_solver|]. split; [done|].
      apply conforms_group; [done|]. constructor.
      * nodup_by_eval.
      * repeat constructor; simpl; set_solver.
      * repeat constructor. exists (SField Example.author_name).
        split; [set_solver|]. split; [done|]. by eapply conforms_field.
Qed.

(** C2, as stated, fails: the document with the title None is valid for
    the example base, whose Text datatype normalizes None to the empty
    text; converting it to a typed document and back gives the title "",
    and the result does not equal the document. *)
Lemma roundtrip_changes_normalized_value :
  LbbaseStruct.conforms_dict Example.text (content Example.base)
    Example.doc_none_title
  ∧ ∃ document,
      LbbaseStruct.json2document Example.text Example.base
        (VDict Example.doc_none_title) BaseMetaClass = ret document
      ∧ LbbaseStruct.document2dict LbbaseStruct.recursion_limit Example.base
          document None
        = ret [("title", VStr ""); ("author", VDict [("name", VStr "Y")])]
      ∧ py_eqb
          (VDict [("title", VStr ""); ("author", VDict [("name", VStr "Y")])])
          (VDict Example.doc_none_title) = false.
Proof.
  split; [by apply example_conforms|].
  eexists. split; [vm_compute; reflexivity|].
  split; vm_compute; reflexivity.
Qed.

Lemma note_relational_keeps id :
  LbbaseStruct.bookkeeping_keeps Example.note_relational id.
Proof.
  intros f v st [Hf Hr]. unfold Example.note_relational.
  destruct (is_rel f); [|done]. split; [done|]. simpl.
  destruct Hr as [r Hr]. rewrite lookup_alter_eq, Hr. by eexists.
Qed.

Lemma roundtrip_of_valid_document_witness :
  LbbaseStruct.json2document Example.text Example.base
    (VDict Example.doc_title_first) BaseMetaClass
  = ret (LbbaseStruct.typed_document Example.text Example.base
           Example.doc_title_first)
  ∧ LbbaseStruct.document2dict LbbaseStruct.recursion_limit Example.base
      (LbbaseStruct.typed_document Example.text Example.base
         Example.doc_title_first) None
    = ret (LbbaseStruct.normal_document Example.text Example.base
             Example.doc_title_first)
  ∧ ∃ st h' validated validated_doc reldata files,
      LbbaseStruct.validate
        (LbbaseStruct.struct_schema Example.text Example.note_relational)
        Example.base (Example.store Example.doc_title_first) 0%nat
        Example.meta7
      = Some (st, h', ret (validated, reldata, files, []))
      ∧ h' !! validated = Some
          (dict_set "_metadata" (VDict (__dict__ Example.meta7)) validated_doc).
Proof.
  destruct (roundtrip_of_valid_document Example.text Example.note_relational
              Example.base Example.doc_title_first)
    as (Hjson & Hdict & _ & Hvalidate).
  - apply example_base_wf.
  - by apply example_conforms.
  - split; [exact Hjson|]. split; [apply Hdict; vm_compute; lia|].
    apply (Hvalidate (Example.store Example.doc_title_first) 0%nat
             Example.meta7 Example.doc_title_first).
    + apply note_relational_keeps.
    + reflexivity.
    + reflexivity.
Defined.

(** ** Further properties of the generated types *)

(** *** Lists of group instances (lbdoc/metaclass.py) *)

Lemma list_setitem_in_range (self : list val) index element :
  (- Z.of_nat (length self) ≤ index < Z.of_nat (length self))%Z →
  LbdocMetaclass.list_setitem self index element
  = (<[Z.to_nat (index mod Z.of_nat (length self)) := element]> self, ret tt).
Proof.
  intros Hrange. unfold LbdocMetaclass.list_setitem.
  destruct (Z.ltb_spec index 0) as [Hneg|Hpos].
  - assert (index mod Z.of_nat (length self) = index + Z.of_nat (length self))%Z
      as ->.
    { symmetry. apply (Z.mod_unique _ _ (-1)); lia. }
    destruct (Z.leb_spec 0 (index + Z.of_nat (length self))); [|lia].
    destruct (Z.ltb_spec (index + Z.of_nat (length self))
                (Z.of_nat (length self))); [|lia].
    done.
  - rewrite Z.mod_small by lia.
    destruct (Z.leb_spec 0 index); [|lia].
    destruct (Z.ltb_spec index (Z.of_nat (length self))); [|lia].
    done.
Qed.

Lemma list_setitem_out_of_range (self : list val) index element :
  ¬ (- Z.of_nat (length self) ≤ index < Z.of_nat (length self))%Z →
  LbdocMetaclass.list_setitem self index element
  = (self, raise (IndexError "list assignment index out of range")).
Proof.
  intros Hrange. unfold LbdocMetaclass.list_setitem.
  destruct (Z.ltb_spec index 0) as [Hneg|Hpos].
  - destruct (Z.leb_spec 0 (index + Z.of_nat (length self))); [|done].
    destruct (Z.ltb_spec (index + Z.of_nat (length self))
                (Z.of_nat (length self))); [lia|done].
  - destruct (Z.leb_spec 0 index); [|lia].
    destruct (Z.ltb_spec index (Z.of_nat (length self))); [lia|done].
Qed.

(** X1 (lbdoc/metaclass.py, MultiGroupMetaClass.__setitem__): an instance
    of the generated type assigned at an index within the bounds of the
    list, counted from the end when it is negative, replaces the element at
    that position and nothing else: the length and every other position
    stay as they were. *)
Theorem multigroup_setitem_replaces_one struct_metaclass (self : list val)
    index element :
  LbdocMetaclass.isinstance element struct_metaclass = true →
  (- Z.of_nat (length self) ≤ index < Z.of_nat (length self))%Z →
  ∃ l',
    LbdocMetaclass.MultiGroupMetaClass_setitem struct_metaclass self index
      element = (l', ret tt)
    ∧ length l' = length self
    ∧ l' !! Z.to_nat (index mod Z.of_nat (length self)) = Some element
    ∧ ∀ j, j ≠ Z.to_nat (index mod Z.of_nat (length self)) →
           l' !! j = self !! j.
Proof.
  intros Hinst Hrange. unfold LbdocMetaclass.MultiGroupMetaClass_setitem.
  rewrite Hinst, list_setitem_in_range by done.
  eexists. split; [done|].
  assert (Z.to_nat (index mod Z.of_nat (length self)) < length self)%nat.
  { pose proof (Z.mod_pos_bound index (Z.of_nat (length self))). lia. }
  split; [by rewrite length_insert|].
  split; [by apply list_lookup_insert_eq|].
  intros j Hj. by apply list_lookup_insert_ne.
Qed.

Lemma multigroup_setitem_replaces_one_witness :
  ∃ l',
    LbdocMetaclass.MultiGroupMetaClass_setitem
      (LbdocMetaclass.FieldMetaClassOf Example.title)
      [VField "title" (Some (VStr "a")); VField "title" (Some (VStr "b"))]
      (-1) (VField "title" (Some (VStr "c"))) = (l', ret tt)
    ∧ length l' = 2%nat
    ∧ l' !! 1%nat = Some (VField "title" (Some (VStr "c")))
    ∧ ∀ j, j ≠ 1%nat →
           l' !! j
           = [VField "title" (Some (VStr "a")); VField "title" (Some (VStr "b"))]
               !! j.
Proof.
  apply (multigroup_setitem_replaces_one
           (LbdocMetaclass.FieldMetaClassOf Example.title)
           [VField "title" (Some (VStr "a")); VField "title" (Some (VStr "b"))]
           (-1) (VField "title" (Some (VStr "c")))).
  - reflexivity.
  - simpl. lia.
Defined.

(** X2 (lbdoc/metaclass.py, MultiGroupMetaClass.__setitem__): an item
    assignment that fails leaves the list as it was, and it fails in two
    ways only: with the AssertionError of the type check when the element
    is not an instance of the generated type, whatever the index, and with
    the IndexError of the list when the element is one and the index is out
    of bounds. *)
Theorem multigroup_setitem_failure struct_metaclass (self : list val) index
    element e :
  (LbdocMetaclass.MultiGroupMetaClass_setitem struct_metaclass self index
     element).2 = raise e →
  (LbdocMetaclass.MultiGroupMetaClass_setitem struct_metaclass self index
     element).1 = self
  ∧ ((LbdocMetaclass.isinstance element struct_metaclass = false
      ∧ ∃ msg, e = AssertionError msg)
     ∨ (LbdocMetaclass.isinstance element struct_metaclass = true
        ∧ ¬ (- Z.of_nat (length self) ≤ index < Z.of_nat (length self))%Z
        ∧ ∃ msg, e = IndexError msg)).
Proof.
  unfold LbdocMetaclass.MultiGroupMetaClass_setitem.
  destruct (LbdocMetaclass.isinstance element struct_metaclass) eqn:Hinst.
  - destruct (decide (- Z.of_nat (length self) ≤ index
                      < Z.of_nat (length self))%Z) as [Hrange|Hrange].
    + rewrite list_setitem_in_range by done. simpl. done.
    + rewrite list_setitem_out_of_range by done. simpl.
      intros [= <-]. split; [done|]. right. eauto.
  - simpl. intros [= <-]. split; [done|]. left. eauto.
Qed.

Lemma multigroup_setitem_failure_witness :
  (LbdocMetaclass.MultiGroupMetaClass_setitem
     (LbdocMetaclass.FieldMetaClassOf Example.title)
     [VField "title" (Some (VStr "a"))] 5
     (VField "title" (Some (VStr "c")))).1
  = [VField "title" (Some (VStr "a"))].
Proof.
  apply (multigroup_setitem_failure
           (LbdocMetaclass.FieldMetaClassOf Example.title)
           [VField "title" (Some (VStr "a"))] 5
           (VField "title" (Some (VStr "c")))
           (IndexError "list assignment index out of range")).
  reflexivity.
Defined.

(** X3 (lbdoc/metaclass.py, MultiGroupMetaClass.append and __setitem__):
    a list whose elements are all instances of the generated type still
    has only such elements after an append and after an item assignment,
    whether the operation succeeds or fails. *)
Theorem multigroup_stays_homogeneous struct_metaclass (self : list val) :
  LbdocMetaclass.homogeneous struct_metaclass self →
  ∀ index element,
    LbdocMetaclass.homogeneous struct_metaclass
      (LbdocMetaclass.MultiGroupMetaClass_append struct_metaclass self
         element).1
    ∧ LbdocMetaclass.homogeneous struct_metaclass
        (LbdocMetaclass.MultiGroupMetaClass_setitem struct_metaclass self
           index element).1.
Proof.
  intros Hall index element.
  unfold LbdocMetaclass.MultiGroupMetaClass_append,
    LbdocMetaclass.MultiGroupMetaClass_setitem, LbdocMetaclass.homogeneous in *.
  destruct (LbdocMetaclass.isinstance element struct_metaclass) eqn:Hinst;
    [|done].
  split.
  - simpl. apply Forall_app. split; [done|]. by apply Forall_singleton.
  - destruct (decide (- Z.of_nat (length self) ≤ index
                      < Z.of_nat (length self))%Z) as [Hrange|Hrange].
    + rewrite list_setitem_in_range by done. simpl.
      by apply Forall_insert.
    + by rewrite list_setitem_out_of_range.
Qed.

Lemma multigroup_stays_homogeneous_witness :
  LbdocMetaclass.homogeneous (LbdocMetaclass.FieldMetaClassOf Example.title)
    (LbdocMetaclass.MultiGroupMetaClass_append
       (LbdocMetaclass.FieldMetaClassOf Example.title)
       [VField "title" (Some (VStr "a"))] (VInt 3)).1
  ∧ LbdocMetaclass.homogeneous (LbdocMetaclass.FieldMetaClassOf Example.title)
      (LbdocMetaclass.MultiGroupMetaClass_setitem
         (LbdocMetaclass.FieldMetaClassOf Example.title)
         [VField "title" (Some (VStr "a"))] 0
         (VField "title" (Some (VStr "c")))).1.
Proof.
  assert (LbdocMetaclass.homogeneous
            (LbdocMetaclass.FieldMetaClassOf Example.title)
            [VField "title" (Some (VStr "a"))]) as Hall.
  { unfold LbdocMetaclass.homogeneous. apply Forall_singleton. reflexivity. }
  split.
  - apply (multigroup_stays_homogeneous _ _ Hall 0%Z (VInt 3)).
  - apply (multigroup_stays_homogeneous _ _ Hall 0%Z
             (VField "title" (Some (VStr "c")))).
Defined.

(** *** The accessors of a generated type (lbdoc/metaclass.py) *)

Lemma private_not_plain n : plain_name ("_" +:+ n) = false.
Proof. by destruct n. Qed.

Lemma plain_level_wf (c : Content) : plain_level c → wf_level c.
Proof.
  intros [Hnd Hplain]. split; [done|].
  rewrite Forall_forall in Hplain. apply Forall_forall. intros n _ Hin.
  specialize (Hplain _ Hin). by rewrite private_not_plain in Hplain.
Qed.

Lemma mangle_private n :
  plain_name n = true →
  LbdocMetaclass.mangle ("_" +:+ n) = "_" +:+ n.
Proof.
  unfold plain_name, LbdocMetaclass.mangle. intros Hn.
  apply negb_true_iff in Hn.
  assert (String.eqb (substring 0 2 ("_" +:+ n)) "__"
          = String.eqb (substring 0 1 n) "_") as ->.
  { by destruct n as [|c [|c' n]]. }
  by rewrite Hn.
Qed.

Lemma lbdoc_recursion_limit_unfold :
  LbdocMetaclass.recursion_limit = S (S 998).
Proof. reflexivity. Qed.

Lemma generate_metaclass_inv struct base C :
  LbdocMetaclass.generate_metaclass struct base = ret C →
  LbdocMetaclass.snames C = __snames__ (LbdocMetaclass.cls_content C)
  ∧ LbdocMetaclass.rnames C = __rnames__ (LbdocMetaclass.cls_content C)
  ∧ LbdocMetaclass.build_metadata C
    = match base with None => true | Some _ => false end
  ∧ LbdocMetaclass.__slots__ C
    = map (λ sname, LbdocMetaclass.mangle ("_" +:+ sname))
        (__snames__ (LbdocMetaclass.cls_content C))
      ++ (if LbdocMetaclass.build_metadata C then ["__metadata__"] else []).
Proof.
  unfold LbdocMetaclass.generate_metaclass.
  destruct base as [b|];
    (destruct (LbdocMetaclass.owner_content struct) as [e|c]; simpl; [done|]);
    (destruct (LbdocMetaclass.owner_name struct) as [e|n]; simpl; [done|]);
    intros [= <-]; simpl; by rewrite ?app_nil_r.
Qed.

Lemma lbdoc_class_attr_property C s :
  LbdocMetaclass.generated_over C → s ∈ LbdocMetaclass.cls_content C →
  LbdocMetaclass.class_attr C (structname s) = Some (LbdocMetaclass.Property s).
Proof.
  intros (_ & Hplain & _) Hin. unfold LbdocMetaclass.class_attr.
  assert (String.eqb (structname s) "_metadata" = false) as ->.
  { apply String.eqb_neq. intros Hn. destruct Hplain as [_ Hplain].
    rewrite Forall_forall in Hplain.
    specialize (Hplain (structname s) (list_elem_of_fmap_2 _ _ _ Hin)).
    by rewrite Hn in Hplain. }
  rewrite andb_false_r.
  change (find _ _) with (class_property (LbdocMetaclass.cls_content C)
                            (structname s)).
  by rewrite (class_property_found _ s (plain_level_wf _ Hplain) Hin).
Qed.

Lemma lbdoc_class_attr_slot C s :
  LbdocMetaclass.generated_over C → s ∈ LbdocMetaclass.cls_content C →
  LbdocMetaclass.class_attr C ("_" +:+ structname s) = Some LbdocMetaclass.Slot.
Proof.
  intros ((struct & base & Hgen) & Hplain & Hmeta) Hin.
  apply generate_metaclass_inv in Hgen as (_ & _ & _ & Hslots).
  unfold LbdocMetaclass.class_attr.
  assert ((LbdocMetaclass.build_metadata C
           && String.eqb ("_" +:+ structname s) "_metadata")%bool = false) as ->.
  { destruct (LbdocMetaclass.build_metadata C); [|done]. rewrite andb_true_l.
    apply String.eqb_neq. intros Hn. apply (Hmeta eq_refl).
    apply (private_name_inj _ "metadata") in Hn. rewrite <- Hn.
    by apply list_elem_of_fmap_2. }
  change (find _ _) with (class_property (LbdocMetaclass.cls_content C)
                            ("_" +:+ structname s)).
  rewrite (class_property_private _ s (plain_level_wf _ Hplain) Hin).
  assert (existsb (String.eqb ("_" +:+ structname s))
            (LbdocMetaclass.__slots__ C) = true) as ->; [|done].
  apply existsb_exists. exists ("_" +:+ structname s).
  split; [|apply String.eqb_refl]. rewrite Hslots.
  apply in_or_app. left. apply in_map_iff. exists (structname s). split.
  - apply mangle_private. destruct Hplain as [_ Hplain].
    rewrite Forall_forall in Hplain. apply Hplain.
    by apply list_elem_of_fmap_2.
  - apply list_elem_of_In. by apply list_elem_of_fmap_2.
Qed.

Section Accessors.
Variable datatype_schema : Field → val → res val.

Local Abbreviation lbdoc_setattr := (LbdocMetaclass.setattr datatype_schema).
Local Abbreviation lbdoc_normalizes := (LbdocMetaclass.normalizes datatype_schema).

(** The accessors of a structure of the class, with the assignment, the
    lookup and the deletion of the slot written out. *)
Lemma lbdoc_setattr_struct n C self s value :
  LbdocMetaclass.generated_over C → s ∈ LbdocMetaclass.cls_content C →
  lbdoc_setattr (S (S n)) C self (structname s) value
  = LbdocMetaclass.setter datatype_schema
      (λ self attr v, ret (dict_set attr v self))
      (LbdocMetaclass.cls_base C) s self value.
Proof.
  intros HC Hin. cbn [LbdocMetaclass.setattr].
  rewrite lbdoc_class_attr_property by done.
  unfold LbdocMetaclass.setter.
  destruct (LbdocMetaclass.Base_metaclass _ _) as [e|mc]; [done|].
  cbn [bind].
  match goal with |- bind ?m _ = _ => destruct m as [e|v]; [done|] end.
  cbn [bind LbdocMetaclass.setattr].
  by rewrite lbdoc_class_attr_slot.
Qed.

Lemma lbdoc_getattr_struct n C self s :
  LbdocMetaclass.generated_over C → s ∈ LbdocMetaclass.cls_content C →
  LbdocMetaclass.getattr (S (S n)) C self (structname s)
  = match dict_get ("_" +:+ structname s) self with
    | Some value =>
        if is_field s then LbdocMetaclass.getattr_value value else ret value
    | None => raise (AttributeError ("_" +:+ structname s))
    end.
Proof.
  intros HC Hin. cbn [LbdocMetaclass.getattr].
  rewrite lbdoc_class_attr_property by done.
  unfold LbdocMetaclass.getter. cbn [LbdocMetaclass.getattr].
  rewrite lbdoc_class_attr_slot by done.
  by destruct (dict_get _ self).
Qed.

Lemma lbdoc_delattr_struct n C self s :
  LbdocMetaclass.generated_over C → s ∈ LbdocMetaclass.cls_content C →
  LbdocMetaclass.delattr (S (S n)) C self (structname s)
  = if dict_has ("_" +:+ structname s) self
    then ret (dict_del ("_" +:+ structname s) self)
    else raise (AttributeError ("_" +:+ structname s)).
Proof.
  intros HC Hin. cbn [LbdocMetaclass.delattr].
  rewrite lbdoc_class_attr_property by done.
  unfold LbdocMetaclass.deleter. cbn [LbdocMetaclass.delattr].
  by rewrite lbdoc_class_attr_slot.
Qed.

(** What a successful assignment through the accessor leaves: the private
    slot of the structure holds a value, the other slots are as before. *)
Lemma lbdoc_setattr_struct_result n C self s value self' :
  LbdocMetaclass.generated_over C → s ∈ LbdocMetaclass.cls_content C →
  lbdoc_setattr (S (S n)) C self (structname s) value = ret self' →
  ∃ v, self' = dict_set ("_" +:+ structname s) v self.
Proof.
  intros HC Hin. rewrite lbdoc_setattr_struct by done.
  unfold LbdocMetaclass.setter.
  destruct (LbdocMetaclass.Base_metaclass _ _) as [e|mc]; [done|].
  cbn [bind].
  match goal with |- bind ?m _ = _ → _ => destruct m as [e|v]; [done|] end.
  cbn [bind]. intros [= <-]. by exists v.
Qed.

(** X4 (lbdoc/metaclass.py, generate_property: setter and getter): after
    a successful assignment to the property of a Field, reading the
    property gives the value as the datatype of the field that the base
    has under that name normalized it, not the wrapper and not the
    incoming value. *)
Theorem lbdoc_field_set_then_get C f self value self' :
  LbdocMetaclass.generated_over C →
  SField f ∈ LbdocMetaclass.cls_content C →
  lbdoc_setattr LbdocMetaclass.recursion_limit C self (name f) value
    = ret self' →
  ∃ f' v',
    LbdocMetaclass.Base_metaclass (LbdocMetaclass.cls_base C) (name f)
      = ret (LbdocMetaclass.FieldMetaClassOf f')
    ∧ lbdoc_normalizes f' value v'
    ∧ LbdocMetaclass.getattr LbdocMetaclass.recursion_limit C self' (name f)
      = ret v'.
Proof.
  intros HC Hin. rewrite lbdoc_recursion_limit_unfold.
  change (name f) with (structname (SField f)).
  rewrite lbdoc_setattr_struct, lbdoc_getattr_struct by done.
  unfold LbdocMetaclass.setter. cbn [structname is_field].
  destruct (LbdocMetaclass.Base_metaclass _ _) as [e|[f'|C']]; [done| |done].
  cbn [bind LbdocMetaclass.instantiate]. unfold LbdocMetaclass.FieldMetaClass_init.
  pose proof (FieldMetaClass_setattr_spec datatype_schema f' None "__value__"
                value) as Hspec.
  destruct (LbdocMetaclass.FieldMetaClass_setattr _ _ _ _ _) as [e|w];
    [done|].
  destruct Hspec as (v' & -> & Hnorm). cbn [bind]. intros [= <-].
  exists f', v'. split; [done|]. split; [done|].
  by rewrite dict_get_set_eq.
Qed.

(** X5 (lbdoc/metaclass.py, generate_property: setter): a successful
    assignment to the property of one structure changes what the property
    of no other structure of the class reads. *)
Theorem lbdoc_setattr_keeps_others C s self value self' :
  LbdocMetaclass.generated_over C →
  s ∈ LbdocMetaclass.cls_content C →
  lbdoc_setattr LbdocMetaclass.recursion_limit C self (structname s) value
    = ret self' →
  ∀ s', s' ∈ LbdocMetaclass.cls_content C → s' ≠ s →
    LbdocMetaclass.getattr LbdocMetaclass.recursion_limit C self'
      (structname s')
    = LbdocMetaclass.getattr LbdocMetaclass.recursion_limit C self
        (structname s').
Proof.
  intros HC Hin. rewrite lbdoc_recursion_limit_unfold.
  intros (v & ->)%lbdoc_setattr_struct_result; [|done..].
  intros s' Hin' Hne. rewrite !lbdoc_getattr_struct by done.
  rewrite dict_get_set_ne; [done|].
  intros Heq%private_name_inj. apply Hne. symmetry.
  destruct HC as (_ & Hplain & _).
  by apply (structname_unique (LbdocMetaclass.cls_content C));
    [apply plain_level_wf|..].
Qed.

End Accessors.

Lemma example_books_generated : LbdocMetaclass.generated_over Example.books_class.
Proof.
  split; [|split].
  - by exists (LbdocMetaclass.OBase Example.books_doc), None.
  - split; [nodup_by_eval|]. by repeat constructor.
  - intros _. unfold __snames__. simpl.
    intros [?|[?|?%elem_of_nil]%elem_of_cons]%elem_of_cons; done.
Qed.

Lemma lbdoc_field_set_then_get_witness :
  ∃ f' v',
    LbdocMetaclass.Base_metaclass
      (LbdocMetaclass.cls_base Example.books_class) (name Example.title)
      = ret (LbdocMetaclass.FieldMetaClassOf f')
    ∧ LbdocMetaclass.normalizes Example.text f' VNone v'
    ∧ LbdocMetaclass.getattr LbdocMetaclass.recursion_limit
        Example.books_class [("_title", VField "title" (Some (VStr "")))]
        (name Example.title)
      = ret v'.
Proof.
  apply (lbdoc_field_set_then_get Example.text Example.books_class
           Example.title [] VNone).
  - apply example_books_generated.
  - apply list_elem_of_here.
  - vm_compute. reflexivity.
Defined.

Lemma lbdoc_setattr_keeps_others_witness :
  LbdocMetaclass.getattr LbdocMetaclass.recursion_limit Example.books_class
    [("_author", VInst (DocClass (Some "author")) []);
     ("_title", VField "title" (Some (VStr "X")))]
    (structname Example.author)
  = LbdocMetaclass.getattr LbdocMetaclass.recursion_limit Example.books_class
      [("_author", VInst (DocClass (Some "author")) [])]
      (structname Example.author).
Proof.
  apply (lbdoc_setattr_keeps_others Example.text Example.books_class
           (SField Example.title)
           [("_author", VInst (DocClass (Some "author")) [])] (VStr "X")).
  - apply example_books_generated.
  - apply list_elem_of_here.
  - vm_compute. reflexivity.
  - apply list_elem_of_further, list_elem_of_here.
  - discriminate.
Defined.

Lemma dict_set_wf k v (d : pydict) : dict_wf d → dict_wf (dict_set k v d).
Proof.
  unfold dict_wf. destruct (decide (k ∈ keys d)) as [Hin|Hni].
  - assert (keys (dict_set k v d) = keys d) as ->; [|done].
    induction d as [|[k' v'] d IH]; [by apply elem_of_nil in Hin|].
    simpl. destruct (String.eqb k' k) eqn:E; [done|]. simpl. f_equal.
    apply IH. apply elem_of_cons in Hin as [->|Hin]; [|done].
    by rewrite String.eqb_refl in E.
  - rewrite dict_set_fresh by done. unfold keys. rewrite fmap_app. simpl.
    intros Hnd. apply NoDup_app. split; [done|]. split.
    + intros x Hx ->%list_elem_of_singleton. done.
    + apply NoDup_singleton.
Qed.

Lemma dict_has_del_eq k (d : pydict) :
  dict_wf d → dict_has k (dict_del k d) = false.
Proof. intros Hwf. unfold dict_has. by rewrite dict_get_del_eq. Qed.

(** X6 (lbdoc/metaclass.py, generate_property: deleter): deleting the
    property of a structure succeeds exactly when its private slot holds
    a value; after it, reading the property and deleting it once more both
    raise the AttributeError of the private slot. *)
Theorem lbdoc_delete_then_get C s (self : pydict) :
  LbdocMetaclass.generated_over C →
  s ∈ LbdocMetaclass.cls_content C →
  dict_wf self →
  match LbdocMetaclass.delattr LbdocMetaclass.recursion_limit C self
          (structname s) with
  | inr self' =>
      dict_has ("_" +:+ structname s) self = true
      ∧ LbdocMetaclass.getattr LbdocMetaclass.recursion_limit C self'
          (structname s)
        = raise (AttributeError ("_" +:+ structname s))
      ∧ LbdocMetaclass.delattr LbdocMetaclass.recursion_limit C self'
          (structname s)
        = raise (AttributeError ("_" +:+ structname s))
  | inl e =>
      dict_has ("_" +:+ structname s) self = false
      ∧ e = AttributeError ("_" +:+ structname s)
  end.
Proof.
  intros HC Hin Hwf. rewrite lbdoc_recursion_limit_unfold.
  rewrite lbdoc_delattr_struct by done.
  destruct (dict_has ("_" +:+ structname s) self) eqn:Hhas; [|done].
  split; [done|].
  rewrite lbdoc_getattr_struct, lbdoc_delattr_struct by done.
  by rewrite dict_has_del_eq, dict_get_del_eq.
Qed.

Lemma lbdoc_delete_then_get_witness :
  match LbdocMetaclass.delattr LbdocMetaclass.recursion_limit
          Example.books_class [("_title", VField "title" (Some (VStr "X")))]
          (structname (SField Example.title)) with
  | inr self' =>
      dict_has ("_" +:+ structname (SField Example.title))
        [("_title", VField "title" (Some (VStr "X")))] = true
      ∧ LbdocMetaclass.getattr LbdocMetaclass.recursion_limit
          Example.books_class self' (structname (SField Example.title))
        = raise (AttributeError ("_" +:+ structname (SField Example.title)))
      ∧ LbdocMetaclass.delattr LbdocMetaclass.recursion_limit
          Example.books_class self' (structname (SField Example.title))
        = raise (AttributeError ("_" +:+ structname (SField Example.title)))
  | inl e =>
      dict_has ("_" +:+ structname (SField Example.title))
        [("_title", VField "title" (Some (VStr "X")))] = false
      ∧ e = AttributeError ("_" +:+ structname (SField Example.title))
  end.
Proof.
  apply (lbdoc_delete_then_get Example.books_class (SField Example.title)
           [("_title", VField "title" (Some (VStr "X")))]).
  - apply example_books_generated.
  - apply list_elem_of_here.
  - nodup_by_eval.
Defined.

(** *** The _metadata property of the base-level type (lbdoc/metaclass.py) *)

Lemma lbdoc_class_attr_metadata_slot struct C :
  LbdocMetaclass.generate_metaclass struct None = ret C →
  plain_level (LbdocMetaclass.cls_content C) →
  LbdocMetaclass.class_attr C "_metadata" = Some LbdocMetaclass.MetadataProperty
  ∧ LbdocMetaclass.class_attr C "__metadata__" = Some LbdocMetaclass.Slot.
Proof.
  intros Hgen [_ Hplain].
  apply generate_metaclass_inv in Hgen as (_ & _ & Hbuild & Hslots).
  unfold LbdocMetaclass.class_attr. rewrite Hbuild. split; [done|].
  rewrite andb_true_l.
  change (String.eqb "__metadata__" "_metadata") with false. cbv iota.
  rewrite find_none.
  - assert (existsb (String.eqb "__metadata__") (LbdocMetaclass.__slots__ C)
            = true) as ->; [|done].
    apply existsb_exists. exists "__metadata__". split; [|done].
    rewrite Hslots, Hbuild. apply in_or_app. right. by left.
  - intros s' Hs'. rewrite elem_of_reverse in Hs'.
    apply String.eqb_neq. intros Hn. rewrite Forall_forall in Hplain.
    specialize (Hplain (structname s') (list_elem_of_fmap_2 _ _ _ Hs')).
    by rewrite Hn in Hplain.
Qed.

Section MetadataProperty.
Variable datatype_schema : Field → val → res val.

Local Abbreviation lbdoc_setattr := (LbdocMetaclass.setattr datatype_schema).

Lemma lbdoc_setattr_unfold n C self attr value :
  lbdoc_setattr (S n) C self attr value
  = match LbdocMetaclass.class_attr C attr with
    | Some (LbdocMetaclass.Property struct) =>
        LbdocMetaclass.setter datatype_schema (lbdoc_setattr n C)
          (LbdocMetaclass.cls_base C) struct self value
    | Some LbdocMetaclass.MetadataProperty =>
        LbdocMetaclass.fset (lbdoc_setattr n C) self value
    | Some LbdocMetaclass.Slot => ret (dict_set attr value self)
    | None => raise (AttributeError attr)
    end.
Proof. reflexivity. Qed.

Lemma lbdoc_metadata_setattr n struct C (self : pydict) value :
  LbdocMetaclass.generate_metaclass struct None = ret C →
  plain_level (LbdocMetaclass.cls_content C) →
  lbdoc_setattr (S (S n)) C self "_metadata" value
  = LbdocMetaclass.fset (λ self attr v, ret (dict_set attr v self)) self value.
Proof.
  intros Hgen Hplain.
  destruct (lbdoc_class_attr_metadata_slot _ _ Hgen Hplain) as [Hprop Hslot].
  cbn [LbdocMetaclass.setattr]. rewrite Hprop.
  unfold LbdocMetaclass.fset.
  destruct value as [| | | | | |[?|cname] attrs| |]; try done.
  destruct (String.eqb cname "DocumentMetadata"); [|done].
  cbn [LbdocMetaclass.setattr]. by rewrite Hslot.
Qed.

Lemma lbdoc_metadata_getattr n struct C (self : pydict) :
  LbdocMetaclass.generate_metaclass struct None = ret C →
  plain_level (LbdocMetaclass.cls_content C) →
  LbdocMetaclass.getattr (S (S n)) C self "_metadata"
  = match dict_get "__metadata__" self with
    | Some v => ret v
    | None => raise (AttributeError "__metadata__")
    end.
Proof.
  intros Hgen Hplain.
  destruct (lbdoc_class_attr_metadata_slot _ _ Hgen Hplain) as [Hprop Hslot].
  cbn [LbdocMetaclass.getattr]. rewrite Hprop.
  unfold LbdocMetaclass.fget. cbn [LbdocMetaclass.getattr]. by rewrite Hslot.
Qed.

(** X7 (lbdoc/metaclass.py, build_metadata_prop: fset and fget): on an
    instance of the base-level type, assigning [_metadata] succeeds for a
    DocumentMetadata object, and reading [_metadata] afterwards gives that
    very object; any other value is refused with an AssertionError. *)
Theorem lbdoc_metadata_set_then_get struct C (self : pydict) value :
  LbdocMetaclass.generate_metaclass struct None = ret C →
  plain_level (LbdocMetaclass.cls_content C) →
  match lbdoc_setattr LbdocMetaclass.recursion_limit C self "_metadata" value
  with
  | inr self' =>
      (∃ attrs, value = VInst (UserClass "DocumentMetadata") attrs)
      ∧ LbdocMetaclass.getattr LbdocMetaclass.recursion_limit C self'
          "_metadata" = ret value
  | inl e =>
      (∀ attrs, value ≠ VInst (UserClass "DocumentMetadata") attrs)
      ∧ e = AssertionError ""
  end.
Proof.
  intros Hgen Hplain. rewrite lbdoc_recursion_limit_unfold.
  rewrite (lbdoc_metadata_setattr _ struct) by done.
  unfold LbdocMetaclass.fset.
  destruct value as [| | | | | |[?|cname] attrs| |]; try by split.
  destruct (String.eqb cname "DocumentMetadata") eqn:E.
  - apply String.eqb_eq in E as ->. split; [by eexists|].
    rewrite (lbdoc_metadata_getattr _ struct) by done.
    by rewrite dict_get_set_eq.
  - apply String.eqb_neq in E. split; [|done]. by intros attrs' [= ? _].
Qed.

(** What the setter hands to the assignment of the private attribute is
    never a DocumentMetadata object. *)
Lemma lbdoc_setter_value_not_metadata setattr base s self value :
  (∀ v, (∀ attrs, v ≠ VInst (UserClass "DocumentMetadata") attrs) →
        ∃ e, setattr self ("_" +:+ structname s) v = raise e) →
  ∃ e, LbdocMetaclass.setter datatype_schema setattr base s self value
       = raise e.
Proof.
  intros Hset. unfold LbdocMetaclass.setter.
  destruct (LbdocMetaclass.Base_metaclass base (structname s)) as [e|mc];
    [by eexists|].
  cbn [bind]. destruct s as [f|md r c].
  - destruct mc as [f'|C']; cbn [LbdocMetaclass.instantiate];
      [|by eexists].
    unfold LbdocMetaclass.FieldMetaClass_init.
    destruct (LbdocMetaclass.FieldMetaClass_setattr _ _ _ _ _) as [e|w];
      [by eexists|].
    cbn [bind]. by apply Hset.
  - destruct (gmultivalued md).
    + destruct (as_list value) as [elements|]; [|by eexists].
      destruct (forallb _ elements); [|by eexists].
      cbn [bind]. by apply Hset.
    + destruct (LbdocMetaclass.isinstance value mc) eqn:Hinst; [|by eexists].
      cbn [bind]. apply Hset. intros attrs ->.
      by destruct mc as [f'|C']; simpl in Hinst;
        [|destruct (LbdocMetaclass.cls_id C') as [[?|]|]].
Qed.

(** X8 (lbdoc/metaclass.py, generate_metaclass and generate_property): in
    the base-level type the private attribute of a structure that is
    called [metadata] is the [_metadata] property, so an assignment to
    that structure never succeeds, whatever the value. *)
Theorem lbdoc_structure_named_metadata struct C s (self : pydict) value :
  LbdocMetaclass.generate_metaclass struct None = ret C →
  plain_level (LbdocMetaclass.cls_content C) →
  s ∈ LbdocMetaclass.cls_content C →
  structname s = "metadata" →
  ∃ e, lbdoc_setattr LbdocMetaclass.recursion_limit C self "metadata" value
       = raise e.
Proof.
  intros Hgen Hplain Hin Hname.
  change LbdocMetaclass.recursion_limit with (S (S (S 997))).
  rewrite lbdoc_setattr_unfold.
  assert (LbdocMetaclass.class_attr C "metadata"
          = Some (LbdocMetaclass.Property s)) as ->.
  { unfold LbdocMetaclass.class_attr.
    change (String.eqb "metadata" "_metadata") with false.
    rewrite andb_false_r. rewrite <- Hname.
    change (find _ _) with (class_property (LbdocMetaclass.cls_content C)
                              (structname s)).
    by rewrite (class_property_found _ s (plain_level_wf _ Hplain) Hin). }
  apply lbdoc_setter_value_not_metadata. intros v Hv. rewrite Hname.
  change ("_" +:+ "metadata") with "_metadata".
  rewrite (lbdoc_metadata_setattr _ struct) by done.
  unfold LbdocMetaclass.fset.
  destruct v as [| | | | | |[?|cname] attrs| |]; try by eexists.
  destruct (String.eqb cname "DocumentMetadata") eqn:E; [|by eexists].
  apply String.eqb_eq in E as ->. by destruct (Hv attrs).
Qed.

Lemma lbdoc_setattr_attribute n C (self self' : pydict) attr value :
  lbdoc_setattr (S n) C self attr value = ret self' →
  is_Some (LbdocMetaclass.class_attr C attr).
Proof.
  rewrite lbdoc_setattr_unfold.
  destruct (LbdocMetaclass.class_attr C attr); [by eexists|].
  intros Hraise. discriminate Hraise.
Qed.

(** The loop of the constructor gets through only when every keyword is
    an attribute of the class. *)
Lemma lbdoc_init_loop_attributes n C (self self' : pydict) kwargs :
  LbdocMetaclass.init_loop (lbdoc_setattr (S n) C) self kwargs
    = (self', ret tt) →
  ∀ k, k ∈ keys kwargs → is_Some (LbdocMetaclass.class_attr C k).
Proof.
  revert self. induction kwargs as [|[arg value] rest IH]; intros self Hloop k.
  - by intros ?%elem_of_nil.
  - cbn [LbdocMetaclass.init_loop] in Hloop.
    destruct (lbdoc_setattr (S n) C self arg value) as [e|self1] eqn:Hset.
    { discriminate Hloop. }
    cbn [keys map fst]. intros [->|Hk]%elem_of_cons.
    + by apply lbdoc_setattr_attribute in Hset.
    + by apply (IH self1).
Qed.

(** X9 (lbdoc/metaclass.py, generate_metaclass and MetaClass.__init__):
    for a type [generate_metaclass] returns over a level of distinct names
    without a leading underscore, a construction from keywords none of
    which is [__class__] succeeds only when no keyword is called [self],
    every required name is among the keywords and every keyword is an
    attribute of the class, that is a property, a slot or [_metadata].  The
    result is an instance of the class. *)
Theorem lbdoc_constructor_success struct base C kwargs v :
  LbdocMetaclass.generate_metaclass struct base = ret C →
  plain_level (LbdocMetaclass.cls_content C) →
  "__class__" ∉ keys kwargs →
  LbdocMetaclass.MetaClass_new datatype_schema C kwargs = ret v →
  ("self" ∉ keys kwargs)
  ∧ (∀ r, r ∈ LbdocMetaclass.rnames C → r ∈ keys kwargs)
  ∧ (∀ k, k ∈ keys kwargs → is_Some (LbdocMetaclass.class_attr C k))
  ∧ ∃ attrs, v = VInst (LbdocMetaclass.cls_id C) attrs.
Proof.
  unfold LbdocMetaclass.MetaClass_new.
  intros Hvalreq%generate_metaclass_valreq _ _ Hnew.
  destruct (existsb (String.eqb "self") (keys kwargs)) eqn:Hself;
    [discriminate Hnew|].
  split; [intros Hin; apply keyword_self in Hin; by rewrite Hin in Hself|].
  split; [|split].
  - intros r Hr.
    destruct (decide (r ∈ keys kwargs)) as [|Hni]; [done|]. exfalso.
    destruct (MetaClass_init_missing datatype_schema C kwargs r Hvalreq Hr Hni)
      as (missing & Hinit & _).
    rewrite Hinit in Hnew. discriminate Hnew.
  - destruct (LbdocMetaclass.MetaClass_init datatype_schema C kwargs)
      as [self' [e|[]]] eqn:Hinit; [discriminate Hnew|].
    unfold LbdocMetaclass.MetaClass_init in Hinit.
    destruct (if LbdocMetaclass.__valreq__ C then _ else _) as [e|?];
      [discriminate Hinit|].
    by apply (lbdoc_init_loop_attributes 999 C [] self').
  - destruct (LbdocMetaclass.MetaClass_init datatype_schema C kwargs)
      as [self' [e|[]]]; [discriminate Hnew|].
    injection Hnew as <-. by eexists.
Qed.

End MetadataProperty.

Lemma lbdoc_metadata_set_then_get_witness :
  match LbdocMetaclass.setattr Example.text LbdocMetaclass.recursion_limit
          Example.books_class [] "_metadata"
          (meta_object Example.meta7)
  with
  | inr self' =>
      (∃ attrs,
         meta_object Example.meta7 = VInst (UserClass "DocumentMetadata") attrs)
      ∧ LbdocMetaclass.getattr LbdocMetaclass.recursion_limit
          Example.books_class self' "_metadata"
        = ret (meta_object Example.meta7)
  | inl e =>
      (∀ attrs,
         meta_object Example.meta7 ≠ VInst (UserClass "DocumentMetadata") attrs)
      ∧ e = AssertionError ""
  end.
Proof.
  apply (lbdoc_metadata_set_then_get Example.text
           (LbdocMetaclass.OBase Example.books_doc) Example.books_class []
           (meta_object Example.meta7)).
  - reflexivity.
  - split; [nodup_by_eval|]. by repeat constructor.
Defined.

Lemma lbdoc_structure_named_metadata_witness :
  ∃ e,
    LbdocMetaclass.setattr Example.text LbdocMetaclass.recursion_limit
      Example.described_class [] "metadata" (VStr "x") = raise e.
Proof.
  apply (lbdoc_structure_named_metadata Example.text
           (LbdocMetaclass.OBase Example.described_doc)
           Example.described_class (SField Example.metadata_field)).
  - reflexivity.
  - split; [nodup_by_eval|]. by repeat constructor.
  - apply list_elem_of_here.
  - reflexivity.
Defined.

Lemma lbdoc_constructor_success_witness :
  ("self" ∉ keys [("title", VStr "X")])
  ∧ (∀ r, r ∈ LbdocMetaclass.rnames Example.books_class →
          r ∈ keys [("title", VStr "X")])
  ∧ (∀ k, k ∈ keys [("title", VStr "X")] →
          is_Some (LbdocMetaclass.class_attr Example.books_class k))
  ∧ ∃ attrs,
      VInst (DocClass None) [("_title", VField "title" (Some (VStr "X")))]
      = VInst (LbdocMetaclass.cls_id Example.books_class) attrs.
Proof.
  apply (lbdoc_constructor_success Example.text
           (LbdocMetaclass.OBase Example.books_doc) None Example.books_class
           [("title", VStr "X")]).
  - reflexivity.
  - split; [nodup_by_eval|]. by repeat constructor.
  - apply (bool_decide_unpack _). vm_compute. reflexivity.
  - vm_compute. reflexivity.
Defined.

(** *** The accessors of a generated type (lbbase/struct.py) *)

Section StructAccessors.
Variable datatype_schema : Field → val → res val.

Local Abbreviation struct_setattr := (LbbaseStruct.setattr datatype_schema).
Local Abbreviation struct_normalizes :=
  (LbdocMetaclass.normalizes datatype_schema).

Lemma struct_delattr_level n self (c : Content) (attrs : pydict) s :
  wf_level c → s ∈ c →
  LbbaseStruct.delattr (S (S n)) self c attrs (structname s)
  = if dict_has ("_" +:+ structname s) attrs
    then ret (dict_del ("_" +:+ structname s) attrs)
    else raise (AttributeError ("_" +:+ structname s)).
Proof.
  intros Hwf Hin. cbn [LbbaseStruct.delattr].
  rewrite class_property_found by done.
  unfold LbbaseStruct.deleter. cbn [LbbaseStruct.delattr].
  by rewrite class_property_private.
Qed.


(** X11 (lbbase/struct.py, _make_meta_prop: setter and getter): on a
    level of distinct names without a leading underscore, the property of
    a single-valued Group takes an instance of the generated type of the
    group and nothing else; the instance is stored and read back as it is,
    and any other value, a raw dict included, is refused with an
    AssertionError. *)
Theorem struct_group_set_then_get self (c : Content) md r inner mc attrs value :
  plain_level c → SGroup md r inner ∈ c → gmultivalued md = false →
  LbbaseStruct.get_metaclass self (gname md) = ret mc →
  match struct_setattr LbbaseStruct.recursion_limit self c attrs (gname md)
          value with
  | inr attrs' =>
      LbbaseStruct.isinstance value mc = true
      ∧ LbbaseStruct.getattr LbbaseStruct.recursion_limit self c attrs'
          (gname md) = ret value
  | inl e =>
      LbbaseStruct.isinstance value mc = false ∧ ∃ msg, e = AssertionError msg
  end.
Proof.
  intros Hwf%plain_level_wf Hin Hsingle Hmc. rewrite recursion_limit_unfold.
  change (gname md) with (structname (SGroup md r inner)).
  rewrite setattr_level by done.
  unfold LbbaseStruct.setter_value. cbn [structname].
  rewrite Hmc, Hsingle. cbn [bind ret].
  destruct (LbbaseStruct.isinstance value mc); cbn [bind ret raise];
    [|by eauto].
  split; [done|].
  change (gname md) with (structname (SGroup md r inner)).
  rewrite getattr_level by done. cbn [structname is_field].
  by rewrite dict_get_set_eq.
Qed.

(** X12 (lbbase/struct.py, _make_meta_prop: deleter): on a level of
    distinct names without a leading underscore, deleting the property of
    a structure succeeds exactly when the instance holds the private
    attribute; after it, reading the property and deleting it once more
    both raise the AttributeError of the private attribute. *)
Theorem struct_delete_then_get self (c : Content) s (attrs : pydict) :
  plain_level c → s ∈ c → dict_wf attrs →
  match LbbaseStruct.delattr LbbaseStruct.recursion_limit self c attrs
          (structname s) with
  | inr attrs' =>
      dict_has ("_" +:+ structname s) attrs = true
      ∧ LbbaseStruct.getattr LbbaseStruct.recursion_limit self c attrs'
          (structname s)
        = raise (AttributeError ("_" +:+ structname s))
      ∧ LbbaseStruct.delattr LbbaseStruct.recursion_limit self c attrs'
          (structname s)
        = raise (AttributeError ("_" +:+ structname s))
  | inl e =>
      dict_has ("_" +:+ structname s) attrs = false
      ∧ e = AttributeError ("_" +:+ structname s)
  end.
Proof.
  intros Hwf%plain_level_wf Hin Hattrs. rewrite recursion_limit_unfold.
  rewrite struct_delattr_level by done.
  destruct (dict_has ("_" +:+ structname s) attrs) eqn:Hhas; [|done].
  split; [done|].
  rewrite getattr_level, struct_delattr_level by done.
  by rewrite dict_has_del_eq, dict_get_del_eq.
Qed.

End StructAccessors.


Lemma example_level_plain : plain_level (content Example.base).
Proof. split; [nodup_by_eval|]. by repeat constructor. Qed.


Lemma struct_group_set_then_get_witness :
  match LbbaseStruct.setattr Example.text LbbaseStruct.recursion_limit
          Example.base (content Example.base) [] "author"
          (VDict [("name", VStr "Y")]) with
  | inr attrs' =>
      LbbaseStruct.isinstance (VDict [("name", VStr "Y")])
        (StructMetaClass Example.author) = true
      ∧ LbbaseStruct.getattr LbbaseStruct.recursion_limit Example.base
          (content Example.base) attrs' "author"
        = ret (VDict [("name", VStr "Y")])
  | inl e =>
      LbbaseStruct.isinstance (VDict [("name", VStr "Y")])
        (StructMetaClass Example.author) = false
      ∧ ∃ msg, e = AssertionError msg
  end.
Proof.
  apply (struct_group_set_then_get Example.text Example.base
           (content Example.base)
           {| gname := "author"; gmultivalued := false |} false
           [SField Example.author_name] (StructMetaClass Example.author) []
           (VDict [("name", VStr "Y")])).
  - apply example_level_plain.
  - apply list_elem_of_further, list_elem_of_here.
  - reflexivity.
  - reflexivity.
Defined.

Lemma struct_delete_then_get_witness :
  match LbbaseStruct.delattr LbbaseStruct.recursion_limit Example.base
          (content Example.base)
          [("_title", VField "title" (Some (VStr "X")))]
          (structname (SField Example.title)) with
  | inr attrs' =>
      dict_has ("_" +:+ structname (SField Example.title))
        [("_title", VField "title" (Some (VStr "X")))] = true
      ∧ LbbaseStruct.getattr LbbaseStruct.recursion_limit Example.base
          (content Example.base) attrs' (structname (SField Example.title))
        = raise (AttributeError ("_" +:+ structname (SField Example.title)))
      ∧ LbbaseStruct.delattr LbbaseStruct.recursion_limit Example.base
          (content Example.base) attrs' (structname (SField Example.title))
        = raise (AttributeError ("_" +:+ structname (SField Example.title)))
  | inl e =>
      dict_has ("_" +:+ structname (SField Example.title))
        [("_title", VField "title" (Some (VStr "X")))] = false
      ∧ e = AttributeError ("_" +:+ structname (SField Example.title))
  end.
Proof.
  apply (struct_delete_then_get Example.base (content Example.base)
           (SField Example.title)
           [("_title", VField "title" (Some (VStr "X")))]).
  - apply example_level_plain.
  - apply list_elem_of_here.
  - nodup_by_eval.
Defined.

(** *** Construction and conversion (lbbase/struct.py) *)

Lemma mapM_fails {A B} (f : A → res B) xs x e :
  x ∈ xs → f x = raise e → ∃ e', mapM f xs = raise e'.
Proof.
  intros Hin Hx. induction xs as [|y xs IH]; [by apply elem_of_nil in Hin|].
  simpl. destruct (f y) as [e'|b] eqn:Hy; [by eexists|].
  apply elem_of_cons in Hin as [->|Hin].
  - rewrite Hx in Hy. discriminate Hy.
  - destruct (IH Hin) as [e' He']. rewrite He'. by eexists.
Qed.

Lemma keys_elem (d : pydict) k : k ∈ keys d → ∃ v, (k, v) ∈ d.
Proof.
  unfold keys. intros ([k' v] & -> & Hin)%list_elem_of_fmap. by exists v.
Qed.

Lemma dict_set_has_key k v (d : pydict) : k ∈ keys (dict_set k v d).
Proof.
  induction d as [|[k' v'] d IH]; simpl; [apply list_elem_of_here|].
  destruct (String.eqb k' k) eqn:E; simpl.
  - apply String.eqb_eq in E as ->. apply list_elem_of_here.
  - by apply list_elem_of_further.
Qed.

Section StructConstruction.
Variable datatype_schema : Field → val → res val.

Local Abbreviation struct_json2document :=
  (LbbaseStruct.json2document datatype_schema).

(** The loop of the constructor gets through only when every keyword is
    the name of a structure of the level. *)
Lemma struct_init_loop_names setattr snames basename (self self' : pydict)
    kwargs :
  LbbaseStruct.init_loop setattr snames basename self kwargs = (self', ret tt) →
  ∀ k, k ∈ keys kwargs → k ∈ snames.
Proof.
  revert self. induction kwargs as [|[arg value] rest IH]; intros self Hloop k.
  - by intros ?%elem_of_nil.
  - cbn [LbbaseStruct.init_loop] in Hloop.
    destruct (existsb (String.eqb arg) snames) eqn:Hknown;
      [|discriminate Hloop].
    destruct (setattr self arg value) as [e|self1]; [discriminate Hloop|].
    cbn [keys map fst]. intros [->|Hk]%elem_of_cons; [|by apply (IH self1)].
    apply existsb_exists in Hknown as (n & Hn & <-%String.eqb_eq).
    by apply list_elem_of_In.
Qed.

(** X13 (lbbase/struct.py, BaseMetaClass.__init__): a construction
    succeeds only when every required name of the level is among the
    keywords and every keyword is the name of a structure of the level;
    the result is an instance of the type. *)
Theorem struct_constructor_success self m kwargs v :
  LbbaseStruct.metaclass_new datatype_schema self m kwargs = ret v →
  (∀ r, r ∈ __rnames__ (LbbaseStruct.metaclass_content self m) →
        r ∈ keys kwargs)
  ∧ (∀ k, k ∈ keys kwargs →
          k ∈ __snames__ (LbbaseStruct.metaclass_content self m))
  ∧ ∃ attrs, v = VInst (LbbaseStruct.metaclass_id m) attrs.
Proof.
  intros Hnew.
  assert (∃ basename self',
    LbbaseStruct.BaseMetaClass_init datatype_schema self
      (LbbaseStruct.metaclass_content self m) basename kwargs = (self', ret tt)
    ∧ v = VInst (LbbaseStruct.metaclass_id m) self') as (basename & self' & Hinit & ->).
  { unfold LbbaseStruct.metaclass_new in Hnew.
    destruct m as [|[f|md r c]]; [|discriminate Hnew|].
    - destruct (existsb (String.eqb "self") (keys kwargs));
        [discriminate Hnew|].
      destruct (LbbaseStruct.BaseMetaClass_init _ _ _ _ _) as [self' [e|[]]]
        eqn:Hinit; [discriminate Hnew|].
      injection Hnew as <-. by eexists _, _.
    - destruct (existsb (String.eqb "self") (keys kwargs));
        [discriminate Hnew|].
      destruct (LbbaseStruct.BaseMetaClass_init _ _ _ _ _) as [self' [e|[]]]
        eqn:Hinit; [discriminate Hnew|].
      injection Hnew as <-. by eexists _, _. }
  split; [|split; [|by eexists]].
  - intros r Hr. destruct (decide (r ∈ keys kwargs)) as [|Hni]; [done|].
    exfalso.
    destruct (BaseMetaClass_init_missing datatype_schema self
                (LbbaseStruct.metaclass_content self m) basename kwargs r Hr Hni)
      as (missing & Hmiss & _).
    rewrite Hmiss in Hinit. discriminate Hinit.
  - unfold LbbaseStruct.BaseMetaClass_init in Hinit.
    destruct (size _) in Hinit; [|discriminate Hinit].
    by apply (struct_init_loop_names _ _ _ _ _ _ Hinit).
Qed.

(** X14 (lbbase/struct.py, Base.json2document): a mapping with a member
    that is not the name of a structure of the base is never converted:
    the conversion ends in an exception. *)
Theorem json2document_unknown_member self items m k :
  k ∈ keys items →
  LbbaseStruct.get_struct self k = raise (KeyError k) →
  ∃ e, struct_json2document self (VDict items) m = raise e.
Proof.
  intros [v Hin]%keys_elem Hstruct. rewrite json2document_dict.
  destruct (mapM_fails
              (LbbaseStruct.json2document_member datatype_schema
                 (struct_json2document self) self) items (k, v) (KeyError k))
    as [e He]; [done| |].
  - unfold LbbaseStruct.json2document_member. by rewrite Hstruct.
  - rewrite He. by eexists.
Qed.

End StructConstruction.

Lemma struct_constructor_success_witness :
  (∀ r, r ∈ __rnames__ (LbbaseStruct.metaclass_content Example.base
                           BaseMetaClass) →
        r ∈ keys [("title", VStr "X")])
  ∧ (∀ k, k ∈ keys [("title", VStr "X")] →
          k ∈ __snames__ (LbbaseStruct.metaclass_content Example.base
                            BaseMetaClass))
  ∧ ∃ attrs,
      VInst (DocClass None) [("_title", VField "title" (Some (VStr "X")))]
      = VInst (LbbaseStruct.metaclass_id BaseMetaClass) attrs.
Proof.
  apply (struct_constructor_success Example.text Example.base BaseMetaClass
           [("title", VStr "X")]).
  vm_compute. reflexivity.
Defined.

Lemma json2document_unknown_member_witness :
  ∃ e,
    LbbaseStruct.json2document Example.text Example.base
      (VDict [("title", VStr "X"); ("_metadata", VDict [])]) BaseMetaClass
    = raise e.
Proof.
  apply (json2document_unknown_member Example.text Example.base
           [("title", VStr "X"); ("_metadata", VDict [])] BaseMetaClass
           "_metadata").
  - apply list_elem_of_further, list_elem_of_here.
  - reflexivity.
Defined.

(** *** Validation (lbbase/struct.py) *)

Lemma dict_del_keeps_key k k0 (d : pydict) :
  k ∈ keys d → k ≠ k0 → k ∈ keys (dict_del k0 d).
Proof.
  intros Hin Hne. induction d as [|[k' v'] d IH]; [done|].
  simpl in *. destruct (String.eqb k' k0) eqn:E.
  - apply String.eqb_eq in E as ->.
    by apply elem_of_cons in Hin as [->|Hin].
  - simpl. apply elem_of_cons in Hin as [->|Hin];
      [apply list_elem_of_here|apply list_elem_of_further; by apply IH].
Qed.

Section MappingErrors.
Context {S : Type}.

(** Once an error is collected the mapping is refused. *)
Lemma validate_mapping_errors (schema : schema_dict S) items required_keys out
    errors st :
  errors ≠ [] →
  ∃ st' e,
    validate_mapping schema items required_keys out errors st = (st', inl e).
Proof.
  revert required_keys out errors st.
  induction items as [|[key value] rest IH];
    intros required_keys out errors st Herr; simpl.
  - destruct errors as [|e errors]; [done|]. simpl. by eexists _, _.
  - destruct (schema_find key schema) as [[skey cvalue]|].
    + destruct (cvalue value st) as [st' [e|cval]].
      * destruct (is_collected e); [|by eexists _, _].
        apply IH. by destruct errors.
      * by apply IH.
    + apply IH. by destruct errors.
Qed.

(** A key that the schema does not have is an error. *)
Lemma validate_mapping_unknown_key (schema : schema_dict S) items k
    required_keys out errors st :
  k ∈ keys items → schema_find k schema = None →
  ∃ st' e,
    validate_mapping schema items required_keys out errors st = (st', inl e).
Proof.
  intros Hin Hfind. revert required_keys out errors st.
  induction items as [|[key value] rest IH];
    intros required_keys out errors st; [by apply elem_of_nil in Hin|].
  simpl in Hin. apply elem_of_cons in Hin as [<-|Hin]; simpl.
  - rewrite Hfind. apply validate_mapping_errors. by destruct errors.
  - destruct (schema_find key schema) as [[skey cvalue]|].
    + destruct (cvalue value st) as [st' [e|cval]].
      * destruct (is_collected e); [|by eexists _, _]. by apply IH.
      * by apply IH.
    + by apply IH.
Qed.

End MappingErrors.

Section ValidateMore.
Variable struct_schema : Struct → Z → validator Base.
Variable datatype_schema : Field → val → res val.

Local Abbreviation validate_doc := (LbbaseStruct.validate struct_schema).

(** The keys of the compiled schema are names of structures of the
    content. *)
Lemma schema_names self id entry :
  entry ∈ LbbaseStruct.schema struct_schema self id →
  marker_schema entry.1 ∈ __snames__ (content self).
Proof.
  unfold LbbaseStruct.schema.
  assert (∀ (names : list string) (c : Content) (acc : schema_dict Base),
    (∀ s, s ∈ c → structname s ∈ names) →
    (∀ e, e ∈ acc → marker_schema e.1 ∈ names) →
    ∀ e, e ∈ fold_left
      (λ schema struct,
         let structname := structname struct in
         let structname :=
           if getattr_required struct then Required structname
           else Plain structname in
         schema_update structname (struct_schema struct id) schema) c acc →
    marker_schema e.1 ∈ names) as Hgen.
  { intros names. induction c as [|s c IH]; intros acc Hc Hacc e; simpl;
      [by apply Hacc|].
    apply IH; [intros s' Hs'; apply Hc; by apply list_elem_of_further|].
    clear e IH. intros e.
    assert (marker_schema (if getattr_required s then Required (structname s)
                           else Plain (structname s)) ∈ names) as Hkey.
    { destruct (getattr_required s); apply Hc, list_elem_of_here. }
    revert Hkey.
    generalize (if getattr_required s then Required (structname s)
                else Plain (structname s)) as key.
    intros key Hkey. induction acc as [|[k v] acc IHacc]; simpl.
    - by intros ->%list_elem_of_singleton.
    - destruct (String.eqb (marker_schema k) (marker_schema key)).
      + intros [->|Hin]%elem_of_cons.
        * apply (Hacc (k, v)). apply list_elem_of_here.
        * apply Hacc. by apply list_elem_of_further.
      + intros [->|Hin]%elem_of_cons.
        * apply (Hacc (k, v)). apply list_elem_of_here.
        * apply IHacc; [|done]. intros e' He'. apply Hacc.
          by apply list_elem_of_further. }
  apply Hgen.
  - intros s Hs. by apply list_elem_of_fmap_2.
  - intros e He. by apply elem_of_nil in He.
Qed.

Lemma schema_find_unknown self id k :
  k ∉ __snames__ (content self) →
  schema_find k (LbbaseStruct.schema struct_schema self id) = None.
Proof.
  intros Hk.
  destruct (schema_find k _) as [[skey cvalue]|] eqn:Hfind; [|done].
  exfalso. apply Hk.
  rewrite <- (schema_find_name _ _ _ _ Hfind).
  apply (schema_names self id (skey, cvalue)).
  by apply schema_find_elem in Hfind.
Qed.

(** X15 (lbbase/struct.py, Base.validate): a document with a key, other
    than [_metadata], that is not the name of a structure of the content
    is refused: validation ends in the exception of the base, the caller's
    mapping is left without its [_metadata] key, and the memory areas of
    the document id are gone. *)
Theorem validate_rejects_unknown_key self h document _meta d k :
  LbbaseStruct.keeps_memory_area struct_schema (id_doc _meta) →
  h !! document = Some d →
  k ∈ keys d → k ≠ "_metadata" → k ∉ __snames__ (content self) →
  ∃ self' e,
    validate_doc self h document _meta
    = Some (self', <[document := delete_metadata d]> h,
            raise (Exception
                     "document data is not according to base definition." e))
    ∧ __files__ self' !! id_doc _meta = None
    ∧ __reldata__ self' !! id_doc _meta = None.
Proof.
  intros Hkeeps Hdoc Hin Hne Hk.
  assert (k ∈ keys (delete_metadata d)) as Hin'.
  { unfold delete_metadata. destruct (dict_has "_metadata" d); [|done].
    by apply dict_del_keeps_key. }
  destruct (validate_mapping_unknown_key
              (LbbaseStruct.schema struct_schema
                 (create_memory_area (id_doc _meta) self) (id_doc _meta))
              (delete_metadata d) k
              (all_required_keys
                 (LbbaseStruct.schema struct_schema
                    (create_memory_area (id_doc _meta) self) (id_doc _meta)))
              [] [] (create_memory_area (id_doc _meta) self) Hin')
    as (st & e & Hmap).
  { by apply schema_find_unknown. }
  destruct (validate_failure struct_schema self h document _meta d st e)
    as (self' & Hv & Hf & Hr); [done..| |by exists self', e].
  unfold Schema. by rewrite Hmap.
Qed.

(** X16 (lbbase/struct.py, Base.validate): validation starts from fresh
    memory areas for the document id: whatever an earlier validation of
    the same id left in [__files__] and [__reldata__] changes nothing of
    the outcome. *)
Theorem validate_resets_memory_area self h document _meta files reldata :
  validate_doc
    (set_reldata (<[id_doc _meta := reldata]> (__reldata__ self))
       (set_files (<[id_doc _meta := files]> (__files__ self)) self))
    h document _meta
  = validate_doc self h document _meta.
Proof.
  unfold LbbaseStruct.validate.
  assert (create_memory_area (id_doc _meta)
            (set_reldata (<[id_doc _meta := reldata]> (__reldata__ self))
               (set_files (<[id_doc _meta := files]> (__files__ self)) self))
          = create_memory_area (id_doc _meta) self) as ->; [|done].
  unfold create_memory_area, set_reldata, set_files. simpl.
  by rewrite !insert_insert_eq.
Qed.

(** X17 (lbbase/struct.py, Base.validate and Base.json2document): the
    mapping a successful validation returns carries the key [_metadata];
    unless the base has a structure of that name, converting that mapping
    to a typed document ends in an exception. *)
Theorem validated_document_not_convertible self h document _meta self' h'
    validated reldata files l m :
  validate_doc self h document _meta
    = Some (self', h', ret (validated, reldata, files, l)) →
  LbbaseStruct.get_struct self "_metadata" = raise (KeyError "_metadata") →
  ∃ d e,
    h' !! validated = Some d
    ∧ dict_get "_metadata" d = Some (VDict (__dict__ _meta))
    ∧ LbbaseStruct.json2document datatype_schema self (VDict d) m = raise e.
Proof.
  intros Hv Hstruct. unfold LbbaseStruct.validate in Hv.
  destruct (h !! document) as [d0|]; [|discriminate Hv]. cbv zeta in Hv.
  destruct (Schema _ _ _) as [st [e|v]].
  { destruct (clear_memory_area _ _ _). discriminate Hv. }
  destruct v as [| | | | |out| | |]; try discriminate Hv.
  destruct (__reldata__ st !! id_doc _meta); [|discriminate Hv].
  destruct (__files__ st !! id_doc _meta); [|discriminate Hv].
  injection Hv as <- <- <- <- <- <-.
  destruct (keys_elem
              (dict_set "_metadata" (VDict (__dict__ _meta)) out) "_metadata")
    as [v Hin]; [apply dict_set_has_key|].
  destruct (mapM_fails
              (LbbaseStruct.json2document_member datatype_schema
                 (LbbaseStruct.json2document datatype_schema self) self)
              _ _ (KeyError "_metadata") Hin) as [e He].
  { unfold LbbaseStruct.json2document_member. by rewrite Hstruct. }
  exists (dict_set "_metadata" (VDict (__dict__ _meta)) out), e.
  split; [apply lookup_insert_eq|].
  split; [apply dict_get_set_eq|].
  rewrite json2document_dict. by rewrite He.
Qed.

End ValidateMore.

Lemma validate_rejects_unknown_key_witness :
  ∃ self' e,
    LbbaseStruct.validate Example.noting_schema Example.base
      (Example.store [("title", VStr "X"); ("extra", VInt 1)]) 0%nat
      Example.meta7
    = Some (self',
            <[0%nat := delete_metadata [("title", VStr "X"); ("extra", VInt 1)]]>
              (Example.store [("title", VStr "X"); ("extra", VInt 1)]),
            raise (Exception
                     "document data is not according to base definition." e))
    ∧ __files__ self' !! id_doc Example.meta7 = None
    ∧ __reldata__ self' !! id_doc Example.meta7 = None.
Proof.
  apply (validate_rejects_unknown_key Example.noting_schema Example.base
           (Example.store [("title", VStr "X"); ("extra", VInt 1)]) 0%nat
           Example.meta7 [("title", VStr "X"); ("extra", VInt 1)] "extra").
  - apply noting_schema_keeps.
  - reflexivity.
  - apply list_elem_of_further, list_elem_of_here.
  - discriminate.
  - apply (bool_decide_unpack _). vm_compute. reflexivity.
Defined.

Lemma example_validate_full :
  ∃ st h' reldata files,
    LbbaseStruct.validate Example.noting_schema Example.base
      (Example.store Example.doc_full) 0%nat Example.meta7
    = Some (st, h', ret (1%nat, reldata, files, [])).
Proof. eexists _, _, _, _. vm_compute. reflexivity. Qed.

Lemma validated_document_not_convertible_witness :
  ∃ st h' reldata files,
    LbbaseStruct.validate Example.noting_schema Example.base
      (Example.store Example.doc_full) 0%nat Example.meta7
    = Some (st, h', ret (1%nat, reldata, files, []))
    ∧ ∃ d e,
        h' !! 1%nat = Some d
        ∧ dict_get "_metadata" d = Some (VDict (__dict__ Example.meta7))
        ∧ LbbaseStruct.json2document Example.text Example.base (VDict d)
            BaseMetaClass = raise e.
Proof.
  destruct example_validate_full as (st & h' & reldata & files & Hv).
  exists st, h', reldata, files. split; [exact Hv|].
  apply (validated_document_not_convertible Example.noting_schema Example.text
           Example.base (Example.store Example.doc_full) 0%nat Example.meta7
           st h' 1%nat reldata files [] BaseMetaClass Hv).
  reflexivity.
Defined.

(** *** The schema of lbbase/__init__.py *)

Lemma init_schema_from_app {S} (pre rest : list (LbbaseInit.Attr S))
    (acc : schema_dict S) :
  Forall LbbaseInit.required_attr_ok pre →
  ∃ acc', LbbaseInit.schema_from acc (pre ++ rest)
          = LbbaseInit.schema_from acc' rest.
Proof.
  revert acc. induction pre as [|attr pre IH]; intros acc Hok; simpl.
  - by exists acc.
  - apply Forall_cons in Hok as [Hattr Hok].
    rewrite init_schema_step_ok by done. simpl. by apply IH.
Qed.

(** X18 (lbbase/__init__.py, Base.schema): when the attribute [required]
    of an element of the content is truthy but is no object with an
    attribute [required] of its own (the plain True, say), building the
    schema ends in the AttributeError of that lookup, the elements before
    it being in order. *)
Theorem init_schema_required_without_flag {S}
    (pre post : list (LbbaseInit.Attr S)) attr r :
  Forall LbbaseInit.required_attr_ok pre →
  LbbaseInit.attr_required attr = Some r →
  truthy r = true →
  (∀ flag, LbbaseInit.getattr_required r ≠ ret flag) →
  LbbaseInit.schema (pre ++ attr :: post) = raise (AttributeError "required").
Proof.
  intros Hpre Hattr Htruthy Hflag. unfold LbbaseInit.schema.
  destruct (init_schema_from_app pre (attr :: post) [] Hpre) as [acc ->].
  simpl. unfold LbbaseInit.schema_step. rewrite Hattr, Htruthy.
  destruct (LbbaseInit.getattr_required r) as [e|flag] eqn:Hget.
  - simpl. unfold LbbaseInit.getattr_required in Hget.
    destruct r; try (by injection Hget as <-).
    destruct (dict_get "required" attrs); [done|by injection Hget as <-].
  - by destruct (Hflag flag).
Qed.

Lemma init_schema_required_without_flag_witness :
  LbbaseInit.schema
    ([Example.old_title]
     ++ {| LbbaseInit.attr_name := "year";
           LbbaseInit.attr_required := Some (VBool true);
           LbbaseInit.attr_schema :=
             Example.noting_schema (SField Example.title) 0%Z |} :: [])
  = raise (AttributeError "required").
Proof.
  apply (init_schema_required_without_flag [Example.old_title] []
           {| LbbaseInit.attr_name := "year";
              LbbaseInit.attr_required := Some (VBool true);
              LbbaseInit.attr_schema :=
                Example.noting_schema (SField Example.title) 0%Z |}
           (VBool true)).
  - apply Forall_singleton. intros _. by eexists.
  - reflexivity.
  - reflexivity.
  - intros flag. discriminate.
Defined.

(** *** Reading a typed document back (lbbase/struct.py) *)

Lemma dict_set_keys_elem k k' v (d : pydict) :
  k ∈ keys (dict_set k' v d) → k = k' ∨ k ∈ keys d.
Proof.
  induction d as [|[k0 v0] d IH]; simpl.
  - intros ->%list_elem_of_singleton. by left.
  - destruct (String.eqb k0 k'); simpl.
    + intros Hin. by right.
    + intros [->|Hin]%elem_of_cons.
      * right. apply list_elem_of_here.
      * destruct (IH Hin) as [->|?]; [by left|].
        right. by apply list_elem_of_further.
Qed.

(** One round of the loop of [document2dict]: the name is passed over, or
    it is added to the mapping with some value. *)
Lemma document2dict_loop_step d2d self document sname rest acc d :
  LbbaseStruct.document2dict_loop d2d self document (sname :: rest) acc
    = ret d →
  (∃ e, LbbaseStruct.getattr_document self document sname = raise e
        ∧ LbbaseStruct.document2dict_loop d2d self document rest acc = ret d)
  ∨ (∃ value x,
       LbbaseStruct.getattr_document self document sname = ret value
       ∧ LbbaseStruct.document2dict_loop d2d self document rest
           (dict_set sname x acc) = ret d).
Proof.
  cbn [LbbaseStruct.document2dict_loop].
  destruct (LbbaseStruct.getattr_document self document sname)
    as [e|value].
  - destruct (is_AttributeError e); [|intros Hd; discriminate Hd].
    intros Hd. left. by exists e.
  - intros Hd. right. exists value.
    destruct (LbbaseStruct.get_struct self sname) as [e|[f|md r c]];
      cbn [bind] in Hd; [discriminate Hd|by eexists|].
    match type of Hd with
    | bind ?m _ = _ => destruct m as [e|x]; cbn [bind] in Hd
    end; [discriminate Hd|by exists x].
Qed.

(** X19 (lbbase/struct.py, Base.document2dict): a structure that is not
    set on the document is passed over, it is no error: for a content of
    distinct names without a leading underscore, the mapping made of a
    base-level instance has keys only for structures of the content whose
    private attribute the instance holds, and the mapping made of an
    instance that holds nothing is empty. *)
Theorem document2dict_reports_what_is_set self n :
  plain_level (content self) →
  LbbaseStruct.document2dict (S n) self (VInst (DocClass None) []) None
    = ret []
  ∧ ∀ attrs d,
      LbbaseStruct.document2dict (S n) self (VInst (DocClass None) attrs) None
        = ret d →
      ∀ k, k ∈ keys d →
        k ∈ __snames__ (content self)
        ∧ dict_has ("_" +:+ k) attrs = true.
Proof.
  intros Hwf%plain_level_wf.
  assert (∀ attrs s, s ∈ content self →
    LbbaseStruct.getattr_document self (VInst (DocClass None) attrs)
      (structname s)
    = match dict_get ("_" +:+ structname s) attrs with
      | Some value =>
          if is_field s then LbdocMetaclass.getattr_value value else ret value
      | None => raise (AttributeError ("_" +:+ structname s))
      end) as Hget.
  { intros attrs s Hs. unfold LbbaseStruct.getattr_document.
    cbn [LbbaseStruct.class_content].
    by rewrite recursion_limit_unfold, getattr_level. }
  cbn [LbbaseStruct.document2dict bind ret]. split.
  - assert (∀ c2 : Content, (∀ s, s ∈ c2 → s ∈ content self) →
      LbbaseStruct.document2dict_loop (LbbaseStruct.document2dict n self) self
        (VInst (DocClass None) []) (__snames__ c2) [] = ret []) as Hloop.
    { induction c2 as [|s c2 IH]; intros Hsub; [done|].
      cbn [__snames__ map LbbaseStruct.document2dict_loop].
      rewrite Hget by apply Hsub, list_elem_of_here.
      cbn [dict_get is_AttributeError]. apply IH.
      intros s' Hs'. by apply Hsub, list_elem_of_further. }
    by apply Hloop.
  - intros attrs d.
    assert (∀ (c2 : Content) acc, (∀ s, s ∈ c2 → s ∈ content self) →
      LbbaseStruct.document2dict_loop (LbbaseStruct.document2dict n self) self
        (VInst (DocClass None) attrs) (__snames__ c2) acc = ret d →
      ∀ k, k ∈ keys d →
        k ∈ keys acc
        ∨ (k ∈ __snames__ (content self)
           ∧ dict_has ("_" +:+ k) attrs = true)) as Hloop.
    { induction c2 as [|s c2 IH]; intros acc Hsub Hd k Hk.
      - injection Hd as <-. by left.
      - assert (s ∈ content self) as Hs by apply Hsub, list_elem_of_here.
        assert (∀ s', s' ∈ c2 → s' ∈ content self) as Hsub'
          by (intros s' Hs'; by apply Hsub, list_elem_of_further).
        cbn [__snames__ map] in Hd.
        apply document2dict_loop_step in Hd
          as [(e & _ & Hd)|(value & x & Hvalue & Hd)].
        + by apply (IH acc).
        + destruct (IH _ Hsub' Hd k Hk) as [Hacc|?]; [|by right].
          apply dict_set_keys_elem in Hacc as [->|?]; [|by left].
          right. split; [by apply list_elem_of_fmap_2|].
          rewrite Hget in Hvalue by done. unfold dict_has.
          destruct (dict_get ("_" +:+ structname s) attrs); [done|].
          discriminate Hvalue. }
    intros Hd k Hk.
    destruct (Hloop (content self) [] (λ s Hs, Hs) Hd k Hk) as [Hnil|?];
      [by apply elem_of_nil in Hnil|done].
Qed.

Lemma document2dict_reports_what_is_set_witness :
  LbbaseStruct.document2dict 3 Example.base (VInst (DocClass None) []) None
    = ret []
  ∧ ∀ attrs d,
      LbbaseStruct.document2dict 3 Example.base (VInst (DocClass None) attrs)
        None = ret d →
      ∀ k, k ∈ keys d →
        k ∈ __snames__ (content Example.base)
        ∧ dict_has ("_" +:+ k) attrs = true.
Proof.
  apply (document2dict_reports_what_is_set Example.base 2).
  apply example_level_plain.
Defined.

(** *** The list a multivalued Group is given (lbdoc/metaclass.py) *)

Section MultiGroupProperty.
Variable datatype_schema : Field → val → res val.

(** X20 (lbdoc/metaclass.py, generate_property: setter and getter, with
    generate_multimetaclass): after a successful assignment to the
    property of a multivalued Group the property reads a list of the
    checking list type of the group with the elements that were given, and
    every one of them is an instance of the type the base generates for
    the group. *)
Theorem lbdoc_multigroup_set_then_get C md r inner (self : pydict) value self' :
  LbdocMetaclass.generated_over C →
  SGroup md r inner ∈ LbdocMetaclass.cls_content C →
  gmultivalued md = true →
  LbdocMetaclass.setattr datatype_schema LbdocMetaclass.recursion_limit C self
    (gname md) value = ret self' →
  ∃ struct_metaclass elements,
    LbdocMetaclass.Base_metaclass (LbdocMetaclass.cls_base C) (gname md)
      = ret struct_metaclass
    ∧ as_list value = Some elements
    ∧ LbdocMetaclass.homogeneous struct_metaclass elements
    ∧ LbdocMetaclass.getattr LbdocMetaclass.recursion_limit C self' (gname md)
      = ret (VMulti (gname md) elements).
Proof.
  intros HC Hin Hmulti. rewrite lbdoc_recursion_limit_unfold.
  change (gname md) with (structname (SGroup md r inner)).
  rewrite lbdoc_setattr_struct, lbdoc_getattr_struct by done.
  unfold LbdocMetaclass.setter. cbn [structname is_field].
  destruct (LbdocMetaclass.Base_metaclass _ _) as [e|mc]; [done|].
  cbn [bind]. rewrite Hmulti.
  destruct (as_list value) as [elements|]; [|done].
  destruct (forallb _ elements) eqn:Hall; [|done].
  cbn [bind ret]. intros [= <-]. exists mc, elements.
  split; [done|]. split; [done|]. split.
  - unfold LbdocMetaclass.homogeneous. apply Forall_forall. intros x Hx.
    rewrite forallb_forall in Hall. apply Hall. by apply list_elem_of_In.
  - by rewrite dict_get_set_eq.
Qed.

End MultiGroupProperty.

Lemma example_tagged_generated :
  LbdocMetaclass.generated_over Example.tagged_class.
Proof.
  split; [|split].
  - by exists (LbdocMetaclass.OBase Example.tagged_doc), None.
  - split; [nodup_by_eval|]. by repeat constructor.
  - intros _. unfold __snames__. simpl.
    intros [?|?%elem_of_nil]%elem_of_cons; done.
Qed.

Lemma lbdoc_multigroup_set_then_get_witness :
  ∃ struct_metaclass elements,
    LbdocMetaclass.Base_metaclass
      (LbdocMetaclass.cls_base Example.tagged_class) "tags"
      = ret struct_metaclass
    ∧ as_list (VList [Example.tag_a]) = Some elements
    ∧ LbdocMetaclass.homogeneous struct_metaclass elements
    ∧ LbdocMetaclass.getattr LbdocMetaclass.recursion_limit
        Example.tagged_class [("_tags", VMulti "tags" [Example.tag_a])] "tags"
      = ret (VMulti "tags" elements).
Proof.
  apply (lbdoc_multigroup_set_then_get Example.text Example.tagged_class
           {| gname := "tags"; gmultivalued := true |} false
           [SField Example.tag_value] [] (VList [Example.tag_a])).
  - apply example_tagged_generated.
  - apply list_elem_of_here.
  - reflexivity.
  - vm_compute. reflexivity.
Defined.
